(** * The multi-device conversation client of the Speech SDK

    A shallow embedding of the conversation facade ([ConversationImpl]),
    the session directory client ([ConversationManager]) and the
    connection adapter ([ConversationServiceAdapter]), with the
    properties their specification states about them.

    Objects are records, optional members are [option]s, a method that
    calls back or talks to a collaborator appends to a list of effects,
    and a [try]/[catch] block is a computation in the monad [Try]. *)

From Stdlib Require Import String Ascii List Bool Arith Lia.
From stdpp Require Import base option list gmap strings.

(** * Run-time values *)

(** A value of static type [string]: at run time it can also be
    [undefined] or [null]. *)
Inductive Nullable (A : Type) : Type :=
  | undefined
  | null
  | defined (a : A).
Arguments undefined {A}.
Arguments null {A}.
Arguments defined {A} a.

Abbreviation JsString := (Nullable string).

#[global] Instance Nullable_eq_dec {A} `{EqDecision A} : EqDecision (Nullable A).
Proof. solve_decision. Defined.

(** [!!value] for a string: [undefined], [null] and the empty string are
    falsy. *)
Definition truthy (value : JsString) : bool :=
  match value with
  | defined s => negb (String.eqb s "")
  | _ => false
  end.

(** [!!flag] for an optional boolean member. *)
Definition truthyFlag (flag : option bool) : bool := default false flag.

(** The white space [String.prototype.trim] removes, among the ASCII
    characters: tab, line feed, vertical tab, form feed, carriage return
    and space. *)
Definition isWhiteSpace (c : ascii) : bool :=
  let n := nat_of_ascii c in
  ((9 <=? n) && (n <=? 13)) || (n =? 32).

Fixpoint trimStart (s : string) : string :=
  match s with
  | String c rest => if isWhiteSpace c then trimStart rest else s
  | EmptyString => EmptyString
  end.

Definition trim (s : string) : string :=
  String.rev (trimStart (String.rev (trimStart s))).

(** [String.prototype.toLowerCase] on ASCII letters. *)
Definition toLowerCaseChar (c : ascii) : ascii :=
  let n := nat_of_ascii c in
  if (65 <=? n) && (n <=? 90) then ascii_of_nat (n + 32) else c.

Fixpoint toLowerCase (s : string) : string :=
  match s with
  | String c rest => String (toLowerCaseChar c) (toLowerCase rest)
  | EmptyString => EmptyString
  end.

(** * Errors and the string table *)

(** The entries of [ConversationTranslatorConfig.strings] and of
    [ConversationConnectionConfig.restErrors] the code reads, with the
    placeholder they are instantiated at. The texts themselves are
    constants outside these sources. *)
Inductive Message : Type :=
  | literal (text : string)
  | permissionDeniedStart
  | permissionDeniedConnect
  | permissionDeniedSend
  | permissionDeniedConversation (command : string)
  | permissionDeniedParticipant (command : string)
  | invalidArgs (arg : string)
  | invalidParticipantRequest
  | authInvalidSubscriptionRegion
  | authInvalidSubscriptionKey.

(** What a [throw] carries. Every value is an instance of [Error]; the
    constructors keep apart who raised it. *)
Inductive JsError : Type :=
  | Error (message : Message)            (* new Error(message) *)
  | ObjectDisposed                       (* Contracts.throwIfDisposed *)
  | NullOrUndefined (name : Message)     (* Contracts.throwIfNullOrUndefined *)
  | NullOrWhitespace (name : Message)    (* Contracts.throwIfNullOrWhitespace *)
  | IsNull (name : Message)              (* Contracts.throwIfNull *)
  | TypeError (member : string).         (* a member read on undefined *)

#[global] Instance Message_eq_dec : EqDecision Message.
Proof. solve_decision. Defined.
#[global] Instance JsError_eq_dec : EqDecision JsError.
Proof. solve_decision. Defined.

(** The error classes of the specification, read off the value thrown. *)
Definition isPermissionError (e : JsError) : bool :=
  match e with
  | Error (permissionDeniedConversation _)
  | Error (permissionDeniedParticipant _)
  | Error permissionDeniedSend => true
  | _ => false
  end.

Definition isArgumentError (e : JsError) : bool :=
  match e with
  | Error (invalidArgs _) | Error invalidParticipantRequest
  | NullOrWhitespace (invalidArgs _) => true
  | _ => false
  end.

Definition isDisposedError (e : JsError) : bool :=
  match e with ObjectDisposed => true | _ => false end.

Definition isConfigurationError (e : JsError) : bool :=
  match e with
  | NullOrUndefined _ | NullOrWhitespace _ => true
  | _ => false
  end.

(** * The body of a [try] block

    A computation yields the effects it performed, in order, and either
    the value it returns or the error it threw. *)
Definition Try (E A : Type) : Type := list E * (JsError + A).

#[global] Instance Try_ret {E} : MRet (Try E) := λ A a, ([], inr a).
#[global] Instance Try_bind {E} : MBind (Try E) := λ A B f m,
  match m with
  | (done, inl e) => (done, inl e)
  | (done, inr a) => let '(more, r) := f a in (done ++ more, r)
  end.

Definition throw {E A} (e : JsError) : Try E A := ([], inl e).
Definition perform {E} (effects : list E) : Try E unit := (effects, inr tt).
Definition skip {E} : Try E unit := mret tt.

(** [try { body } catch (error) { handler(error) }] *)
Definition tryCatch {E} (body : Try E unit) (handler : JsError → list E) : list E :=
  match body with
  | (done, inl error) => done ++ handler error
  | (done, inr _) => done
  end.

(** Reading a member of an object that may be [undefined]. *)
Definition member {E A} (name : string) (object : option A) : Try E A :=
  match object with
  | Some o => mret o
  | None => throw (TypeError name)
  end.

(** * Contracts *)
Module Contracts.

Class Nullish (A : Type) := isNullOrUndefined : A → bool.
#[global] Instance Nullable_nullish {A} : Nullish (Nullable A) :=
  λ v, match v with defined _ => false | _ => true end.
#[global] Instance option_nullish {A} : Nullish (option A) :=
  λ v, match v with Some _ => false | None => true end.

(** Modelled from the spec: [Contracts] is not among the sources. A
    string is blank when it is undefined, null, or empty once
    trimmed. *)
Definition isNullOrWhitespace (param : JsString) : bool :=
  match param with
  | defined s => String.length (trim s) <? 1
  | _ => true
  end.

(** Modelled from the spec: [Contracts.throwIfDisposed] is not among
    the sources; it throws the disposed-object error when its argument
    is true. *)
Definition throwIfDisposed {E} (isDisposed : bool) : Try E unit :=
  if isDisposed then throw ObjectDisposed else skip.

(** Modelled from the spec: [Contracts.throwIfNullOrUndefined] is not
    among the sources; it throws when its argument is null or
    undefined. *)
Definition throwIfNullOrUndefined {E A} `{Nullish A} (param : A) (name : Message) : Try E unit :=
  if isNullOrUndefined param then throw (NullOrUndefined name) else skip.

(** Modelled from the spec: [Contracts.throwIfNullOrWhitespace] is not
    among the sources; it throws when its argument is blank. *)
Definition throwIfNullOrWhitespace {E} (param : JsString) (name : Message) : Try E unit :=
  if isNullOrWhitespace param then throw (NullOrWhitespace name) else skip.

End Contracts.

(** * Property collections *)
Module PropertyCollection.

Abbreviation t := (gmap string JsString).

(** Modelled from the spec: [PropertyCollection] is not among the
    sources; it maps property names to string values, and
    [getProperty] yields the stored value, or the default when the name
    is absent ([undefined] when no default is given). *)
Definition getProperty (this : t) (key : string) (def : JsString) : JsString :=
  default def (this !! key).

(** Modelled from the spec: [PropertyCollection.setProperty] is not
    among the sources; it stores the value under the name, over any
    earlier one. *)
Definition setProperty (this : t) (key : string) (value : JsString) : t :=
  <[key := value]> this.

End PropertyCollection.

(** The names of the [PropertyId] members the code uses. *)
Module PropertyId.
Definition SpeechServiceConnection_RecoLanguage := "SpeechServiceConnection_RecoLanguage".
Definition SpeechServiceConnection_TranslationToLanguages := "SpeechServiceConnection_TranslationToLanguages".
Definition SpeechServiceResponse_ProfanityOption := "SpeechServiceResponse_ProfanityOption".
Definition SpeechServiceConnection_Key := "SpeechServiceConnection_Key".
Definition SpeechServiceConnection_Region := "SpeechServiceConnection_Region".
Definition SpeechServiceAuthorization_Token := "SpeechServiceAuthorization_Token".
Definition ConversationTranslator_Name := "ConversationTranslator_Name".
Definition ConversationTranslator_Host := "ConversationTranslator_Host".
Definition ConversationTranslator_CorrelationId := "ConversationTranslator_CorrelationId".
End PropertyId.

(** * Continuations

    A continuation the caller supplied ([cb], [err]); an absent one is
    [None]. The supplied continuations are taken not to throw. *)
Inductive Callback : Type := callback (name : nat).

#[global] Instance Callback_eq_dec : EqDecision Callback.
Proof. solve_decision. Defined.

(** * The speech translation configuration *)
Module SpeechTranslationConfig.

(** Modelled from the spec: the configuration class is not among the
    sources. It wraps a property collection. *)
Record t : Type := { properties : PropertyCollection.t }.

(** Modelled from the spec: the configuration's [getProperty] is not
    among the sources; it reads the wrapped collection. *)
Definition getProperty (this : t) (name : string) (def : JsString) : JsString :=
  PropertyCollection.getProperty (properties this) name def.

(** Modelled from the spec: the configuration's [setProperty] is not
    among the sources; it writes the wrapped collection. *)
Definition setProperty (this : t) (name : string) (value : JsString) : t :=
  {| properties := PropertyCollection.setProperty (properties this) name value |}.

(** Modelled from the spec: [targetLanguages] is not among the
    sources. The languages are the comma-separated value of one
    property; this is that value, [undefined] when there is no language
    ([targetLanguages.length === 0]). *)
Definition targetLanguages (this : t) : JsString :=
  getProperty this PropertyId.SpeechServiceConnection_TranslationToLanguages undefined.

(** Modelled from the spec: [addTargetLanguage] is not among the
    sources; it refuses a blank language and appends any other to the
    comma-separated list. *)
Definition addTargetLanguage (this : t) (value : JsString) : JsError + t :=
  if Contracts.isNullOrWhitespace value then inl (NullOrWhitespace (literal "value"))
  else
    match value, targetLanguages this with
    | defined language, defined languages =>
        inr (setProperty this PropertyId.SpeechServiceConnection_TranslationToLanguages
               (defined (languages +:+ "," +:+ language)))
    | defined language, undefined =>
        inr (setProperty this PropertyId.SpeechServiceConnection_TranslationToLanguages
               (defined language))
    | _, _ => inl (TypeError "split")
    end.

(** Modelled from the spec: [setProfanity] is not among the sources;
    [setProfanity(ProfanityOption.Masked)] stores the option's name. *)
Definition setProfanityMasked (this : t) : t :=
  setProperty this PropertyId.SpeechServiceResponse_ProfanityOption (defined "Masked").

End SpeechTranslationConfig.

(** * Participants *)

(** [IInternalParticipant]: every member but the id is optional on the
    wire. *)
Record IInternalParticipant : Type := {
  id : JsString;
  avatar : JsString;
  displayName : JsString;
  isHost : option bool;
  isMuted : option bool;
  isUsingTts : option bool;
  preferredLanguage : JsString }.

(** The public [Participant], as [toParticipant] builds it. *)
Record Participant : Type := {
  participantId : JsString;
  participantAvatar : JsString;
  participantDisplayName : JsString;
  participantIsHost : option bool;
  participantIsMuted : option bool;
  participantIsUsingTts : option bool;
  participantPreferredLanguage : JsString }.

(** * The participant registry *)
Module InternalParticipants.

(** Modelled from the spec: the participant registry is not among the
    sources. It keeps the participants in arrival order and the id of
    the local participant. *)
Record t : Type := {
  participants : list IInternalParticipant;
  meId : JsString }.

Definition empty : t := {| participants := []; meId := undefined |}.

(** Modelled from the spec: [getParticipant] is not among the sources;
    it yields the first participant with the id, or [undefined]. *)
Definition getParticipant (this : t) (wanted : JsString) : option IInternalParticipant :=
  find (λ p, bool_decide (id p = wanted)) (participants this).

Fixpoint findIndex {A} (test : A → bool) (l : list A) : option nat :=
  match l with
  | [] => None
  | x :: rest => if test x then Some 0 else S <$> findIndex test rest
  end.

(** Modelled from the spec: [getParticipantIndex] is not among the
    sources; it is the position of an id, and [None] stands for the
    [-1] of [Array.prototype.findIndex]. *)
Definition getParticipantIndex (this : t) (wanted : JsString) : option nat :=
  findIndex (λ p, bool_decide (id p = wanted)) (participants this).

(** Modelled from the spec: [me] is not among the sources; it looks
    the stored local id up. *)
Definition me (this : t) : option IInternalParticipant :=
  getParticipant this (meId this).

(** Modelled from the spec: [host] is not among the sources; it scans
    for the host flag. *)
Definition host (this : t) : option IInternalParticipant :=
  find (λ p, bool_decide (isHost p = Some true)) (participants this).

End InternalParticipants.

(** * The conversation facade: [ConversationImpl] *)
Module Conversation.

(** The collaborators the facade holds. *)
Inductive Connection : Type := connection (handle : nat).
Inductive ConversationTranslator : Type := conversationTranslator.
Inductive ConversationManagerRef : Type := conversationManager.

(** Modelled from the spec: [ConversationTranslatorRecognizer] is not
    among the sources; the facade reads its disposed flag and hands it
    the commands to send. *)
Record ConversationTranslatorRecognizer : Type := {
  recognizerIsDisposed : bool }.

(** [IInternalConversation], the descriptor the directory returned. *)
Record IInternalConversation : Type := {
  roomId : JsString;
  token : JsString;
  roomParticipantId : JsString;
  cognitiveSpeechAuthToken : JsString }.

(** The commands the facade hands to the recognizer, which puts each on
    the wire as one frame. *)
Inductive Request : Type :=
  | sendLockRequest (isLocked : bool)
  | sendMuteAllRequest (isMuted : bool)
  | sendMuteRequest (participantId : JsString) (isMuted : bool)
  | sendEjectRequest (participantId : JsString)
  | sendMessageRequest (message : string).

(** What a method of the facade does to the world, in order. *)
Inductive Effect : Type :=
  | InvokeSuccess (cb : Callback)                   (* cb() *)
  | InvokeError (err : Callback) (error : JsError)  (* err(name + ": " + message) *)
  | RecognizerSend (request : Request) (cb err : option Callback)
  | RecognizerClose
  | ConnectionCloseConnection (c : Connection)
  | ConnectionClose (c : Connection)
  | ConfigClose
  | TranslatorDispose.

#[global] Instance Connection_eq_dec : EqDecision Connection.
Proof. solve_decision. Defined.
#[global] Instance Request_eq_dec : EqDecision Request.
Proof. solve_decision. Defined.
#[global] Instance Effect_eq_dec : EqDecision Effect.
Proof. solve_decision. Defined.

Record ConversationImpl : Type := {
  privConfig : option SpeechTranslationConfig.t;
  privProperties : option PropertyCollection.t;
  privLanguage : JsString;
  privToken : JsString;
  privIsDisposed : bool;
  privRoom : option IInternalConversation;
  privManager : option ConversationManagerRef;
  privConversationRecognizer : option ConversationTranslatorRecognizer;
  privConversationRecognizerConnection : option Connection;
  privIsConnected : bool;
  privParticipants : option InternalParticipants.t;
  privIsReady : bool;
  privConversationTranslator : option ConversationTranslator }.

(** ** The constructor *)

(** The nickname check of the constructor: the value written back to
    the configuration. *)
Definition hostNickname (configured : JsString) : string :=
  match configured with
  | undefined | null => "Host"
  | defined nickname =>
      if (String.length nickname <=? 1) || (50 <? String.length nickname)
      then "Host" else nickname
  end.

Section Constructor.

(** [ConversationTranslatorConfig.defaultLanguageCode], a constant
    outside these sources. *)
Variable defaultLanguageCode : string.

(** The constructor changes the configuration it is given and keeps it:
    the result is the new object with the configuration as it leaves
    it, or the error thrown on the way. *)
Definition constructor (speechConfig : SpeechTranslationConfig.t)
  : JsError + (ConversationImpl * SpeechTranslationConfig.t) :=
  (* check the speech language *)
  let language :=
    SpeechTranslationConfig.getProperty speechConfig
      PropertyId.SpeechServiceConnection_RecoLanguage undefined in
  let speechConfig :=
    if negb (truthy language)
    then SpeechTranslationConfig.setProperty speechConfig
           PropertyId.SpeechServiceConnection_RecoLanguage (defined defaultLanguageCode)
    else speechConfig in
  let language :=
    SpeechTranslationConfig.getProperty speechConfig
      PropertyId.SpeechServiceConnection_RecoLanguage undefined in
  (* check the target language(s) *)
  match
    match SpeechTranslationConfig.targetLanguages speechConfig with
    | undefined => SpeechTranslationConfig.addTargetLanguage speechConfig language
    | null => inl (TypeError "split")
    | defined _ => inr speechConfig
    end
  with
  | inl error => inl error
  | inr speechConfig =>
      (* check the profanity setting *)
      let profanity :=
        SpeechTranslationConfig.getProperty speechConfig
          PropertyId.SpeechServiceResponse_ProfanityOption undefined in
      let speechConfig :=
        if negb (truthy profanity)
        then SpeechTranslationConfig.setProfanityMasked speechConfig
        else speechConfig in
      (* check the nickname *)
      let nickname :=
        hostNickname
          (SpeechTranslationConfig.getProperty speechConfig
             PropertyId.ConversationTranslator_Name undefined) in
      let speechConfig :=
        SpeechTranslationConfig.setProperty speechConfig
          PropertyId.ConversationTranslator_Name (defined nickname) in
      inr ({| privConfig := Some speechConfig;
              privProperties := Some (SpeechTranslationConfig.properties speechConfig);
              privLanguage := language;
              privToken := undefined;
              privIsDisposed := false;
              privRoom := None;
              privManager := Some conversationManager;
              privConversationRecognizer := None;
              privConversationRecognizerConnection := None;
              privIsConnected := false;
              privParticipants := Some InternalParticipants.empty;
              privIsReady := false;
              privConversationTranslator := None |},
           speechConfig)
  end.

End Constructor.

(** The language the constructor settles on: the configured one, or the
    default when that is falsy. *)
Definition settledLanguage (defaultLanguageCode : string) (cfg : SpeechTranslationConfig.t)
  : JsString :=
  let language :=
    SpeechTranslationConfig.getProperty cfg PropertyId.SpeechServiceConnection_RecoLanguage
      undefined in
  if truthy language then language else defined defaultLanguageCode.

(** ** Accessors *)

Definition toParticipant (p : IInternalParticipant) : Participant :=
  {| participantId := id p;
     participantAvatar := avatar p;
     participantDisplayName := displayName p;
     participantIsHost := isHost p;
     participantIsMuted := isMuted p;
     participantIsUsingTts := isUsingTts p;
     participantPreferredLanguage := preferredLanguage p |}.

(** [this.isMutedByHost]: a boolean, or [undefined] ([None]) when the
    flag it reads is missing. *)
Definition isMutedByHost (this : ConversationImpl) : JsError + option bool :=
  match privParticipants this with
  | None => inl (TypeError "me")
  | Some registry =>
      let me := InternalParticipants.me registry in
      if truthyFlag (me ≫= isHost) then inr (Some false) else inr (me ≫= isMuted)
  end.

Definition isConnected (this : ConversationImpl) : bool :=
  privIsConnected this && privIsReady this.

(** [this.me]: [toParticipant] reads the members of its argument, so an
    absent local participant is a [TypeError]. *)
Definition me {E} (this : ConversationImpl) : Try E Participant :=
  registry ← member "me" (privParticipants this);
  p ← member "id" (InternalParticipants.me registry);
  mret (toParticipant p).

(** [this.participants], that is [toParticipants(true)]. *)
Definition participants {E} (this : ConversationImpl) : Try E (list Participant) :=
  registry ← member "participants" (privParticipants this);
  mret (toParticipant <$> InternalParticipants.participants registry).

(** [this.canSend]: the right operand is read only when connected. *)
Definition canSend {E} (this : ConversationImpl) : Try E bool :=
  if privIsConnected this then
    registry ← member "me" (privParticipants this);
    mret (negb (truthyFlag (InternalParticipants.me registry ≫= isMuted)))
  else mret false.

Definition canSendAsHost {E} (this : ConversationImpl) : Try E bool :=
  if privIsConnected this then
    registry ← member "me" (privParticipants this);
    mret (truthyFlag (InternalParticipants.me registry ≫= isHost))
  else mret false.

(** ** Helpers *)

(** The supplied continuations do not throw. *)
Definition handleCallback (cb err : option Callback) : list Effect :=
  match cb with
  | Some f => [InvokeSuccess f]
  | None => []
  end.

Definition handleError (error : JsError) (err : option Callback) : list Effect :=
  match err with
  | Some f => [InvokeError f error]
  | None => []
  end.

(** [this.privConversationRecognizer?.sendXxxRequest(..., cb, err)]: the
    two closures passed along call [handleCallback cb err] and
    [handleError error err]; the recognizer runs them later. *)
Definition send (this : ConversationImpl) (request : Request) (cb err : option Callback)
  : Try Effect unit :=
  match privConversationRecognizer this with
  | Some _ => perform [RecognizerSend request cb err]
  | None => skip
  end.

(** The first two statements of every command. *)
Definition throwIfEitherDisposed (this : ConversationImpl) : Try Effect unit :=
  Contracts.throwIfDisposed (privIsDisposed this);;
  recognizer ← member "isDisposed" (privConversationRecognizer this);
  Contracts.throwIfDisposed (recognizerIsDisposed recognizer).

(** [if (condition) { this.handleError(new Error(message), err); }] *)
Definition reportIf (condition : bool) (message : Message) (err : option Callback)
  : Try Effect unit :=
  if condition then perform (handleError (Error message) err) else skip.

(** ** Commands

    Each command is one [try] block whose [catch] hands the error to
    [handleError]. Note that [handleError] returns: a check that only
    reports through it does not leave the block. *)

Definition lockConversationAsync (this : ConversationImpl) (cb err : option Callback)
  : list Effect :=
  tryCatch
    (throwIfEitherDisposed this;;
     Contracts.throwIfNullOrUndefined (privRoom this) permissionDeniedSend;;
     allowed ← canSendAsHost this;
     reportIf (negb allowed) (permissionDeniedConversation "lock") err;;
     send this (sendLockRequest true) cb err)
    (λ error, handleError error err).

Definition muteAllParticipantsAsync (this : ConversationImpl) (cb err : option Callback)
  : list Effect :=
  tryCatch
    (throwIfEitherDisposed this;;
     Contracts.throwIfNullOrUndefined (privConversationRecognizer this) permissionDeniedSend;;
     Contracts.throwIfNullOrUndefined (privRoom this) permissionDeniedSend;;
     (* check the user's permissions *)
     allowed ← canSendAsHost this;
     reportIf (negb allowed) (permissionDeniedConversation "mute") err;;
     send this (sendMuteAllRequest true) cb err)
    (λ error, handleError error err).

(** The body shared by [muteParticipantAsync] ([isMuted = true]) and
    [unmuteParticipantAsync] ([isMuted = false]); both name the command
    "mute" in the permission error. *)
Definition setParticipantMuted (isMuted : bool) (this : ConversationImpl) (userId : JsString)
    (cb err : option Callback) : list Effect :=
  tryCatch
    (throwIfEitherDisposed this;;
     Contracts.throwIfNullOrWhitespace userId (invalidArgs "userId");;
     Contracts.throwIfNullOrUndefined (privRoom this) permissionDeniedSend;;
     (* check the connection is open *)
     allowed ← canSend this;
     reportIf (negb allowed) permissionDeniedSend err;;
     (* if not host, check the participant is not muting another participant *)
     self ← me this;
     reportIf (negb (truthyFlag (participantIsHost self))
               && negb (bool_decide (participantId self = userId)))
       (permissionDeniedParticipant "mute") err;;
     (* check the user exists *)
     registry ← member "getParticipantIndex" (privParticipants this);
     reportIf (bool_decide (InternalParticipants.getParticipantIndex registry userId = None))
       invalidParticipantRequest err;;
     send this (sendMuteRequest userId isMuted) cb err)
    (λ error, handleError error err).

Definition muteParticipantAsync := setParticipantMuted true.
Definition unmuteParticipantAsync := setParticipantMuted false.

(** The argument of [removeParticipantAsync]: a string, an object with
    an [id], an object with a [userId], some other object, or nothing. *)
Inductive UserReference : Type :=
  | byString (userId : string)
  | byParticipant (id : JsString)
  | byUser (userId : JsString)
  | otherObject
  | noReference.

Definition removeParticipantAsync (this : ConversationImpl) (userId : UserReference)
    (cb err : option Callback) : list Effect :=
  tryCatch
    (throwIfEitherDisposed this;;
     Contracts.throwIfNullOrUndefined (privRoom this) permissionDeniedSend;;
     allowed ← canSendAsHost this;
     reportIf (negb allowed) (permissionDeniedParticipant "remove") err;;
     wanted ←
       match userId with
       | byString s => mret (defined s)
       | byParticipant id => mret id
       | byUser userId => mret userId
       | otherObject => mret (defined "")
       | noReference => throw (TypeError "hasOwnProperty")
       end;
     Contracts.throwIfNullOrWhitespace wanted (invalidArgs "userId");;
     (* check the participant exists *)
     everyone ← participants this;
     reportIf
       (bool_decide
          (InternalParticipants.findIndex
             (λ p : Participant, bool_decide (participantId p = wanted))
             everyone = None))
       invalidParticipantRequest err;;
     send this (sendEjectRequest wanted) cb err)
    (λ error, handleError error err).

Definition unlockConversationAsync (this : ConversationImpl) (cb err : option Callback)
  : list Effect :=
  tryCatch
    (throwIfEitherDisposed this;;
     Contracts.throwIfNullOrUndefined (privRoom this) permissionDeniedSend;;
     allowed ← canSendAsHost this;
     reportIf (negb allowed) (permissionDeniedConversation "unlock") err;;
     send this (sendLockRequest false) cb err)
    (λ error, handleError error err).

Definition unmuteAllParticipantsAsync (this : ConversationImpl) (cb err : option Callback)
  : list Effect :=
  tryCatch
    (throwIfEitherDisposed this;;
     Contracts.throwIfNullOrUndefined (privRoom this) permissionDeniedSend;;
     allowed ← canSendAsHost this;
     reportIf (negb allowed) (permissionDeniedConversation "unmute all") err;;
     send this (sendMuteAllRequest false) cb err)
    (λ error, handleError error err).

Section TextMessage.

(** [ConversationTranslatorConfig.textMessageMaxLength], a constant
    outside these sources. *)
Variable textMessageMaxLength : nat.

Definition sendTextMessageAsync (this : ConversationImpl) (message : JsString)
    (cb err : option Callback) : list Effect :=
  tryCatch
    (throwIfEitherDisposed this;;
     Contracts.throwIfNullOrWhitespace message (invalidArgs "message");;
     Contracts.throwIfNullOrUndefined (privRoom this) permissionDeniedSend;;
     allowed ← canSend this;
     reportIf (negb allowed) permissionDeniedSend err;;
     text ← match message with
            | defined text => mret text
            | _ => throw (TypeError "length")
            end;
     reportIf (textMessageMaxLength <? String.length text) (invalidArgs "message length") err;;
     send this (sendMessageRequest text) cb err)
    (λ error, handleError error err).

End TextMessage.

(** ** Disposal *)

(** What a member access evaluates to: the value of a field, or, for a
    method that is named but not called, the function itself. *)
Inductive MemberValue : Type :=
  | fieldValue (b : bool)
  | methodReference.

(** The condition of an [if]: a function object is truthy. *)
Definition toBoolean (v : MemberValue) : bool :=
  match v with
  | fieldValue b => b
  | methodReference => true
  end.

(** The method [isDisposed()]. *)
Definition isDisposed (this : ConversationImpl) : bool := privIsDisposed this.

(** [dispose] opens with [if (this.isDisposed) { return; }]: the member
    is read, not called. *)
Definition dispose (this : ConversationImpl) : ConversationImpl * list Effect :=
  if toBoolean methodReference then (this, [])
  else
    ({| privIsDisposed := true;
        privConversationRecognizerConnection := None;
        privConfig := None;
        privLanguage := undefined;
        privProperties := None;
        privRoom := None;
        privToken := undefined;
        privManager := None;
        privConversationRecognizer := None;
        privIsConnected := false;
        privIsReady := false;
        privParticipants := None;
        privConversationTranslator := privConversationTranslator this |},
     match privConfig this with Some _ => [ConfigClose] | None => [] end
     ++ match privConversationRecognizerConnection this with
        | Some c => [ConnectionCloseConnection c; ConnectionClose c]
        | None => []
        end).

(** [close(dispose)]: the [try] block stops at the first statement that
    throws, which [recognizer.close()] does when there is no recognizer;
    the assignments before it stay. *)
Definition close (this : ConversationImpl) (andDispose : bool)
  : ConversationImpl * list Effect :=
  let released :=
    match privConversationRecognizerConnection this with
    | Some c => [ConnectionCloseConnection c; ConnectionClose c]
    | None => []
    end in
  let '(this, effects) :=
    match privConversationRecognizer this with
    | Some _ =>
        ({| privIsConnected := false;
            privConversationRecognizerConnection := None;
            privConversationRecognizer := None;
            privConfig := privConfig this;
            privProperties := privProperties this;
            privLanguage := privLanguage this;
            privToken := privToken this;
            privIsDisposed := privIsDisposed this;
            privRoom := privRoom this;
            privManager := privManager this;
            privParticipants := privParticipants this;
            privIsReady := privIsReady this;
            privConversationTranslator := privConversationTranslator this |},
         released ++ [RecognizerClose]
         ++ match privConversationTranslator this with
            | Some _ => [TranslatorDispose]
            | None => []
            end)
    | None =>
        ({| privIsConnected := false;
            privConversationRecognizerConnection := privConversationRecognizerConnection this;
            privConversationRecognizer := None;
            privConfig := privConfig this;
            privProperties := privProperties this;
            privLanguage := privLanguage this;
            privToken := privToken this;
            privIsDisposed := privIsDisposed this;
            privRoom := privRoom this;
            privManager := privManager this;
            privParticipants := privParticipants this;
            privIsReady := privIsReady this;
            privConversationTranslator := privConversationTranslator this |},
         released)
    end in
  if andDispose then
    let '(this, more) := dispose this in (this, effects ++ more)
  else (this, effects).

Definition endConversationAsync (this : ConversationImpl) (cb err : option Callback)
  : ConversationImpl * list Effect :=
  let '(this, effects) := close this true in
  (this, effects ++ handleCallback cb err).

End Conversation.

(** * The session directory client: [ConversationManager] *)
Module ConversationManager.

(** [IRestParams]: the names of the query parameters and headers. *)
Record IRestParams : Type := {
  apiVersion : string;
  authorization : string;
  clientAppId : string;
  correlationId : string;
  languageCode : string;
  nickname : string;
  requestId : string;
  roomId : string;
  sessionToken : string;
  subscriptionKey : string;
  subscriptionRegion : string }.

(** The constants of [ConversationConnectionConfig] the manager reads;
    their values are outside these sources. *)
Record ConversationConnectionConfig : Type := {
  configParams : IRestParams;
  host : string;
  configApiVersion : string;
  restPath : string;
  defaultLanguageCode : string;
  configClientAppId : string }.

Record t : Type := {
  privRequestParams : IRestParams;
  privHost : string;
  privApiVersion : string;
  privRestPath : string }.

(** [IStringDictionary<string>]: an object used as a map. *)
Abbreviation IStringDictionary := (gmap string JsString).

Inductive Effect : Type :=
  | InvokeError (err : Callback) (error : JsError)
  | HttpRequest (method endpoint : string) (queryParams headers : IStringDictionary)
      (cb err : option Callback).

Definition handleError (error : JsError) (err : option Callback) : list Effect :=
  match err with
  | Some f => [InvokeError f error]
  | None => []
  end.

Section Manager.

Variable config : ConversationConnectionConfig.

Definition constructor : t :=
  {| privRequestParams := configParams config;
     privHost := host config;
     privApiVersion := configApiVersion config;
     privRestPath := restPath config |}.

(** The text of a template literal's placeholder. *)
Definition text (value : JsString) : string :=
  match value with
  | defined s => s
  | undefined => "undefined"
  | null => "null"
  end.

(** [createOrJoin] up to the point where the request is handed to the
    transport; the response is handled by a continuation run later. *)
Definition createOrJoin (this : t) (args : option PropertyCollection.t)
    (conversationCode : JsString) (cb err : option Callback) : list Effect :=
  tryCatch
    (Contracts.throwIfNullOrUndefined args (literal "args");;
     args ← member "getProperty" args;
     let languageCode :=
       PropertyCollection.getProperty args PropertyId.SpeechServiceConnection_RecoLanguage
         (defined (defaultLanguageCode config)) in
     let nickname :=
       PropertyCollection.getProperty args PropertyId.ConversationTranslator_Name undefined in
     let endpointHost :=
       PropertyCollection.getProperty args PropertyId.ConversationTranslator_Host
         (defined (privHost this)) in
     let correlationId :=
       PropertyCollection.getProperty args PropertyId.ConversationTranslator_CorrelationId
         undefined in
     let subscriptionKey :=
       PropertyCollection.getProperty args PropertyId.SpeechServiceConnection_Key undefined in
     let subscriptionRegion :=
       PropertyCollection.getProperty args PropertyId.SpeechServiceConnection_Region undefined in
     let authToken :=
       PropertyCollection.getProperty args PropertyId.SpeechServiceAuthorization_Token
         undefined in
     Contracts.throwIfNullOrWhitespace languageCode (literal "languageCode");;
     Contracts.throwIfNullOrWhitespace nickname (literal "nickname");;
     Contracts.throwIfNullOrWhitespace endpointHost (literal "endpointHost");;
     let params := privRequestParams this in
     let queryParams : IStringDictionary :=
       <[ConversationManager.nickname params := nickname]>
         (<[ConversationManager.languageCode params := languageCode]>
            (<[apiVersion params := defined (privApiVersion this)]> ∅)) in
     let headers : IStringDictionary :=
       if truthy correlationId
       then <[ConversationManager.correlationId params := correlationId]> ∅
       else ∅ in
     let headers : IStringDictionary :=
       <[clientAppId params := defined (configClientAppId config)]> headers in
     '(queryParams, headers) ←
       (if bool_decide (conversationCode ≠ undefined) then
          mret (<[roomId params := conversationCode]> queryParams, headers)
        else
          Contracts.throwIfNullOrUndefined subscriptionRegion authInvalidSubscriptionRegion;;
          let headers : IStringDictionary :=
            <[ConversationManager.subscriptionRegion params := subscriptionRegion]> headers in
          if truthy subscriptionKey then
            mret (queryParams,
                  <[ConversationManager.subscriptionKey params := subscriptionKey]> headers)
          else if truthy authToken then
            mret (queryParams,
                  <[authorization params := defined ("Bearer " +:+ text authToken)]> headers)
          else
            Contracts.throwIfNullOrUndefined subscriptionKey authInvalidSubscriptionKey;;
            mret (queryParams, headers));
     let endpoint := "https://" +:+ text endpointHost +:+ privRestPath this in
     perform [HttpRequest "post" endpoint queryParams headers cb err])
    (λ error, handleError error err).

End Manager.

(** The requests among the effects of a call. *)
Definition isHttpRequest (e : Effect) : bool :=
  match e with
  | HttpRequest _ _ _ _ _ _ => true
  | InvokeError _ _ => false
  end.

End ConversationManager.

(** * The connection adapter: [ConversationServiceAdapter] *)
Module ConversationServiceAdapter.

(** ** Frames and payloads *)

(** The frame the transport delivers: the type tag of its body and the
    body itself. *)
Record ConversationConnectionMessage : Type := {
  conversationMessageType : JsString;
  textBody : string }.

(** A member of a payload whose type the code does not fix. *)
Inductive PayloadValue : Type :=
  | valueUndefined
  | valueBoolean (b : bool)
  | valueNumber (n : nat)
  | valueString (s : string).

Record CommandResponsePayload : Type := {
  command : JsString;
  commandParticipantId : JsString;
  commandNickname : JsString;
  value : PayloadValue }.

Record IParticipantPayloadResponse : Type := {
  payloadAvatar : JsString;
  payloadNickname : JsString;
  payloadParticipantId : JsString;
  ishost : option bool;
  ismuted : option bool;
  usetts : option bool;
  locale : JsString }.

Record ParticipantsListPayloadResponse : Type := {
  roomid : JsString;
  listToken : JsString;
  translateTo : JsString;
  profanityFilter : JsString;
  roomProfanityFilter : JsString;
  roomLocked : option bool;
  muteAll : option bool;
  payloadParticipants : option (list IParticipantPayloadResponse) }.

Record ITranslationResponsePayload : Type := {
  lang : string;
  translation : string }.

Record SpeechResponsePayload : Type := {
  speechParticipantId : JsString;
  speechTranslations : option (list ITranslationResponsePayload);
  speechLanguage : JsString;
  recognition : JsString;
  isFinal : bool }.

Record TextResponsePayload : Type := {
  textParticipantId : JsString;
  textTranslations : option (list ITranslationResponsePayload);
  textLanguage : JsString;
  originalText : JsString }.

(** The [fromJSON] readers of the payload classes; they are outside
    these sources, so the adapter is modelled over any readers. *)
Record PayloadReaders : Type := {
  CommandResponsePayload_fromJSON : string → CommandResponsePayload;
  ParticipantsListPayloadResponse_fromJSON : string → ParticipantsListPayloadResponse;
  ParticipantPayloadResponse_fromJSON : string → IParticipantPayloadResponse;
  SpeechResponsePayload_fromJSON : string → SpeechResponsePayload;
  TextResponsePayload_fromJSON : string → TextResponsePayload }.

(** ** Events raised on the recognizer *)

Abbreviation Translations := (gmap string string).

(** [ConversationTranslationResult], with the members the adapter
    sets. *)
Record ConversationTranslationResult : Type := {
  resultParticipantId : JsString;
  translations : option Translations;
  originalLang : JsString;
  text : JsString;
  errorDetails : JsString;
  json : JsString }.

Inductive ConversationTranslatorCommandTypes : Type :=
  | changeNickname
  | setMute
  | setProfanityFiltering
  | setTranslateToLanguages
  | setUseTTS.

Inductive ConversationTranslatorMessageTypes : Type :=
  | final
  | partial
  | instantMessage.

Record ParticipantsListEventArgs : Type := {
  conversationId : JsString;
  sessionToken : JsString;
  argsTranslateTo : JsString;
  argsProfanityFilter : JsString;
  argsRoomProfanityFilter : JsString;
  isRoomLocked : option bool;
  isMuteAll : option bool;
  argsParticipants : list IInternalParticipant }.

Inductive CancellationErrorCode : Type := NoError | RuntimeError.

(** A call of one of the handlers attached to the recognizer, with the
    arguments of the event raised; the last argument is the session
    id. *)
Inductive ConnectorEvent : Type :=
  | connectionOpened (sessionId : string)
  | canceled (errorCode : CancellationErrorCode) (sessionId : string)
  | participantsListReceived (e : ParticipantsListEventArgs) (sessionId : string)
  | participantUpdateCommandReceived (id : JsString)
      (key : ConversationTranslatorCommandTypes) (value : PayloadValue) (sessionId : string)
  | muteAllCommandReceived (isMuted : PayloadValue) (sessionId : string)
  | conversationExpiration (expirationTime : PayloadValue) (sessionId : string)
  | lockRoomCommandReceived (isLocked : PayloadValue) (sessionId : string)
  | participantJoinCommandReceived (participant : IInternalParticipant) (sessionId : string)
  | participantLeaveCommandReceived (participant : IInternalParticipant) (sessionId : string)
  | translationReceived (kind : ConversationTranslatorMessageTypes)
      (result : ConversationTranslationResult) (sessionId : string).

(** Which handlers are attached to the recognizer
    ([privConversationServiceConnector]). *)
Record Connector : Type := {
  hasConnectionOpened : bool;
  hasCanceled : bool;
  hasParticipantsListReceived : bool;
  hasParticipantUpdateCommandReceived : bool;
  hasMuteAllCommandReceived : bool;
  hasConversationExpiration : bool;
  hasLockRoomCommandReceived : bool;
  hasParticipantJoinCommandReceived : bool;
  hasParticipantLeaveCommandReceived : bool;
  hasTranslationReceived : bool }.

(** [if (!!handler) { handler(connector, event); }] *)
Definition raise (attached : bool) (event : ConnectorEvent) : list ConnectorEvent :=
  if attached then [event] else [].

(** ** Frame dispatch: the body of the receive loop *)

Definition getTranslations (serviceResultTranslations : option (list ITranslationResponsePayload))
  : option Translations :=
  (λ entries,
     foldl (λ (translations : Translations) entry,
              <[lang entry := translation entry]> translations) ∅ entries)
  <$> serviceResultTranslations.

Definition toInternalParticipant (p : IParticipantPayloadResponse) : IInternalParticipant :=
  {| avatar := payloadAvatar p;
     displayName := payloadNickname p;
     id := payloadParticipantId p;
     isHost := ishost p;
     isMuted := ismuted p;
     isUsingTts := usetts p;
     preferredLanguage := locale p |}.

(** [{ id: commandPayload.participantId }] *)
Definition participantWithId (participantId : JsString) : IInternalParticipant :=
  {| avatar := undefined;
     displayName := undefined;
     id := participantId;
     isHost := None;
     isMuted := None;
     isUsingTts := None;
     preferredLanguage := undefined |}.

Section Dispatch.

Variable readers : PayloadReaders.
Variable connector : Connector.
Variable sessionId : string.

(** The inner [switch] over [commandPayload.command.toLowerCase()].
    Every case is wrapped in [try]/[catch], and the handlers are taken
    not to throw, so a case yields the events it raised. *)
Definition dispatchCommand (message : ConversationConnectionMessage)
    (commandPayload : CommandResponsePayload) (name : string) : list ConnectorEvent :=
  let update key :=
    raise (hasParticipantUpdateCommandReceived connector)
      (participantUpdateCommandReceived (commandParticipantId commandPayload) key
         (value commandPayload) sessionId) in
  if String.eqb name "participantlist" then
    let participantsPayload :=
      ParticipantsListPayloadResponse_fromJSON readers (textBody message) in
    match payloadParticipants participantsPayload with
    | None => []     (* [participants.map] throws; the [catch] continues *)
    | Some participants =>
        raise (hasParticipantsListReceived connector)
          (participantsListReceived
             {| conversationId := roomid participantsPayload;
                sessionToken := listToken participantsPayload;
                argsTranslateTo := translateTo participantsPayload;
                argsProfanityFilter := profanityFilter participantsPayload;
                argsRoomProfanityFilter := roomProfanityFilter participantsPayload;
                isRoomLocked := roomLocked participantsPayload;
                isMuteAll := muteAll participantsPayload;
                argsParticipants := toInternalParticipant <$> participants |}
             sessionId)
    end
  else if String.eqb name "settranslatetolanguages" then update setTranslateToLanguages
  else if String.eqb name "setprofanityfiltering" then update setProfanityFiltering
  else if String.eqb name "setmute" then update setMute
  else if String.eqb name "setmuteall" then
    raise (hasMuteAllCommandReceived connector)
      (muteAllCommandReceived (value commandPayload) sessionId)
  else if String.eqb name "roomexpirationwarning" then
    raise (hasConversationExpiration connector)
      (conversationExpiration (value commandPayload) sessionId)
  else if String.eqb name "setusetts" then update setUseTTS
  else if String.eqb name "setlockstate" then
    raise (hasLockRoomCommandReceived connector)
      (lockRoomCommandReceived (value commandPayload) sessionId)
  else if String.eqb name "changenickname" then
    raise (hasParticipantUpdateCommandReceived connector)
      (participantUpdateCommandReceived (commandParticipantId commandPayload) changeNickname
         (match commandNickname commandPayload with
          | defined nickname => valueString nickname
          | _ => valueUndefined
          end) sessionId)
  else if String.eqb name "joinsession" then
    raise (hasParticipantJoinCommandReceived connector)
      (participantJoinCommandReceived
         (toInternalParticipant (ParticipantPayloadResponse_fromJSON readers (textBody message)))
         sessionId)
  else if String.eqb name "leavesession" then
    raise (hasParticipantLeaveCommandReceived connector)
      (participantLeaveCommandReceived
         (participantWithId (commandParticipantId commandPayload)) sessionId)
  else [].   (* "disconnectsession" and unrecognized commands *)

(** The [partial] and [final] cases, which share one body. *)
Definition dispatchSpeech (message : ConversationConnectionMessage) : Try ConnectorEvent unit :=
  let speechPayload := SpeechResponsePayload_fromJSON readers (textBody message) in
  let speechResult :=
    {| resultParticipantId := speechParticipantId speechPayload;
       translations := getTranslations (speechTranslations speechPayload);
       originalLang := speechLanguage speechPayload;
       text := recognition speechPayload;
       errorDetails := defined (textBody message);
       json := undefined |} in
  if isFinal speechPayload then
    (* check the length, sometimes empty finals are returned *)
    match text speechResult with
    | undefined => skip
    | null => throw (TypeError "length")
    | defined recognized =>
        if 0 <? String.length recognized
        then perform (raise (hasTranslationReceived connector)
                        (translationReceived final speechResult sessionId))
        else skip
    end
  else
    perform (raise (hasTranslationReceived connector)
               (translationReceived partial speechResult sessionId)).

Definition dispatchText (message : ConversationConnectionMessage) : list ConnectorEvent :=
  let textPayload := TextResponsePayload_fromJSON readers (textBody message) in
  let textResult :=
    {| resultParticipantId := textParticipantId textPayload;
       translations := getTranslations (textTranslations textPayload);
       originalLang := textLanguage textPayload;
       text := originalText textPayload;
       errorDetails := undefined;
       json := defined (textBody message) |} in
  raise (hasTranslationReceived connector)
    (translationReceived instantMessage textResult sessionId).

(** The outer [switch] over
    [message.conversationMessageType.toLowerCase()]: the events raised
    for one frame, or the error that ends the processing of it. *)
Definition dispatch (message : ConversationConnectionMessage) : Try ConnectorEvent unit :=
  match conversationMessageType message with
  | defined type =>
      let type := toLowerCase type in
      if String.eqb type "info" || String.eqb type "participant_command"
         || String.eqb type "command" then
        let commandPayload := CommandResponsePayload_fromJSON readers (textBody message) in
        match command commandPayload with
        | defined name => perform (dispatchCommand message commandPayload (toLowerCase name))
        | _ => throw (TypeError "toLowerCase")
        end
      else if String.eqb type "partial" || String.eqb type "final" then
        dispatchSpeech message
      else if String.eqb type "translated_message" then perform (dispatchText message)
      else skip
  | _ => throw (TypeError "toLowerCase")
  end.

End Dispatch.

(** ** Promises

    Promises and connections are named by their position in the
    adapter's tables. *)

Inductive ConnectionState : Type := StateNone | Connected | Connecting | Disconnected.

Record ConnectionOpenResponse : Type := {
  statusCode : nat;
  reason : string }.

Inductive Guid : Type := guid (n : nat).

#[global] Instance ConnectionState_eq_dec : EqDecision ConnectionState.
Proof. solve_decision. Defined.
#[global] Instance Guid_eq_dec : EqDecision Guid.
Proof. solve_decision. Defined.

(** What a promise resolves with. *)
Inductive Value : Type :=
  | noValue                                           (* undefined *)
  | authValue (token : string)                        (* AuthInfo *)
  | openValue (response : ConnectionOpenResponse)
  | connectionValue (connection : nat)                (* IConnection *)
  | messageValue (message : ConversationConnectionMessage).

(** What a promise is rejected with. *)
Inductive Rejection : Type :=
  | errorText (text : string)               (* reported by a collaborator *)
  | failedWith (error : JsError)            (* thrown by a continuation *)
  | wrapped (error : Rejection)             (* new Error(result.error) *)
  | unableToContactServer (statusCode : nat) (endpoint : JsString) (reason : string).

(** The callbacks of the adapter, each with the variables it closes
    over. *)
Inductive Handler : Type :=
  | authContinuation (isUnAuthorized : bool) (continuationDeferral : nat)
  | openContinuation (isUnAuthorized : bool) (connection : nat) (continuationDeferral : nat)
  | forward (continuationDeferral : nat)
  | configContinuation (continuationDeferral : nat)
  | readConnection (communicationCustodian : nat)
  | messageContinuation (communicationCustodian : nat) (continuationDeferral : nat)
  | loopEnded.

(** Modelled from the spec: the promise class of the SDK is not among
    the sources. A promise is pending, resolved or rejected; a handler
    attached to a pending promise runs when the promise completes, and
    a handler attached to a completed promise runs at once, inside the
    call that attaches it. *)
Inductive PromiseState : Type :=
  | pending (handlers : list Handler)
  | resolved (result : Value)
  | rejected (error : Rejection).

(** What the adapter does to its collaborators, in order. *)
Inductive Event : Type :=
  | onPreConnectionStart (authFetchEventId connectionId : Nullable Guid)
  | onAuthCompleted (isError : bool)
  | onConnectionEstablishCompleted (statusCode : nat)
  | fetch (authFetchEventId : Nullable Guid)
  | fetchOnExpiry (authFetchEventId : Nullable Guid)
  | create (connection : nat) (authInfo : Value) (connectionId : Nullable Guid)
  | open (connection : nat)
  | read (connection : nat)
  | raised (event : ConnectorEvent).

(** The adapter: its fields, the tables of the promises and connections
    made so far, and the log of its effects. [collaborators] scripts
    the promises the authentication and the transport hand out next:
    [Some] for one that is born completed, [None] (or nothing) for one
    that completes later. *)
Record Adapter : Type := {
  privConnectionId : Nullable Guid;
  privConversationAuthFetchEventId : Nullable Guid;
  privConversationIsDisposed : bool;
  privConnectionConfigPromise : option nat;
  privConversationConnectionPromise : option nat;
  privConnectionLoop : option nat;
  terminateMessageLoop : bool;
  promises : list PromiseState;
  connectionStates : list ConnectionState;
  guids : nat;
  collaborators : list (option (Rejection + Value));
  log : list Event }.

Definition setPrivConnectionId (v : Nullable Guid) (a : Adapter) : Adapter :=
  {| privConnectionId := v;
     privConversationAuthFetchEventId := privConversationAuthFetchEventId a;
     privConversationIsDisposed := privConversationIsDisposed a;
     privConnectionConfigPromise := privConnectionConfigPromise a;
     privConversationConnectionPromise := privConversationConnectionPromise a;
     privConnectionLoop := privConnectionLoop a;
     terminateMessageLoop := terminateMessageLoop a;
     promises := promises a;
     connectionStates := connectionStates a;
     guids := guids a;
     collaborators := collaborators a;
     log := log a |}.

Definition setPrivConversationAuthFetchEventId (v : Nullable Guid) (a : Adapter) : Adapter :=
  {| privConnectionId := privConnectionId a;
     privConversationAuthFetchEventId := v;
     privConversationIsDisposed := privConversationIsDisposed a;
     privConnectionConfigPromise := privConnectionConfigPromise a;
     privConversationConnectionPromise := privConversationConnectionPromise a;
     privConnectionLoop := privConnectionLoop a;
     terminateMessageLoop := terminateMessageLoop a;
     promises := promises a;
     connectionStates := connectionStates a;
     guids := guids a;
     collaborators := collaborators a;
     log := log a |}.

Definition setPrivConversationIsDisposed (v : bool) (a : Adapter) : Adapter :=
  {| privConnectionId := privConnectionId a;
     privConversationAuthFetchEventId := privConversationAuthFetchEventId a;
     privConversationIsDisposed := v;
     privConnectionConfigPromise := privConnectionConfigPromise a;
     privConversationConnectionPromise := privConversationConnectionPromise a;
     privConnectionLoop := privConnectionLoop a;
     terminateMessageLoop := terminateMessageLoop a;
     promises := promises a;
     connectionStates := connectionStates a;
     guids := guids a;
     collaborators := collaborators a;
     log := log a |}.

Definition setPrivConnectionConfigPromise (v : option nat) (a : Adapter) : Adapter :=
  {| privConnectionId := privConnectionId a;
     privConversationAuthFetchEventId := privConversationAuthFetchEventId a;
     privConversationIsDisposed := privConversationIsDisposed a;
     privConnectionConfigPromise := v;
     privConversationConnectionPromise := privConversationConnectionPromise a;
     privConnectionLoop := privConnectionLoop a;
     terminateMessageLoop := terminateMessageLoop a;
     promises := promises a;
     connectionStates := connectionStates a;
     guids := guids a;
     collaborators := collaborators a;
     log := log a |}.

Definition setPrivConversationConnectionPromise (v : option nat) (a : Adapter) : Adapter :=
  {| privConnectionId := privConnectionId a;
     privConversationAuthFetchEventId := privConversationAuthFetchEventId a;
     privConversationIsDisposed := privConversationIsDisposed a;
     privConnectionConfigPromise := privConnectionConfigPromise a;
     privConversationConnectionPromise := v;
     privConnectionLoop := privConnectionLoop a;
     terminateMessageLoop := terminateMessageLoop a;
     promises := promises a;
     connectionStates := connectionStates a;
     guids := guids a;
     collaborators := collaborators a;
     log := log a |}.

Definition setPrivConnectionLoop (v : option nat) (a : Adapter) : Adapter :=
  {| privConnectionId := privConnectionId a;
     privConversationAuthFetchEventId := privConversationAuthFetchEventId a;
     privConversationIsDisposed := privConversationIsDisposed a;
     privConnectionConfigPromise := privConnectionConfigPromise a;
     privConversationConnectionPromise := privConversationConnectionPromise a;
     privConnectionLoop := v;
     terminateMessageLoop := terminateMessageLoop a;
     promises := promises a;
     connectionStates := connectionStates a;
     guids := guids a;
     collaborators := collaborators a;
     log := log a |}.

Definition setTerminateMessageLoop (v : bool) (a : Adapter) : Adapter :=
  {| privConnectionId := privConnectionId a;
     privConversationAuthFetchEventId := privConversationAuthFetchEventId a;
     privConversationIsDisposed := privConversationIsDisposed a;
     privConnectionConfigPromise := privConnectionConfigPromise a;
     privConversationConnectionPromise := privConversationConnectionPromise a;
     privConnectionLoop := privConnectionLoop a;
     terminateMessageLoop := v;
     promises := promises a;
     connectionStates := connectionStates a;
     guids := guids a;
     collaborators := collaborators a;
     log := log a |}.

Definition setPromises (v : list PromiseState) (a : Adapter) : Adapter :=
  {| privConnectionId := privConnectionId a;
     privConversationAuthFetchEventId := privConversationAuthFetchEventId a;
     privConversationIsDisposed := privConversationIsDisposed a;
     privConnectionConfigPromise := privConnectionConfigPromise a;
     privConversationConnectionPromise := privConversationConnectionPromise a;
     privConnectionLoop := privConnectionLoop a;
     terminateMessageLoop := terminateMessageLoop a;
     promises := v;
     connectionStates := connectionStates a;
     guids := guids a;
     collaborators := collaborators a;
     log := log a |}.

Definition setConnectionStates (v : list ConnectionState) (a : Adapter) : Adapter :=
  {| privConnectionId := privConnectionId a;
     privConversationAuthFetchEventId := privConversationAuthFetchEventId a;
     privConversationIsDisposed := privConversationIsDisposed a;
     privConnectionConfigPromise := privConnectionConfigPromise a;
     privConversationConnectionPromise := privConversationConnectionPromise a;
     privConnectionLoop := privConnectionLoop a;
     terminateMessageLoop := terminateMessageLoop a;
     promises := promises a;
     connectionStates := v;
     guids := guids a;
     collaborators := collaborators a;
     log := log a |}.

Definition setGuids (v : nat) (a : Adapter) : Adapter :=
  {| privConnectionId := privConnectionId a;
     privConversationAuthFetchEventId := privConversationAuthFetchEventId a;
     privConversationIsDisposed := privConversationIsDisposed a;
     privConnectionConfigPromise := privConnectionConfigPromise a;
     privConversationConnectionPromise := privConversationConnectionPromise a;
     privConnectionLoop := privConnectionLoop a;
     terminateMessageLoop := terminateMessageLoop a;
     promises := promises a;
     connectionStates := connectionStates a;
     guids := v;
     collaborators := collaborators a;
     log := log a |}.

Definition setCollaborators (v : list (option (Rejection + Value))) (a : Adapter) : Adapter :=
  {| privConnectionId := privConnectionId a;
     privConversationAuthFetchEventId := privConversationAuthFetchEventId a;
     privConversationIsDisposed := privConversationIsDisposed a;
     privConnectionConfigPromise := privConnectionConfigPromise a;
     privConversationConnectionPromise := privConversationConnectionPromise a;
     privConnectionLoop := privConnectionLoop a;
     terminateMessageLoop := terminateMessageLoop a;
     promises := promises a;
     connectionStates := connectionStates a;
     guids := guids a;
     collaborators := v;
     log := log a |}.

Definition setLog (v : list Event) (a : Adapter) : Adapter :=
  {| privConnectionId := privConnectionId a;
     privConversationAuthFetchEventId := privConversationAuthFetchEventId a;
     privConversationIsDisposed := privConversationIsDisposed a;
     privConnectionConfigPromise := privConnectionConfigPromise a;
     privConversationConnectionPromise := privConversationConnectionPromise a;
     privConnectionLoop := privConnectionLoop a;
     terminateMessageLoop := terminateMessageLoop a;
     promises := promises a;
     connectionStates := connectionStates a;
     guids := guids a;
     collaborators := collaborators a;
     log := v |}.

(** ** Running the adapter

    A method of the adapter runs on the adapter's state and ends by
    returning, by throwing, or, in the model only, by running out of
    the steps it was given. *)
Inductive Outcome (A : Type) : Type :=
  | Returned (a : A) (after : Adapter)
  | Threw (error : JsError) (after : Adapter)
  | OutOfFuel.
Arguments Returned {A} a after.
Arguments Threw {A} error after.
Arguments OutOfFuel {A}.

Definition Run (A : Type) : Type := Adapter → Outcome A.

#[global] Instance Run_ret : MRet Run := λ A a this, Returned a this.
#[global] Instance Run_bind : MBind Run := λ A B f m this,
  match m this with
  | Returned a this => f a this
  | Threw error this => Threw error this
  | OutOfFuel => OutOfFuel
  end.

Definition get : Run Adapter := λ this, Returned this this.
Definition modify (f : Adapter → Adapter) : Run unit := λ this, Returned tt (f this).
Definition throwError {A} (error : JsError) : Run A := λ this, Threw error this.
Definition outOfFuel {A} : Run A := λ _, OutOfFuel.

(** [try { body } catch (e) { handler(e) }]: what the body did to the
    state before it threw stays done. *)
Definition catch {A} (body : Run A) (handler : JsError → Run A) : Run A := λ this,
  match body this with
  | Threw error this => handler error this
  | other => other
  end.

Definition emit (events : list Event) : Run unit :=
  modify (λ this, setLog (log this ++ events) this).

Definition createNoDashGuid : Run Guid := λ this,
  Returned (guid (guids this)) (setGuids (S (guids this)) this).

(** A new promise in the given state. *)
Definition newPromise (state : PromiseState) : Run nat := λ this,
  Returned (length (promises this)) (setPromises (promises this ++ [state]) this).

Definition fromResult (result : Value) : Run nat := newPromise (resolved result).
Definition fromError (error : Rejection) : Run nat := newPromise (rejected error).

(** The promise a collaborator ([fetch], [open], [read]) hands out. *)
Definition handedOut : Run nat := λ this,
  let born :=
    match collaborators this with
    | Some (inr result) :: _ => resolved result
    | Some (inl error) :: _ => rejected error
    | _ => pending []
    end in
  newPromise born (setCollaborators (tail (collaborators this)) this).

(** [factory.create(...)]: a new connection, not yet opened. *)
Definition newConnection : Run nat := λ this,
  Returned (length (connectionStates this))
    (setConnectionStates (connectionStates this ++ [StateNone]) this).

Definition setPromise (promise : nat) (state : PromiseState) : Run unit :=
  modify (λ this, setPromises (<[promise := state]> (promises this)) this).

Section Interpreter.

Variable readers : PayloadReaders.
Variable connector : Connector.

(** [privConversationRequestSession.sessionId] and the endpoint
    property of the recognizer configuration. *)
Variable sessionId : string.
Variable endpoint : JsString.

(** [cancelRecognition] *)
Definition cancelRecognition (errorCode : CancellationErrorCode) : Run unit :=
  modify (setTerminateMessageLoop true);;
  emit (raised <$> raise (hasCanceled connector) (canceled errorCode sessionId)).

(** The frame switch of the receive loop, on the adapter. *)
Definition process (message : ConversationConnectionMessage) : Run unit :=
  match dispatch readers connector sessionId message with
  | (events, inr _) => emit (raised <$> events)
  | (events, inl error) => emit (raised <$> events);; throwError error
  end.

(** The methods and callbacks call one another; [fuel] bounds the depth
    of the calls. *)
Fixpoint conversationConnectImpl (fuel : nat) (isUnAuthorized : bool) : Run (option nat) :=
  match fuel with
  | 0 => outOfFuel
  | S fuel =>
      this ← get;
      match privConversationConnectionPromise this with
      | Some promise =>
          let restart :=
            modify (setPrivConnectionId null);;
            modify (setPrivConversationConnectionPromise None);;
            modify (setTerminateMessageLoop true);;
            conversationConnectImpl fuel false in
          match promises this !! promise with
          | Some (pending _) => mret (Some promise)
          | Some (rejected _) => restart
          | Some (resolved (connectionValue connection)) =>
              if bool_decide (connectionStates this !! connection = Some Disconnected)
              then restart
              else mret (Some promise)
          | Some (resolved _) | None => throwError (TypeError "state")
          end
      | None =>
          authFetchEventId ← createNoDashGuid;
          modify (setPrivConversationAuthFetchEventId (defined authFetchEventId));;
          (* keep the connectionId for reconnect events *)
          (if bool_decide (privConnectionId this = undefined)
           then connectionId ← createNoDashGuid;
                modify (setPrivConnectionId (defined connectionId))
           else mret tt);;
          this ← get;
          emit [onPreConnectionStart (privConversationAuthFetchEventId this)
                  (privConnectionId this)];;
          emit [(if isUnAuthorized then fetchOnExpiry else fetch)
                  (privConversationAuthFetchEventId this)];;
          authPromise ← handedOut;
          continuationDeferral ← newPromise (pending []);
          on fuel authPromise (authContinuation isUnAuthorized continuationDeferral);;
          modify (setPrivConversationConnectionPromise (Some continuationDeferral));;
          loop ← startMessageLoop fuel;
          modify (setPrivConnectionLoop (Some loop));;
          this ← get;
          mret (privConversationConnectionPromise this)
      end
  end

(** [promise.on(...)], and the [continueWith] family, which attach
    their wrapper the same way. *)
with on (fuel : nat) (promise : nat) (handler : Handler) : Run unit :=
  match fuel with
  | 0 => outOfFuel
  | S fuel =>
      this ← get;
      match promises this !! promise with
      | Some (pending handlers) => setPromise promise (pending (handlers ++ [handler]))
      | Some (resolved result) => call fuel handler (inr result)
      | Some (rejected error) => call fuel handler (inl error)
      | None => throwError (TypeError "on")
      end
  end

(** [deferred.resolve(result)] and [deferred.reject(error)]. *)
with settle (fuel : nat) (promise : nat) (outcome : Rejection + Value) : Run unit :=
  match fuel with
  | 0 => outOfFuel
  | S fuel =>
      this ← get;
      match promises this !! promise with
      | Some (pending handlers) =>
          setPromise promise
            (match outcome with inr result => resolved result | inl error => rejected error end);;
          foldl (λ (sofar : Run unit) handler, sofar;; call fuel handler outcome)
            (mret tt) handlers
      | _ => throwError (Error (literal "Cannot resolve a completed promise"))
      end
  end

(** The bodies of the callbacks. *)
with call (fuel : nat) (handler : Handler) (outcome : Rejection + Value) : Run unit :=
  match fuel with
  | 0 => outOfFuel
  | S fuel =>
      match handler with
      | authContinuation isUnAuthorized continuationDeferral =>
          match outcome with
          | inl error =>
              emit [onAuthCompleted true];;
              settle fuel continuationDeferral (inl (wrapped error))
          | inr authInfo =>
              catch
                (emit [onAuthCompleted false];;
                 this ← get;
                 connection ← newConnection;
                 emit [create connection authInfo (privConnectionId this)];;
                 emit [open connection];;
                 opened ← handedOut;
                 openDeferral ← newPromise (pending []);
                 on fuel opened (openContinuation isUnAuthorized connection openDeferral);;
                 on fuel openDeferral (forward continuationDeferral))
                (λ error, settle fuel continuationDeferral (inl (failedWith error)))
          end
      | openContinuation isUnAuthorized connection continuationDeferral =>
          catch
            (continuationPromise ←
               match outcome with
               | inl error => fromError error
               | inr (openValue response) =>
                   if statusCode response =? 200 then
                     this ← get;
                     emit [onPreConnectionStart (privConversationAuthFetchEventId this)
                             (privConnectionId this);
                           onConnectionEstablishCompleted (statusCode response)];;
                     emit (raised <$> raise (hasConnectionOpened connector)
                                        (connectionOpened sessionId));;
                     fromResult (connectionValue connection)
                   else if (statusCode response =? 403) && negb isUnAuthorized then
                     retried ← conversationConnectImpl fuel true;
                     match retried with
                     | Some promise => mret promise
                     | None =>
                         throwError
                           (Error (literal "'continuationCallback' should return promise"))
                     end
                   else
                     emit [onConnectionEstablishCompleted (statusCode response)];;
                     fromError
                       (unableToContactServer (statusCode response) endpoint (reason response))
               | inr _ => throwError (TypeError "statusCode")
               end;
             on fuel continuationPromise (forward continuationDeferral))
            (λ error, settle fuel continuationDeferral (inl (failedWith error)))
      | forward continuationDeferral => settle fuel continuationDeferral outcome
      | configContinuation continuationDeferral =>
          match outcome with
          | inr connection => settle fuel continuationDeferral (inr connection)
          | inl error => settle fuel continuationDeferral (inl (wrapped error))
          end
      | readConnection communicationCustodian =>
          match outcome with
          | inr (connectionValue connection) =>
              catch
                (emit [read connection];;
                 message ← handedOut;
                 readDeferral ← newPromise (pending []);
                 on fuel message (messageContinuation communicationCustodian readDeferral))
                (λ _, modify (setTerminateMessageLoop true))
          | _ => modify (setTerminateMessageLoop true)
          end
      | messageContinuation communicationCustodian continuationDeferral =>
          catch
            (continuationPromise ←
               match outcome with
               | inl error => fromError error
               | inr message =>
                   this ← get;
                   let isDisposed := privConversationIsDisposed this in
                   let terminate := negb isDisposed && terminateMessageLoop this in
                   if isDisposed || terminate then
                     (* We're done. *)
                     settle fuel communicationCustodian (inr noValue);;
                     fromResult noValue
                   else
                     match message with
                     | noValue => receiveConversationMessageOverride fuel
                     | messageValue message =>
                         process message;;
                         receiveConversationMessageOverride fuel
                     | _ => throwError (TypeError "toLowerCase")
                     end
               end;
             on fuel continuationPromise (forward continuationDeferral))
            (λ error, settle fuel continuationDeferral (inl (failedWith error)))
      | loopEnded =>
          match outcome with
          | inr _ => mret tt
          | inl _ => cancelRecognition RuntimeError
          end
      end
  end

with configConnection (fuel : nat) : Run nat :=
  match fuel with
  | 0 => outOfFuel
  | S fuel =>
      this ← get;
      match privConnectionConfigPromise this with
      | Some promise =>
          let restart :=
            modify (setPrivConnectionConfigPromise None);;
            configConnection fuel in
          match promises this !! promise with
          | Some (pending _) => mret promise
          | Some (rejected _) => restart
          | Some (resolved (connectionValue connection)) =>
              if bool_decide (connectionStates this !! connection = Some Disconnected)
              then restart
              else mret promise
          | Some (resolved _) | None => throwError (TypeError "state")
          end
      | None =>
          if terminateMessageLoop this then fromResult noValue
          else
            connected ← conversationConnectImpl fuel false;
            match connected with
            | None => throwError (TypeError "onSuccessContinueWith")
            | Some connected =>
                continuationDeferral ← newPromise (pending []);
                on fuel connected (configContinuation continuationDeferral);;
                modify (setPrivConnectionConfigPromise (Some continuationDeferral));;
                mret continuationDeferral
            end
      end
  end

with receiveConversationMessageOverride (fuel : nat) : Run nat :=
  match fuel with
  | 0 => outOfFuel
  | S fuel =>
      communicationCustodian ← newPromise (pending []);
      connection ← configConnection fuel;   (* fetchConversationConnection *)
      on fuel connection (readConnection communicationCustodian);;
      mret communicationCustodian
  end

with startMessageLoop (fuel : nat) : Run nat :=
  match fuel with
  | 0 => outOfFuel
  | S fuel =>
      modify (setTerminateMessageLoop false);;
      messageRetrievalPromise ← receiveConversationMessageOverride fuel;
      on fuel messageRetrievalPromise loopEnded;;
      mret messageRetrievalPromise
  end.

(** A collaborator completes a promise it handed out. *)
Definition completes (fuel : nat) (promise : nat) (outcome : Rejection + Value) : Run unit :=
  settle fuel promise outcome.

End Interpreter.

(** Whatever [m] does, it appends to the log of effects: what was
    logged stays logged, in order. *)
Definition Extends {A} (m : Run A) : Prop :=
  ∀ this,
    match m this with
    | Returned _ after | Threw _ after => log this `prefix_of` log after
    | OutOfFuel => True
    end.

(** What [conversationConnectImpl] does to an attempt that failed or
    whose connection is gone, before it starts over. *)
Definition discard (this : Adapter) : Adapter :=
  setTerminateMessageLoop true
    (setPrivConversationConnectionPromise None (setPrivConnectionId null this)).

(** The connection promise is outstanding: still pending, or resolved
    with a connection that is not disconnected. *)
Definition outstanding (this : Adapter) (promise : nat) : Prop :=
  (∃ handlers, promises this !! promise = Some (pending handlers))
  ∨ (∃ connection,
       promises this !! promise = Some (resolved (connectionValue connection))
       ∧ connectionStates this !! connection ≠ Some Disconnected).

(** The connection promise is known to have failed, or its connection
    is disconnected. *)
Definition failedOrDisconnected (this : Adapter) (promise : nat) : Prop :=
  (∃ error, promises this !! promise = Some (rejected error))
  ∨ (∃ connection,
       promises this !! promise = Some (resolved (connectionValue connection))
       ∧ connectionStates this !! connection = Some Disconnected).

(** The adapter a call leaves behind. *)
Definition afterwards {A} (outcome : Outcome A) (otherwise : Adapter) : Adapter :=
  match outcome with
  | Returned _ after | Threw _ after => after
  | OutOfFuel => otherwise
  end.

(** The adapter as its constructor leaves it. *)
Definition constructor (collaborators : list (option (Rejection + Value))) : Adapter :=
  {| privConnectionId := undefined;
     privConversationAuthFetchEventId := undefined;
     privConversationIsDisposed := false;
     privConnectionConfigPromise := None;
     privConversationConnectionPromise := None;
     privConnectionLoop := None;
     terminateMessageLoop := false;
     promises := [];
     connectionStates := [];
     guids := 0;
     collaborators := collaborators;
     log := [] |}.

End ConversationServiceAdapter.

(** * Sample sessions

    A session in which Ada hosts and Bob is a guest, as the facade holds
    it once the participant list has arrived; they differ in who the
    local participant is. *)
Module Sample.

Import Conversation.

Definition ada : IInternalParticipant :=
  {| id := defined "ada";
     avatar := undefined;
     displayName := defined "Ada";
     isHost := Some true;
     isMuted := Some false;
     isUsingTts := Some false;
     preferredLanguage := defined "en-US" |}.

Definition bob : IInternalParticipant :=
  {| id := defined "bob";
     avatar := undefined;
     displayName := defined "Bob";
     isHost := Some false;
     isMuted := Some false;
     isUsingTts := Some false;
     preferredLanguage := defined "de-DE" |}.

Definition room : IInternalConversation :=
  {| roomId := defined "ABCDE";
     token := defined "session-token";
     roomParticipantId := defined "ada";
     cognitiveSpeechAuthToken := defined "speech-token" |}.

Definition speechConfig : SpeechTranslationConfig.t :=
  {| SpeechTranslationConfig.properties :=
       <[PropertyId.SpeechServiceConnection_Region := defined "westus"]>
         (<[PropertyId.SpeechServiceConnection_Key := defined "key"]> ∅) |}.

(** The session as the participant with id [localId] sees it. *)
Definition session (localId : string) : ConversationImpl :=
  {| privConfig := Some speechConfig;
     privProperties := Some (SpeechTranslationConfig.properties speechConfig);
     privLanguage := defined "en-US";
     privToken := undefined;
     privIsDisposed := false;
     privRoom := Some room;
     privManager := Some conversationManager;
     privConversationRecognizer := Some {| recognizerIsDisposed := false |};
     privConversationRecognizerConnection := Some (connection 1);
     privIsConnected := true;
     privParticipants :=
       Some {| InternalParticipants.participants := [ada; bob];
               InternalParticipants.meId := defined localId |};
     privIsReady := true;
     privConversationTranslator := Some conversationTranslator |}.

Definition hostSession : ConversationImpl := session "ada".
Definition guestSession : ConversationImpl := session "bob".

Definition cb : option Callback := Some (callback 0).
Definition err : option Callback := Some (callback 1).

(** A message of [n] letters. *)
Fixpoint letters (n : nat) : string :=
  match n with
  | 0 => ""
  | S n => String "a" (letters n)
  end.

(** The constants of the directory client, with stand-in values. *)
Definition restParams : ConversationManager.IRestParams :=
  {| ConversationManager.apiVersion := "api-version";
     ConversationManager.authorization := "Authorization";
     ConversationManager.clientAppId := "X-ClientAppId";
     ConversationManager.correlationId := "X-CorrelationId";
     ConversationManager.languageCode := "language";
     ConversationManager.nickname := "nickname";
     ConversationManager.requestId := "X-RequestId";
     ConversationManager.roomId := "roomid";
     ConversationManager.sessionToken := "token";
     ConversationManager.subscriptionKey := "Ocp-Apim-Subscription-Key";
     ConversationManager.subscriptionRegion := "Ocp-Apim-Subscription-Region" |}.

Definition connectionConfig : ConversationManager.ConversationConnectionConfig :=
  {| ConversationManager.configParams := restParams;
     ConversationManager.host := "conversation.example";
     ConversationManager.configApiVersion := "2.0";
     ConversationManager.restPath := "/capito/room";
     ConversationManager.defaultLanguageCode := "en-US";
     ConversationManager.configClientAppId := "client-app" |}.

(** Stand-in payload readers: the body of a speech frame is the
    recognized text itself, and the frames are final or not as
    [final] says. *)
Definition readers (final : bool) : ConversationServiceAdapter.PayloadReaders :=
  {| ConversationServiceAdapter.CommandResponsePayload_fromJSON := λ body,
       {| ConversationServiceAdapter.command := defined body;
          ConversationServiceAdapter.commandParticipantId := defined "bob";
          ConversationServiceAdapter.commandNickname := undefined;
          ConversationServiceAdapter.value := ConversationServiceAdapter.valueUndefined |};
     ConversationServiceAdapter.ParticipantsListPayloadResponse_fromJSON := λ _,
       {| ConversationServiceAdapter.roomid := defined "ABCDE";
          ConversationServiceAdapter.listToken := undefined;
          ConversationServiceAdapter.translateTo := undefined;
          ConversationServiceAdapter.profanityFilter := undefined;
          ConversationServiceAdapter.roomProfanityFilter := undefined;
          ConversationServiceAdapter.roomLocked := Some false;
          ConversationServiceAdapter.muteAll := Some false;
          ConversationServiceAdapter.payloadParticipants := Some [] |};
     ConversationServiceAdapter.ParticipantPayloadResponse_fromJSON := λ _,
       {| ConversationServiceAdapter.payloadAvatar := undefined;
          ConversationServiceAdapter.payloadNickname := defined "Bob";
          ConversationServiceAdapter.payloadParticipantId := defined "bob";
          ConversationServiceAdapter.ishost := Some false;
          ConversationServiceAdapter.ismuted := Some false;
          ConversationServiceAdapter.usetts := Some false;
          ConversationServiceAdapter.locale := defined "de-DE" |};
     ConversationServiceAdapter.SpeechResponsePayload_fromJSON := λ body,
       {| ConversationServiceAdapter.speechParticipantId := defined "bob";
          ConversationServiceAdapter.speechTranslations := None;
          ConversationServiceAdapter.speechLanguage := defined "de-DE";
          ConversationServiceAdapter.recognition := defined body;
          ConversationServiceAdapter.isFinal := final |};
     ConversationServiceAdapter.TextResponsePayload_fromJSON := λ body,
       {| ConversationServiceAdapter.textParticipantId := defined "bob";
          ConversationServiceAdapter.textTranslations := None;
          ConversationServiceAdapter.textLanguage := defined "de-DE";
          ConversationServiceAdapter.originalText := defined body |} |}.

(** A recognizer with every handler attached. *)
Definition connector : ConversationServiceAdapter.Connector :=
  {| ConversationServiceAdapter.hasConnectionOpened := true;
     ConversationServiceAdapter.hasCanceled := true;
     ConversationServiceAdapter.hasParticipantsListReceived := true;
     ConversationServiceAdapter.hasParticipantUpdateCommandReceived := true;
     ConversationServiceAdapter.hasMuteAllCommandReceived := true;
     ConversationServiceAdapter.hasConversationExpiration := true;
     ConversationServiceAdapter.hasLockRoomCommandReceived := true;
     ConversationServiceAdapter.hasParticipantJoinCommandReceived := true;
     ConversationServiceAdapter.hasParticipantLeaveCommandReceived := true;
     ConversationServiceAdapter.hasTranslationReceived := true |}.

(** A speech frame with nothing recognized. *)
Definition emptyFrame (type : string) : ConversationServiceAdapter.ConversationConnectionMessage :=
  {| ConversationServiceAdapter.conversationMessageType := defined type;
     ConversationServiceAdapter.textBody := "" |}.

(** A connect attempt on the wire: the adapter after [connect], with
    the credential fetch still under way; after the credential has
    arrived and the socket is being opened; after the service has
    answered the open with 403; and after the credential fetch has
    failed instead. *)
Definition connectEndpoint : JsString := defined "wss://conversation.example/capito".

Definition connecting : ConversationServiceAdapter.Adapter :=
  ConversationServiceAdapter.afterwards
    (ConversationServiceAdapter.conversationConnectImpl (readers false) connector "session"
       connectEndpoint 16 false (ConversationServiceAdapter.constructor []))
    (ConversationServiceAdapter.constructor []).

Definition opening : ConversationServiceAdapter.Adapter :=
  ConversationServiceAdapter.afterwards
    (ConversationServiceAdapter.completes (readers false) connector "session"
       connectEndpoint 16 0 (inr (ConversationServiceAdapter.authValue "credential"))
       connecting)
    connecting.

Definition forbidden : ConversationServiceAdapter.ConnectionOpenResponse :=
  {| ConversationServiceAdapter.statusCode := 403;
     ConversationServiceAdapter.reason := "Forbidden" |}.

Definition refused : ConversationServiceAdapter.Adapter :=
  ConversationServiceAdapter.afterwards
    (ConversationServiceAdapter.completes (readers false) connector "session"
       connectEndpoint 16 4 (inr (ConversationServiceAdapter.openValue forbidden))
       opening)
    opening.

Definition unauthenticated : ConversationServiceAdapter.Adapter :=
  ConversationServiceAdapter.afterwards
    (ConversationServiceAdapter.completes (readers false) connector "session"
       connectEndpoint 16 0 (inl (ConversationServiceAdapter.errorText "no credential"))
       connecting)
    connecting.

End Sample.

(** * States of the adapter the properties speak of *)
Module AdapterStates.

Import ConversationServiceAdapter.

(** The collaborators answer later: every promise the authentication
    or the transport hands out from now on is born pending, as one
    that waits for the network is. *)
Definition answersLater (this : Adapter) : Prop :=
  ∀ answer, Some answer ∉ collaborators this.

(** The same, except that the first promise handed out (in a
    connection attempt, the credential) may be born resolved, as the
    credential of an authentication that needs no exchange is. *)
Definition waitsAfterFirst (this : Adapter) : Prop :=
  match collaborators this with
  | [] => True
  | first :: later =>
      (∀ error, first ≠ Some (inl error)) ∧ ∀ answer, Some answer ∉ later
  end.

(** A promise of a connection: pending, rejected, or resolved with a
    connection. *)
Definition promisesConnection (this : Adapter) (promise : nat) : Prop :=
  outstanding this promise ∨ failedOrDisconnected this promise.

(** The promise table grows: no promise is removed, and a pending
    promise stays pending (handlers may have been attached). *)
Definition grows (before after : list PromiseState) : Prop :=
  length before ≤ length after
  ∧ ∀ promise handlers,
      before !! promise = Some (pending handlers) →
      ∃ later, after !! promise = Some (pending later).

End AdapterStates.

(** * A connection that was established *)
Module Established.

Import ConversationServiceAdapter.

Definition accepted : ConnectionOpenResponse :=
  {| statusCode := 200; reason := "" |}.

(** The adapter of [Sample.opening] after the service has answered the
    open with 200: the connection promise holds the connection, and the
    receive loop waits for the first frame. *)
Definition established : Adapter :=
  afterwards
    (completes (Sample.readers false) Sample.connector "session" Sample.connectEndpoint 16 4
       (inr (openValue accepted)) Sample.opening)
    Sample.opening.

End Established.

(** * The facade's handlers of recognizer events *)
Module ConversationHandlers.

Import Conversation.

Definition withPrivIsConnected (v : bool) (this : ConversationImpl) : ConversationImpl :=
  {| privConfig := privConfig this;
     privProperties := privProperties this;
     privLanguage := privLanguage this;
     privToken := privToken this;
     privIsDisposed := privIsDisposed this;
     privRoom := privRoom this;
     privManager := privManager this;
     privConversationRecognizer := privConversationRecognizer this;
     privConversationRecognizerConnection := privConversationRecognizerConnection this;
     privIsConnected := v;
     privParticipants := privParticipants this;
     privIsReady := privIsReady this;
     privConversationTranslator := privConversationTranslator this |}.

Definition withPrivIsReady (v : bool) (this : ConversationImpl) : ConversationImpl :=
  {| privConfig := privConfig this;
     privProperties := privProperties this;
     privLanguage := privLanguage this;
     privToken := privToken this;
     privIsDisposed := privIsDisposed this;
     privRoom := privRoom this;
     privManager := privManager this;
     privConversationRecognizer := privConversationRecognizer this;
     privConversationRecognizerConnection := privConversationRecognizerConnection this;
     privIsConnected := privIsConnected this;
     privParticipants := privParticipants this;
     privIsReady := v;
     privConversationTranslator := privConversationTranslator this |}.

Definition withPrivRoom (v : option IInternalConversation) (this : ConversationImpl)
  : ConversationImpl :=
  {| privConfig := privConfig this;
     privProperties := privProperties this;
     privLanguage := privLanguage this;
     privToken := privToken this;
     privIsDisposed := privIsDisposed this;
     privRoom := v;
     privManager := privManager this;
     privConversationRecognizer := privConversationRecognizer this;
     privConversationRecognizerConnection := privConversationRecognizerConnection this;
     privIsConnected := privIsConnected this;
     privParticipants := privParticipants this;
     privIsReady := privIsReady this;
     privConversationTranslator := privConversationTranslator this |}.

Definition withPrivParticipants (v : option InternalParticipants.t) (this : ConversationImpl)
  : ConversationImpl :=
  {| privConfig := privConfig this;
     privProperties := privProperties this;
     privLanguage := privLanguage this;
     privToken := privToken this;
     privIsDisposed := privIsDisposed this;
     privRoom := privRoom this;
     privManager := privManager this;
     privConversationRecognizer := privConversationRecognizer this;
     privConversationRecognizerConnection := privConversationRecognizerConnection this;
     privIsConnected := privIsConnected this;
     privParticipants := v;
     privIsReady := privIsReady this;
     privConversationTranslator := privConversationTranslator this |}.

(** [room.token = value] *)
Definition withToken (value : JsString) (room : IInternalConversation)
  : IInternalConversation :=
  {| roomId := roomId room;
     token := value;
     roomParticipantId := roomParticipantId room;
     cognitiveSpeechAuthToken := cognitiveSpeechAuthToken room |}.

(** [participant.isMuted = value] and [participant.displayName = value] *)
Definition withIsMuted (value : option bool) (p : IInternalParticipant) : IInternalParticipant :=
  {| id := id p;
     avatar := avatar p;
     displayName := displayName p;
     isHost := isHost p;
     isMuted := value;
     isUsingTts := isUsingTts p;
     preferredLanguage := preferredLanguage p |}.

Definition withDisplayName (value : JsString) (p : IInternalParticipant)
  : IInternalParticipant :=
  {| id := id p;
     avatar := avatar p;
     displayName := value;
     isHost := isHost p;
     isMuted := isMuted p;
     isUsingTts := isUsingTts p;
     preferredLanguage := preferredLanguage p |}.

Inductive ParticipantChangedReason : Type :=
  | JoinedConversation
  | LeftConversation
  | Updated.

(** Which callbacks are set on the conversation translator the facade
    reports to. *)
Record ConversationTranslatorCallbacks : Type := {
  sessionStarted : bool;
  sessionStopped : bool;
  canceled : bool;
  participantsChanged : bool;
  transcribed : bool;
  transcribing : bool;
  textMessageReceived : bool;
  conversationExpiration : bool }.

(** A call of one of the translator's callbacks. *)
Inductive Notification : Type :=
  | SessionStarted
  | SessionStopped
  | Canceled
  | ParticipantsChanged (reason : ParticipantChangedReason) (participants : list Participant)
      (sessionId : string)
  | Transcribed (result : ConversationServiceAdapter.ConversationTranslationResult)
      (sessionId : string)
  | Transcribing (result : ConversationServiceAdapter.ConversationTranslationResult)
      (sessionId : string)
  | TextMessageReceived (result : ConversationServiceAdapter.ConversationTranslationResult)
      (sessionId : string)
  | ConversationExpiration.

(** What a handler does to the world: effects of the facade itself, and
    calls of the translator's callbacks. *)
Inductive Output : Type :=
  | did (e : Effect)
  | notified (n : Notification).

(** The attribute a participant command changes, with the value it
    carries where the facade keeps it. *)
Inductive AttributeChange : Type :=
  | changeNickname (value : JsString)
  | setUseTTS
  | setProfanityFiltering
  | setMute (value : option bool)
  | setTranslateToLanguages
  | otherCommand.

(** [toParticipants(includeHost)] *)
Definition toParticipants (includeHost : bool) (registry : InternalParticipants.t)
  : list Participant :=
  let participants := toParticipant <$> InternalParticipants.participants registry in
  if includeHost then participants
  else filter (λ p, participantIsHost p = Some false) participants.

(** Modelled from the spec: [deleteParticipant] is not among the
    sources; it removes the participant with the id from the
    registry. *)
Definition deleteParticipant (registry : InternalParticipants.t) (wanted : JsString)
  : InternalParticipants.t :=
  {| InternalParticipants.participants :=
       filter (λ p, id p ≠ wanted) (InternalParticipants.participants registry);
     InternalParticipants.meId := InternalParticipants.meId registry |}.

(** A change made through the reference [getParticipant] returned
    changes the first participant with the id, in place. *)
Fixpoint changeFirst (wanted : JsString) (change : IInternalParticipant → IInternalParticipant)
    (participants : list IInternalParticipant) : list IInternalParticipant :=
  match participants with
  | [] => []
  | p :: rest =>
      if bool_decide (id p = wanted) then change p :: rest
      else p :: changeFirst wanted change rest
  end.

Section Handlers.

(** The callbacks set on [privConversationTranslator], when there is
    one. *)
Variable translator : ConversationTranslatorCallbacks.

(** [addOrUpdateParticipant] of the registry is not among the sources:
    the handler that calls it is modelled over any such method. *)
Variable addOrUpdateParticipant :
  InternalParticipants.t → IInternalParticipant → InternalParticipants.t.

(** [if (!!this.privConversationTranslator?.callback) { callback(...) }];
    the callbacks are taken not to throw. *)
Definition notify (this : ConversationImpl) (callback : ConversationTranslatorCallbacks → bool)
    (n : Notification) : list Output :=
  match privConversationTranslator this with
  | Some _ => if callback translator then [notified n] else []
  | None => []
  end.

Definition onConnected (this : ConversationImpl) : ConversationImpl * list Output :=
  let this := withPrivIsConnected true this in
  (this, notify this sessionStarted SessionStarted).

Definition onDisconnected (this : ConversationImpl) : ConversationImpl * list Output :=
  let '(this, effects) := close this false in
  (this, (did <$> effects) ++ notify this sessionStopped SessionStopped).

Definition onCanceled (this : ConversationImpl) : ConversationImpl * list Output :=
  let '(this, effects) := close this false in
  (this, (did <$> effects) ++ notify this canceled Canceled).

(** The members [useTts], [profanity] and [translateToLanguages] the
    handler writes are read nowhere in the facade ([toParticipant]
    reads [isUsingTts]): writing them leaves the participant, as far as
    the facade sees it, as it is. *)
Definition applyChange (change : AttributeChange) (p : IInternalParticipant)
  : IInternalParticipant :=
  match change with
  | changeNickname value => withDisplayName value p
  | setMute value => withIsMuted value p
  | setUseTTS | setProfanityFiltering | setTranslateToLanguages | otherCommand => p
  end.

Definition onParticipantUpdateCommandReceived (this : ConversationImpl) (wanted : JsString)
    (change : AttributeChange) (sessionId : string) : ConversationImpl * list Output :=
  match privParticipants this with
  | None => (this, [])       (* a [TypeError], caught *)
  | Some registry =>
      match InternalParticipants.getParticipant registry wanted with
      | None => (this, [])
      | Some participant =>
          let updatedParticipant := applyChange change participant in
          let registry :=
            {| InternalParticipants.participants :=
                 changeFirst wanted (applyChange change)
                   (InternalParticipants.participants registry);
               InternalParticipants.meId := InternalParticipants.meId registry |} in
          let registry := addOrUpdateParticipant registry updatedParticipant in
          let this := withPrivParticipants (Some registry) this in
          (this,
           notify this participantsChanged
             (ParticipantsChanged Updated [toParticipant updatedParticipant] sessionId))
      end
  end.

Definition onLockRoomCommandReceived (this : ConversationImpl) : ConversationImpl * list Output :=
  (this, []).

Definition onMuteAllCommandReceived (this : ConversationImpl) (isMuted : option bool)
    (sessionId : string) : ConversationImpl * list Output :=
  match privParticipants this with
  | None => (this, [])       (* a [TypeError], caught *)
  | Some registry =>
      let registry :=
        {| InternalParticipants.participants :=
             (λ p, withIsMuted (if truthyFlag (isHost p) then Some false else isMuted) p)
             <$> InternalParticipants.participants registry;
           InternalParticipants.meId := InternalParticipants.meId registry |} in
      let this := withPrivParticipants (Some registry) this in
      (this,
       notify this participantsChanged
         (ParticipantsChanged Updated (toParticipants false registry) sessionId))
  end.

Definition onParticipantLeaveCommandReceived (this : ConversationImpl) (wanted : JsString)
    (sessionId : string) : ConversationImpl * list Output :=
  match privParticipants this with
  | None => (this, [])       (* a [TypeError], caught *)
  | Some registry =>
      match InternalParticipants.getParticipant registry wanted with
      | None => (this, [])
      | Some ejectedParticipant =>
          (* remove the participant from the internal participants list *)
          let this := withPrivParticipants (Some (deleteParticipant registry wanted)) this in
          (this,
           notify this participantsChanged
             (ParticipantsChanged LeftConversation [toParticipant ejectedParticipant]
                sessionId))
      end
  end.

Definition onTranslationReceived (this : ConversationImpl)
    (command : ConversationServiceAdapter.ConversationTranslatorMessageTypes)
    (payload : ConversationServiceAdapter.ConversationTranslationResult) (sessionId : string)
  : ConversationImpl * list Output :=
  (this,
   match command with
   | ConversationServiceAdapter.final => notify this transcribed (Transcribed payload sessionId)
   | ConversationServiceAdapter.partial =>
       notify this transcribing (Transcribing payload sessionId)
   | ConversationServiceAdapter.instantMessage =>
       notify this textMessageReceived (TextMessageReceived payload sessionId)
   end).

Definition onParticipantsListReceived (this : ConversationImpl)
    (e : ConversationServiceAdapter.ParticipantsListEventArgs) (sessionId : string)
  : ConversationImpl * list Output :=
  (* check if the session token needs to be updated *)
  let tokenUpdated : option ConversationImpl :=
    if Contracts.isNullOrUndefined (ConversationServiceAdapter.sessionToken e) then Some this
    else
      match privRoom this with
      | Some room =>
          Some (withPrivRoom
                  (Some (withToken (ConversationServiceAdapter.sessionToken e) room)) this)
      | None => None          (* a [TypeError], caught *)
      end in
  match tokenUpdated with
  | None => (this, [])
  | Some this =>
      match privParticipants this with
      | None => (this, [])    (* a [TypeError], caught *)
      | Some registry =>
          (* save the participants *)
          let registry :=
            {| InternalParticipants.participants :=
                 ConversationServiceAdapter.argsParticipants e;
               InternalParticipants.meId := InternalParticipants.meId registry |} in
          let this := withPrivParticipants (Some registry) this in
          (* enable the conversation *)
          let this :=
            match InternalParticipants.me registry with
            | Some _ => withPrivIsReady true this
            | None => this
            end in
          (this,
           notify this participantsChanged
             (ParticipantsChanged JoinedConversation (toParticipants true registry) sessionId))
      end
  end.

Definition onConversationExpiration (this : ConversationImpl) : ConversationImpl * list Output :=
  (this, notify this conversationExpiration ConversationExpiration).

End Handlers.

End ConversationHandlers.

(** * Leaving a conversation: [ConversationManager.leave] *)
Module ConversationDirectory.

Import ConversationManager.

(** [leave] up to the point where the request is handed to the
    transport; the response is handled by a continuation run later. *)
Definition leave (this : t) (args : option PropertyCollection.t) (sessionToken : JsString)
    (cb err : option Callback) : list Effect :=
  tryCatch
    (Contracts.throwIfNullOrUndefined args (invalidArgs "config");;
     Contracts.throwIfNullOrWhitespace sessionToken (invalidArgs "token");;
     args ← member "getProperty" args;
     let endpointHost :=
       PropertyCollection.getProperty args PropertyId.ConversationTranslator_Host
         (defined (privHost this)) in
     let correlationId :=
       PropertyCollection.getProperty args PropertyId.ConversationTranslator_CorrelationId
         undefined in
     let params := privRequestParams this in
     let queryParams : IStringDictionary :=
       <[ConversationManager.sessionToken params := sessionToken]>
         (<[apiVersion params := defined (privApiVersion this)]> ∅) in
     let headers : IStringDictionary :=
       if truthy correlationId
       then <[ConversationManager.correlationId params := correlationId]> ∅
       else ∅ in
     let endpoint := "https://" +:+ text endpointHost +:+ privRestPath this in
     perform [HttpRequest "delete" endpoint queryParams headers cb err])
    (λ error, handleError error err).

End ConversationDirectory.

(** * The life cycle of a conversation: create, start, join, delete *)
Module ConversationLifecycle.

Import Conversation.

(** What a life-cycle method does to the world: effects of the facade
    itself, effects of the directory client it calls, and the
    [connect] it asks of the recognizer. *)
Inductive Step : Type :=
  | facade (e : Effect)
  | directory (e : ConversationManager.Effect)
  | RecognizerConnect (token : JsString) (cb err : option Callback).

(** The directory client is handed closures around the caller's
    continuations; its error closure passes the text it is given on to
    [handleError], which calls [err] with it. The directory's call of
    the closure is therefore the facade's call of [err]. *)
Definition throughFacade (e : ConversationManager.Effect) : Step :=
  match e with
  | ConversationManager.InvokeError err error => facade (InvokeError err error)
  | request => directory request
  end.

(** [this.handleError(new Error(message), err)] when a recognizer
    exists already. *)
Definition reportIfStarted (this : ConversationImpl) (err : option Callback) : list Step :=
  match privConversationRecognizer this with
  | Some _ => facade <$> handleError (Error permissionDeniedStart) err
  | None => []
  end.

Section Lifecycle.

Variable config : ConversationManager.ConversationConnectionConfig.

(** The handle of the connection [Connection.fromRecognizer] makes. *)
Variable fromRecognizer : Connection.

Definition createConversationAsync (this : ConversationImpl) (cb err : option Callback)
  : list Step :=
  reportIfStarted this err
  ++ match privManager this with
     | Some _ =>
         throughFacade
         <$> ConversationManager.createOrJoin config (ConversationManager.constructor config)
               (privProperties this) undefined cb err
     | None => facade <$> handleError (TypeError "createOrJoin") err
     end.

Definition startConversationAsync (this : ConversationImpl) (cb err : option Callback)
  : ConversationImpl * list Step :=
  (* check if there is already a recognizer *)
  let reported := reportIfStarted this err in
  (* check if there is conversation data available *)
  match privRoom this, privParticipants this with
  | None, _ =>
      (this, reported
             ++ (facade <$> handleError (NullOrUndefined permissionDeniedConnect) err))
  | Some _, None => (this, reported ++ (facade <$> handleError (TypeError "meId") err))
  | Some room, Some registry =>
      (* connect to the conversation websocket *)
      ({| privConfig := privConfig this;
          privProperties := privProperties this;
          privLanguage := privLanguage this;
          privToken := privToken this;
          privIsDisposed := privIsDisposed this;
          privRoom := privRoom this;
          privManager := privManager this;
          privConversationRecognizer := Some {| recognizerIsDisposed := false |};
          privConversationRecognizerConnection := Some fromRecognizer;
          privIsConnected := privIsConnected this;
          privParticipants :=
            Some {| InternalParticipants.participants :=
                      InternalParticipants.participants registry;
                    InternalParticipants.meId := roomParticipantId room |};
          privIsReady := privIsReady this;
          privConversationTranslator := privConversationTranslator this |},
       reported ++ [RecognizerConnect (token room) cb err])
  end.

Definition joinConversationAsync (this : ConversationImpl)
    (conversationId nickname lang : JsString) (cb err : option Callback) : list Step :=
  match
    (Contracts.throwIfNullOrWhitespace conversationId (invalidArgs "conversationId");;
     Contracts.throwIfNullOrWhitespace nickname (invalidArgs "nickname");;
     Contracts.throwIfNullOrWhitespace lang (invalidArgs "language");;
     member (E := Effect) "createOrJoin" (privManager this))
  with
  | (_, inl error) => facade <$> handleError error err
  | (_, inr _) =>
      (* join the conversation *)
      throughFacade
      <$> ConversationManager.createOrJoin config (ConversationManager.constructor config)
            (privProperties this) conversationId cb err
  end.

Definition deleteConversationAsync (this : ConversationImpl) (cb err : option Callback)
  : ConversationImpl * list Step :=
  match
    (Contracts.throwIfNullOrUndefined (privProperties this) permissionDeniedConnect;;
     room ← member (E := Effect) "token" (privRoom this);
     Contracts.throwIfNullOrWhitespace (token room) permissionDeniedConnect;;
     member "leave" (privManager this);;
     mret room)
  with
  | (_, inl error) => (this, facade <$> handleError error err)
  | (_, inr room) =>
      let left :=
        throughFacade
        <$> ConversationDirectory.leave (ConversationManager.constructor config)
              (privProperties this) (token room) cb err in
      let '(this, disposed) := dispose this in
      (this, left ++ (facade <$> disposed))
  end.

End Lifecycle.

End ConversationLifecycle.

(** * The speaker profile adapter: [SpeakerIdMessageAdapter] *)
Module SpeakerIdMessageAdapter.

Definition SpeechServiceConnection_Endpoint := "SpeechServiceConnection_Endpoint".
Definition SpeechServiceConnection_Host := "SpeechServiceConnection_Host".

Inductive VoiceProfileType : Type :=
  | TextIndependentIdentification
  | TextDependentVerification
  | TextIndependentVerification.

#[global] Instance VoiceProfileType_eq_dec : EqDecision VoiceProfileType.
Proof. solve_decision. Defined.

Record VoiceProfile : Type := {
  profileId : string;
  profileType : VoiceProfileType }.

Inductive RestRequestType : Type := Post | File | Delete.

(** The calls the adapter makes on its REST adapter. *)
Inductive Effect : Type :=
  | setHeaders (key value : string)
  | request (method : RestRequestType) (uri : string) (queryParams : list (string * string))
      (body : option string).

(** No character of [s] is an opening brace. *)
Fixpoint braceFree (s : string) : bool :=
  match s with
  | EmptyString => true
  | String c rest => negb (Ascii.eqb c "{") && braceFree rest
  end.

Fixpoint dropChars (n : nat) (s : string) : string :=
  match n, s with
  | S n, String _ rest => dropChars n rest
  | _, _ => s
  end.

(** [s.replace(pattern, replacement)] for a string pattern and a
    replacement without [$]: the first occurrence is replaced. *)
Fixpoint replace (pattern replacement s : string) : string :=
  if String.prefix pattern s then replacement +:+ dropChars (String.length pattern) s
  else
    match s with
    | EmptyString => EmptyString
    | String c rest => String c (replace pattern replacement rest)
    end.

(** The text a value contributes to a string concatenation. *)
Definition text (value : JsString) : string :=
  match value with
  | defined s => s
  | undefined => "undefined"
  | null => "null"
  end.

Record t : Type := {
  privUri : string;
  subscriptionKeyHeader : JsString }.

(** The constructor, from [config.parameters]. *)
Definition constructor (parameters : PropertyCollection.t) : t :=
  let endpoint := PropertyCollection.getProperty parameters SpeechServiceConnection_Endpoint undefined in
  let endpoint :=
    if negb (truthy endpoint) then
      let region :=
        PropertyCollection.getProperty parameters PropertyId.SpeechServiceConnection_Region
          (defined "westus") in
      let host :=
        PropertyCollection.getProperty parameters SpeechServiceConnection_Host
          (defined ("https://" +:+ text region
                    +:+ ".api.cognitive.microsoft.com/speaker/{mode}/v2.0/{dependency}")) in
      text host +:+ "/profiles"
    else text endpoint in
  {| privUri := endpoint;
     subscriptionKeyHeader :=
       PropertyCollection.getProperty parameters PropertyId.SpeechServiceConnection_Key
         undefined |}.

Definition getOperationUri (this : t) (profileType : VoiceProfileType) : string :=
  let mode :=
    if bool_decide (profileType = TextIndependentIdentification)
    then "identification" else "verification" in
  let dependency :=
    if bool_decide (profileType = TextDependentVerification)
    then "text-dependent" else "text-independent" in
  replace "{dependency}" dependency (replace "{mode}" mode (privUri this)).

Section Requests.

(** [RestConfigBase.configParams.contentTypeKey], a constant outside
    these sources. *)
Variable contentTypeKey : string.

Definition createProfile (this : t) (profileType : VoiceProfileType) (lang : string)
  : list Effect :=
  let uri := getOperationUri this profileType in
  [setHeaders contentTypeKey "application/json";
   request Post uri [] (Some lang)].

(** The body is the file of the audio source, named by [file]. *)
Definition createEnrollment (this : t) (profile : VoiceProfile) (file : string)
  : list Effect :=
  let uri :=
    getOperationUri this (profileType profile) +:+ "/" +:+ profileId profile
    +:+ "/enrollments" in
  [setHeaders contentTypeKey "multipart/form-data";
   request File uri [("shortAudio", "true")] (Some file)].

Definition deleteProfile (this : t) (profile : VoiceProfile) : list Effect :=
  let uri := getOperationUri this (profileType profile) +:+ "/" +:+ profileId profile in
  [request Delete uri [] None].

End Requests.

End SpeakerIdMessageAdapter.

(** * What the commands hand to the recognizer *)
Module ConversationCommands.

Import Conversation.

(** The requests among the effects of a command, in order. *)
Definition requests (effects : list Effect) : list Request :=
  omap (λ e, match e with RecognizerSend request _ _ => Some request | _ => None end) effects.

(** The facade can reach its recognizer: neither is disposed and the
    conversation data is there. *)
Definition live (this : ConversationImpl) : Prop :=
  privIsDisposed this = false
  ∧ (∃ recognizer,
       privConversationRecognizer this = Some recognizer
       ∧ recognizerIsDisposed recognizer = false)
  ∧ is_Some (privRoom this).

(** A computation that hands the recognizer nothing. *)
Definition quiet {A} (m : Try Effect A) : Prop := requests (fst m) = [].

(** A computation that hands the recognizer nothing, or one request
    that satisfies [P]. *)
Definition sends {A} (P : Request → Prop) (m : Try Effect A) : Prop :=
  requests (fst m) = [] ∨ ∃ request, requests (fst m) = [request] ∧ P request.

End ConversationCommands.

(** * More sample sessions *)
Module Scenario.

Import Conversation.

(** The host's session with the disposed flag set. *)
Definition flaggedSession : ConversationImpl :=
  {| privConfig := privConfig Sample.hostSession;
     privProperties := privProperties Sample.hostSession;
     privLanguage := privLanguage Sample.hostSession;
     privToken := privToken Sample.hostSession;
     privIsDisposed := true;
     privRoom := privRoom Sample.hostSession;
     privManager := privManager Sample.hostSession;
     privConversationRecognizer := privConversationRecognizer Sample.hostSession;
     privConversationRecognizerConnection :=
       privConversationRecognizerConnection Sample.hostSession;
     privIsConnected := privIsConnected Sample.hostSession;
     privParticipants := privParticipants Sample.hostSession;
     privIsReady := privIsReady Sample.hostSession;
     privConversationTranslator := privConversationTranslator Sample.hostSession |}.

(** The host's session right after [startConversationAsync]: the
    recognizer is there, but the connection has not opened and no
    participant list has arrived. *)
Definition startedSession : ConversationImpl :=
  {| privConfig := privConfig Sample.hostSession;
     privProperties := privProperties Sample.hostSession;
     privLanguage := privLanguage Sample.hostSession;
     privToken := privToken Sample.hostSession;
     privIsDisposed := false;
     privRoom := privRoom Sample.hostSession;
     privManager := privManager Sample.hostSession;
     privConversationRecognizer := privConversationRecognizer Sample.hostSession;
     privConversationRecognizerConnection :=
       privConversationRecognizerConnection Sample.hostSession;
     privIsConnected := false;
     privParticipants :=
       Some {| InternalParticipants.participants := [];
               InternalParticipants.meId := defined "ada" |};
     privIsReady := false;
     privConversationTranslator := privConversationTranslator Sample.hostSession |}.

(** A translator with every callback set. *)
Definition translator : ConversationHandlers.ConversationTranslatorCallbacks :=
  {| ConversationHandlers.sessionStarted := true;
     ConversationHandlers.sessionStopped := true;
     ConversationHandlers.canceled := true;
     ConversationHandlers.participantsChanged := true;
     ConversationHandlers.transcribed := true;
     ConversationHandlers.transcribing := true;
     ConversationHandlers.textMessageReceived := true;
     ConversationHandlers.conversationExpiration := true |}.

(** A registry method that replaces the stored participant with the
    same id, or appends the participant when the id is new. *)
Definition replaceOrPush (registry : InternalParticipants.t) (value : IInternalParticipant)
  : InternalParticipants.t :=
  {| InternalParticipants.participants :=
       match InternalParticipants.getParticipantIndex registry (id value) with
       | Some _ =>
           ConversationHandlers.changeFirst (id value) (λ _, value)
             (InternalParticipants.participants registry)
       | None => InternalParticipants.participants registry ++ [value]
       end;
     InternalParticipants.meId := InternalParticipants.meId registry |}.

(** The participant list the service sends first. *)
Definition participantList : ConversationServiceAdapter.ParticipantsListEventArgs :=
  {| ConversationServiceAdapter.conversationId := defined "ABCDE";
     ConversationServiceAdapter.sessionToken := defined "rotated-token";
     ConversationServiceAdapter.argsTranslateTo := undefined;
     ConversationServiceAdapter.argsProfanityFilter := undefined;
     ConversationServiceAdapter.argsRoomProfanityFilter := undefined;
     ConversationServiceAdapter.isRoomLocked := Some false;
     ConversationServiceAdapter.isMuteAll := Some false;
     ConversationServiceAdapter.argsParticipants := [Sample.ada; Sample.bob] |}.

(** The properties of a host about to create a conversation, and of a
    guest about to join one. *)
Definition hostProperties : PropertyCollection.t :=
  <[PropertyId.ConversationTranslator_Name := defined "Ada"]>
    (<[PropertyId.SpeechServiceAuthorization_Token := defined "bearer-token"]>
       (<[PropertyId.SpeechServiceConnection_Key := defined "key"]>
          (<[PropertyId.SpeechServiceConnection_Region := defined "westus"]> ∅))).

Definition guestProperties : PropertyCollection.t :=
  <[PropertyId.ConversationTranslator_Name := defined "Bob"]> ∅.

(** The properties of a host whose subscription key is the empty
    string and who has no authorization token. *)
Definition keylessProperties : PropertyCollection.t :=
  <[PropertyId.ConversationTranslator_Name := defined "Ada"]>
    (<[PropertyId.SpeechServiceConnection_Key := defined ""]>
       (<[PropertyId.SpeechServiceConnection_Region := defined "westus"]> ∅)).

End Scenario.

(** * The laws of [Try] the proofs use *)

Lemma Try_ret_bind {E A B} (a : A) (f : A → Try E B) : mret a ≫= f = f a.
Proof. unfold mbind, Try_bind, mret, Try_ret. by destruct (f a). Qed.

Lemma Try_throw_bind {E A B} (error : JsError) (f : A → Try E B) :
  throw error ≫= f = throw error.
Proof. reflexivity. Qed.

(** * Properties of the facade *)

Section FacadeProperties.

Import Conversation.

(** [dispose] tests the method [isDisposed] itself, which is always
    truthy, so it returns before touching anything. *)
Lemma dispose_returns_at_once (this : ConversationImpl) : dispose this = (this, []).
Proof. reflexivity. Qed.

(** C1. Disposing a second time is a no-op: the call returns (the model
    of [dispose] has no throwing outcome), it leaves the object as the
    first call left it, and it performs no effect; in particular the
    connection handle is neither closed nor released again. *)
Theorem dispose_twice_is_noop (this : ConversationImpl) :
  let disposed := fst (dispose this) in
  dispose disposed = (disposed, [])
  ∧ (∀ c, (ConnectionCloseConnection c ∉ snd (dispose disposed))
          ∧ (ConnectionClose c ∉ snd (dispose disposed))).
Proof.
  cbn zeta. split; [reflexivity|].
  intros c. rewrite !dispose_returns_at_once. cbn. split; apply not_elem_of_nil.
Qed.

(** The commands read the state only through these members. *)
Lemma throwIfEitherDisposed_passes (this : ConversationImpl) recognizer :
  privIsDisposed this = false →
  privConversationRecognizer this = Some recognizer →
  recognizerIsDisposed recognizer = false →
  throwIfEitherDisposed this = ([], inr tt).
Proof.
  intros Hd Hr Hrd. unfold throwIfEitherDisposed. rewrite Hd, Hr. cbn. by rewrite Hrd.
Qed.

Lemma canSendAsHost_not_host (this : ConversationImpl) registry :
  privParticipants this = Some registry →
  truthyFlag (InternalParticipants.me registry ≫= isHost) = false →
  canSendAsHost (E := Effect) this = ([], inr false).
Proof.
  intros Hp Hh. unfold canSendAsHost. rewrite Hp. destruct (privIsConnected this); cbn; [|done].
  by rewrite Hh.
Qed.

(** C3. A participant who is not the host calls [lockConversationAsync]
    on a live session: the failure continuation is invoked with the
    permission error, and the lock request is handed to the recognizer
    all the same, because [handleError] returns into the command. *)
Theorem lock_by_guest_reports_and_sends (this : ConversationImpl) recognizer room registry
    (cb err : option Callback) :
  privIsDisposed this = false →
  privConversationRecognizer this = Some recognizer →
  recognizerIsDisposed recognizer = false →
  privRoom this = Some room →
  privParticipants this = Some registry →
  truthyFlag (InternalParticipants.me registry ≫= isHost) = false →
  lockConversationAsync this cb err
  = handleError (Error (permissionDeniedConversation "lock")) err
    ++ [RecognizerSend (sendLockRequest true) cb err].
Proof.
  intros Hd Hr Hrd Hroom Hp Hh. unfold lockConversationAsync.
  rewrite (throwIfEitherDisposed_passes this recognizer Hd Hr Hrd).
  rewrite Hroom, (canSendAsHost_not_host this registry Hp Hh).
  unfold send. rewrite Hr. by destruct err.
Qed.

Lemma lock_by_guest_reports_and_sends_witness :
  lockConversationAsync Sample.guestSession Sample.cb Sample.err
  = [InvokeError (callback 1) (Error (permissionDeniedConversation "lock"));
     RecognizerSend (sendLockRequest true) Sample.cb Sample.err].
Proof.
  apply (lock_by_guest_reports_and_sends Sample.guestSession
           {| recognizerIsDisposed := false |} Sample.room
           {| InternalParticipants.participants := [Sample.ada; Sample.bob];
              InternalParticipants.meId := defined "bob" |});
    reflexivity.
Defined.

Lemma canSend_value (this : ConversationImpl) registry :
  privParticipants this = Some registry →
  canSend (E := Effect) this
  = ([], inr (privIsConnected this
              && negb (truthyFlag (InternalParticipants.me registry ≫= isMuted)))).
Proof.
  intros Hp. unfold canSend. rewrite Hp. by destruct (privIsConnected this).
Qed.

(** C4. [sendTextMessageAsync] with a message longer than the maximum,
    on a live session: the failure continuation is invoked with the
    argument error, and the message is handed to the recognizer all the
    same, because [handleError] returns into the command. *)
Theorem long_message_reports_and_sends (textMessageMaxLength : nat) (this : ConversationImpl)
    recognizer room registry (text : string) (cb err : option Callback) :
  privIsDisposed this = false →
  privConversationRecognizer this = Some recognizer →
  recognizerIsDisposed recognizer = false →
  privRoom this = Some room →
  privParticipants this = Some registry →
  privIsConnected this = true →
  truthyFlag (InternalParticipants.me registry ≫= isMuted) = false →
  Contracts.isNullOrWhitespace (defined text) = false →
  textMessageMaxLength < String.length text →
  sendTextMessageAsync textMessageMaxLength this (defined text) cb err
  = handleError (Error (invalidArgs "message length")) err
    ++ [RecognizerSend (sendMessageRequest text) cb err].
Proof.
  intros Hd Hr Hrd Hroom Hp Hc Hm Hblank Hlong. unfold sendTextMessageAsync.
  rewrite (throwIfEitherDisposed_passes this recognizer Hd Hr Hrd).
  unfold Contracts.throwIfNullOrWhitespace. rewrite Hblank, Hroom.
  rewrite (canSend_value this registry Hp), Hc, Hm.
  apply Nat.ltb_lt in Hlong. unfold send. rewrite Hr.
  cbn -[Nat.ltb String.length]. rewrite Hlong.
  by destruct err.
Qed.

Lemma long_message_reports_and_sends_witness :
  sendTextMessageAsync 10 Sample.hostSession (defined (Sample.letters 11)) Sample.cb Sample.err
  = [InvokeError (callback 1) (Error (invalidArgs "message length"));
     RecognizerSend (sendMessageRequest (Sample.letters 11)) Sample.cb Sample.err].
Proof.
  apply (long_message_reports_and_sends 10 Sample.hostSession
           {| recognizerIsDisposed := false |} Sample.room
           {| InternalParticipants.participants := [Sample.ada; Sample.bob];
              InternalParticipants.meId := defined "ada" |});
    try reflexivity.
  cbn. lia.
Defined.

Lemma canSendAsHost_host (this : ConversationImpl) registry :
  privParticipants this = Some registry →
  privIsConnected this = true →
  truthyFlag (InternalParticipants.me registry ≫= isHost) = true →
  canSendAsHost (E := Effect) this = ([], inr true).
Proof.
  intros Hp Hc Hh. unfold canSendAsHost. rewrite Hp, Hc. cbn. by rewrite Hh.
Qed.

(** C6. A connected host calls [dispose] and then
    [lockConversationAsync]: [dispose] returned at once without setting
    the disposed flag, so the command does not fail with the
    disposed-object error; it hands the lock request to the
    recognizer. *)
Theorem lock_after_dispose_sends (this : ConversationImpl) recognizer room registry
    (cb err : option Callback) :
  privIsDisposed this = false →
  privConversationRecognizer this = Some recognizer →
  recognizerIsDisposed recognizer = false →
  privRoom this = Some room →
  privParticipants this = Some registry →
  privIsConnected this = true →
  truthyFlag (InternalParticipants.me registry ≫= isHost) = true →
  privIsDisposed (fst (dispose this)) = false
  ∧ lockConversationAsync (fst (dispose this)) cb err
    = [RecognizerSend (sendLockRequest true) cb err].
Proof.
  intros Hd Hr Hrd Hroom Hp Hc Hh. rewrite dispose_returns_at_once. cbn [fst].
  split; [done|]. unfold lockConversationAsync.
  rewrite (throwIfEitherDisposed_passes this recognizer Hd Hr Hrd).
  rewrite Hroom, (canSendAsHost_host this registry Hp Hc Hh).
  unfold send. by rewrite Hr.
Qed.

Lemma lock_after_dispose_sends_witness :
  privIsDisposed (fst (dispose Sample.hostSession)) = false
  ∧ lockConversationAsync (fst (dispose Sample.hostSession)) Sample.cb Sample.err
    = [RecognizerSend (sendLockRequest true) Sample.cb Sample.err].
Proof.
  apply (lock_after_dispose_sends Sample.hostSession
           {| recognizerIsDisposed := false |} Sample.room
           {| InternalParticipants.participants := [Sample.ada; Sample.bob];
              InternalParticipants.meId := defined "ada" |});
    reflexivity.
Defined.

(** C10. When the local participant is in the registry with the host
    flag set, [isMutedByHost] is [false] whatever the muted flag is;
    when the local participant is not in the registry, it is
    [undefined], hence not [true]. *)
Theorem isMutedByHost_host_or_absent (this : ConversationImpl) registry :
  privParticipants this = Some registry →
  (∀ p, InternalParticipants.me registry = Some p → isHost p = Some true →
        isMutedByHost this = inr (Some false))
  ∧ (InternalParticipants.me registry = None →
     isMutedByHost this = inr None ∧ isMutedByHost this ≠ inr (Some true)).
Proof.
  intros Hp. unfold isMutedByHost. rewrite Hp. split.
  - intros p Hme Hhost. rewrite Hme. cbn. by rewrite Hhost.
  - intros Hme. by rewrite Hme.
Qed.

Lemma isMutedByHost_host_or_absent_witness :
  isMutedByHost Sample.hostSession = inr (Some false)
  ∧ isMutedByHost (Sample.session "eve") = inr None.
Proof.
  split.
  - refine (proj1 (isMutedByHost_host_or_absent Sample.hostSession _ eq_refl)
              Sample.ada eq_refl eq_refl).
  - refine (proj1 (proj2 (isMutedByHost_host_or_absent (Sample.session "eve") _ eq_refl)
              eq_refl)).
Defined.

(** The steps of the constructor before the nickname check write other
    properties: the nickname it reads is the one it was given. *)
Lemma getProperty_setProperty_ne (cfg : SpeechTranslationConfig.t) key other value def :
  other ≠ key →
  SpeechTranslationConfig.getProperty (SpeechTranslationConfig.setProperty cfg other value)
    key def
  = SpeechTranslationConfig.getProperty cfg key def.
Proof.
  intros Hne. unfold SpeechTranslationConfig.getProperty, SpeechTranslationConfig.setProperty,
    PropertyCollection.getProperty, PropertyCollection.setProperty. cbn.
  by rewrite lookup_insert_ne.
Qed.

Lemma getProperty_setProperty_eq (cfg : SpeechTranslationConfig.t) key value def :
  SpeechTranslationConfig.getProperty (SpeechTranslationConfig.setProperty cfg key value)
    key def
  = value.
Proof.
  unfold SpeechTranslationConfig.getProperty, SpeechTranslationConfig.setProperty,
    PropertyCollection.getProperty, PropertyCollection.setProperty. cbn.
  by rewrite lookup_insert_eq.
Qed.

Lemma hostNickname_Host (configured : JsString) :
  configured = undefined ∨ configured = null
  ∨ (∃ s, configured = defined s ∧ (String.length s ≤ 1 ∨ 50 < String.length s)) →
  hostNickname configured = "Host".
Proof.
  intros [-> | [-> | (s & -> & Hlen)]]; [done | done |]. unfold hostNickname.
  destruct (String.length s <=? 1) eqn:Hshort; [done|].
  destruct (50 <? String.length s) eqn:Hlong; [done|].
  apply Nat.leb_gt in Hshort. apply Nat.ltb_ge in Hlong. lia.
Qed.

Lemma hostNickname_kept (s : string) :
  2 ≤ String.length s ≤ 50 → hostNickname (defined s) = s.
Proof.
  intros [Hlo Hhi]. unfold hostNickname.
  destruct (String.length s <=? 1) eqn:Hshort; [apply Nat.leb_le in Hshort; lia|].
  destruct (50 <? String.length s) eqn:Hlong; [apply Nat.ltb_lt in Hlong; lia|done].
Qed.

(** C9. On every configuration the constructor gets through (one that
    has target languages, or whose language is not blank so that it can
    be added as the target), the nickname written back is "Host" when
    the configured one is undefined, null, of length at most 1 or of
    length above 50, and the configured one when its length is 2 to
    50. *)
Theorem constructor_stores_nickname (defaultLanguageCode : string)
    (speechConfig : SpeechTranslationConfig.t) :
  SpeechTranslationConfig.targetLanguages speechConfig ≠ null →
  (SpeechTranslationConfig.targetLanguages speechConfig = undefined →
   Contracts.isNullOrWhitespace (settledLanguage defaultLanguageCode speechConfig) = false) →
  let configured :=
    SpeechTranslationConfig.getProperty speechConfig PropertyId.ConversationTranslator_Name
      undefined in
  ∃ this stored,
    constructor defaultLanguageCode speechConfig = inr (this, stored)
    ∧ privConfig this = Some stored
    ∧ (configured = undefined ∨ configured = null
       ∨ (∃ s, configured = defined s ∧ (String.length s ≤ 1 ∨ 50 < String.length s)) →
       SpeechTranslationConfig.getProperty stored PropertyId.ConversationTranslator_Name
         undefined = defined "Host")
    ∧ (∀ s, configured = defined s → 2 ≤ String.length s ≤ 50 →
       SpeechTranslationConfig.getProperty stored PropertyId.ConversationTranslator_Name
         undefined = defined s).
Proof.
  intros Hnotnull Hlanguage configured.
  assert (∃ this stored,
    constructor defaultLanguageCode speechConfig = inr (this, stored)
    ∧ privConfig this = Some stored
    ∧ SpeechTranslationConfig.getProperty stored PropertyId.ConversationTranslator_Name
        undefined = defined (hostNickname configured)) as (this & stored & Hc & Hp & Hn).
  { unfold constructor, settledLanguage in *.
    set (language := SpeechTranslationConfig.getProperty speechConfig
                       PropertyId.SpeechServiceConnection_RecoLanguage undefined) in *.
    set (cfg1 := if negb (truthy language) then _ else speechConfig).
    assert (SpeechTranslationConfig.targetLanguages cfg1
            = SpeechTranslationConfig.targetLanguages speechConfig) as Htargets.
    { unfold cfg1. destruct (truthy language); [done|]. cbn [negb].
      unfold SpeechTranslationConfig.targetLanguages. by rewrite getProperty_setProperty_ne. }
    assert (SpeechTranslationConfig.getProperty cfg1
              PropertyId.SpeechServiceConnection_RecoLanguage undefined
            = if truthy language then language else defined defaultLanguageCode) as Hlang.
    { unfold cfg1. destruct (truthy language); [done|]. cbn [negb].
      by rewrite getProperty_setProperty_eq. }
    assert (SpeechTranslationConfig.getProperty cfg1 PropertyId.ConversationTranslator_Name
              undefined = configured) as Hname.
    { unfold cfg1. destruct (truthy language); [done|]. cbn [negb].
      by rewrite getProperty_setProperty_ne. }
    rewrite Htargets, Hlang.
    assert (∃ cfg2,
      match SpeechTranslationConfig.targetLanguages speechConfig with
      | undefined =>
          SpeechTranslationConfig.addTargetLanguage cfg1
            (if truthy language then language else defined defaultLanguageCode)
      | null => inl (TypeError "split")
      | defined _ => inr cfg1
      end = inr cfg2
      ∧ SpeechTranslationConfig.getProperty cfg2 PropertyId.ConversationTranslator_Name
          undefined = configured) as (cfg2 & -> & Hname2).
    { destruct (SpeechTranslationConfig.targetLanguages speechConfig) eqn:Ht; [|done|by eauto].
      specialize (Hlanguage eq_refl). unfold SpeechTranslationConfig.addTargetLanguage.
      rewrite Hlanguage, Htargets.
      destruct (if truthy language then language else defined defaultLanguageCode)
        as [| |settled]; [done|done|].
      eexists. split; [done|]. rewrite getProperty_setProperty_ne; [exact Hname | done]. }
    eexists _, _. split; [reflexivity|]. split; [reflexivity|].
    rewrite getProperty_setProperty_eq. do 2 f_equal.
    destruct (negb (truthy (SpeechTranslationConfig.getProperty cfg2 _ _))); [|done].
    unfold SpeechTranslationConfig.setProfanityMasked.
    rewrite getProperty_setProperty_ne; [exact Hname2 | done]. }
  exists this, stored. split; [done|]. split; [done|]. split.
  - intros Hbad. by rewrite Hn, hostNickname_Host.
  - intros s Hs Hlen. rewrite Hn, Hs. by rewrite hostNickname_kept.
Qed.

Lemma constructor_stores_nickname_witness :
  ∃ this stored,
    constructor "en-US" Sample.speechConfig = inr (this, stored)
    ∧ privConfig this = Some stored
    ∧ SpeechTranslationConfig.getProperty stored PropertyId.ConversationTranslator_Name
        undefined = defined "Host".
Proof.
  destruct (constructor_stores_nickname "en-US" Sample.speechConfig)
    as (this & stored & Hc & Hp & Hhost & _); [done | reflexivity |].
  exists this, stored. split; [done|]. split; [done|]. apply Hhost. by left.
Defined.

(** Without a connection the host gate is closed, whoever the local
    participant is. *)
Lemma canSendAsHost_needs_connection (this : ConversationImpl) :
  privIsConnected this = false → canSendAsHost (E := Effect) this = ([], inr false).
Proof. intros Hc. unfold canSendAsHost. by rewrite Hc. Qed.

Lemma canSendAsHost_needs_connection_witness :
  canSendAsHost (E := Effect) (fst (close Sample.hostSession false)) = ([], inr false).
Proof.
  apply (canSendAsHost_needs_connection (fst (close Sample.hostSession false))).
  reflexivity.
Defined.

End FacadeProperties.

(** * Properties of the directory client *)

Section ManagerProperties.

Import ConversationManager.

Lemma handleError_no_request (error : JsError) (err : option Callback) :
  Forall (λ e, isHttpRequest e = false) (handleError error err).
Proof. destruct err; repeat constructor. Qed.

(** C7. When the language, the nickname or the endpoint host the call
    resolves is blank, or when the call creates a conversation (no
    conversation code) and the region is absent, [createOrJoin] ends in
    its [catch]: the failure continuation, if there is one, gets the
    error of the failed check, and no request is issued. *)
Theorem createOrJoin_rejects_bad_settings (config : ConversationConnectionConfig) (this : t)
    (args : PropertyCollection.t) (conversationCode : JsString) (cb err : option Callback) :
  Contracts.isNullOrWhitespace
    (PropertyCollection.getProperty args PropertyId.SpeechServiceConnection_RecoLanguage
       (defined (defaultLanguageCode config))) = true
  ∨ Contracts.isNullOrWhitespace
      (PropertyCollection.getProperty args PropertyId.ConversationTranslator_Name undefined)
    = true
  ∨ Contracts.isNullOrWhitespace
      (PropertyCollection.getProperty args PropertyId.ConversationTranslator_Host
         (defined (privHost this))) = true
  ∨ (conversationCode = undefined
     ∧ Contracts.isNullOrUndefined
         (PropertyCollection.getProperty args PropertyId.SpeechServiceConnection_Region
            undefined) = true) →
  (∃ error, isConfigurationError error = true
            ∧ createOrJoin config this (Some args) conversationCode cb err
              = handleError error err)
  ∧ Forall (λ e, isHttpRequest e = false)
      (createOrJoin config this (Some args) conversationCode cb err).
Proof.
  intros Hbad.
  assert (∃ error, isConfigurationError error = true
                   ∧ createOrJoin config this (Some args) conversationCode cb err
                     = handleError error err) as (error & Hkind & Hrun).
  { unfold createOrJoin.
    change (Contracts.throwIfNullOrUndefined (Some args) (literal "args"))
      with (mret tt : Try Effect unit).
    rewrite Try_ret_bind. cbn [member]. rewrite Try_ret_bind.
    unfold Contracts.throwIfNullOrWhitespace, skip.
    destruct (Contracts.isNullOrWhitespace (PropertyCollection.getProperty args
                PropertyId.SpeechServiceConnection_RecoLanguage _)) eqn:Hlanguage;
      [eexists (NullOrWhitespace _); split; reflexivity|].
    rewrite Try_ret_bind.
    destruct (Contracts.isNullOrWhitespace (PropertyCollection.getProperty args
                PropertyId.ConversationTranslator_Name _)) eqn:Hnickname;
      [eexists (NullOrWhitespace _); split; reflexivity|].
    rewrite Try_ret_bind.
    destruct (Contracts.isNullOrWhitespace (PropertyCollection.getProperty args
                PropertyId.ConversationTranslator_Host _)) eqn:Hhost;
      [eexists (NullOrWhitespace _); split; reflexivity|].
    rewrite Try_ret_bind.
    destruct Hbad as [? | [? | [? | [-> Hregion]]]]; [done | done | done |].
    unfold Contracts.throwIfNullOrUndefined. rewrite Hregion.
    eexists (NullOrUndefined _); split; reflexivity. }
  split; [by exists error|]. rewrite Hrun. apply handleError_no_request.
Qed.

Lemma createOrJoin_rejects_bad_settings_witness :
  let call :=
    createOrJoin Sample.connectionConfig (constructor Sample.connectionConfig)
      (Some (<[PropertyId.ConversationTranslator_Name := defined "Ada"]> ∅))
      undefined Sample.cb Sample.err in
  (∃ error, isConfigurationError error = true ∧ call = handleError error Sample.err)
  ∧ Forall (λ e, isHttpRequest e = false) call.
Proof.
  apply (createOrJoin_rejects_bad_settings Sample.connectionConfig
           (constructor Sample.connectionConfig)
           (<[PropertyId.ConversationTranslator_Name := defined "Ada"]> ∅)
           undefined Sample.cb Sample.err).
  right; right; right. split; reflexivity.
Defined.

End ManagerProperties.

(** * Properties of the adapter *)

Section AdapterProperties.

Import ConversationServiceAdapter.

Variable readers : PayloadReaders.
Variable connector : Connector.
Variable sessionId : string.
Variable endpoint : JsString.

(** C5. A frame of type "partial" or "final" that reaches the frame
    switch of the receive loop: when its payload is final and the
    recognized text is undefined or empty, no event is raised and the
    loop goes on; when its payload is not final, the translation
    handler is called with a partial result, whatever the recognized
    text is. *)
Theorem translation_frames (message : ConversationConnectionMessage) (type : string) :
  conversationMessageType message = defined type →
  toLowerCase type = "partial" ∨ toLowerCase type = "final" →
  let speechPayload := SpeechResponsePayload_fromJSON readers (textBody message) in
  (isFinal speechPayload = true →
   recognition speechPayload = undefined ∨ recognition speechPayload = defined "" →
   dispatch readers connector sessionId message = ([], inr tt))
  ∧ (isFinal speechPayload = false →
     hasTranslationReceived connector = true →
     ∃ result,
       text result = recognition speechPayload
       ∧ dispatch readers connector sessionId message
         = ([translationReceived partial result sessionId], inr tt)).
Proof.
  intros Htype Hkind speechPayload.
  assert (dispatch readers connector sessionId message
          = dispatchSpeech readers connector sessionId message) as ->.
  { unfold dispatch. rewrite Htype. by destruct Hkind as [-> | ->]. }
  unfold dispatchSpeech. fold speechPayload. split.
  - intros -> [Htext | Htext]; cbn [text]; by rewrite Htext.
  - intros -> ->. eexists. split; [|reflexivity]. reflexivity.
Qed.

(** ** The log only grows *)

Lemma Extends_ret {A} (a : A) : Extends (mret a).
Proof. intros this. cbn. reflexivity. Qed.

Lemma Extends_get : Extends get.
Proof. intros this. cbn. reflexivity. Qed.

Lemma Extends_throwError {A} (error : JsError) : Extends (throwError (A := A) error).
Proof. intros this. cbn. reflexivity. Qed.

Lemma Extends_outOfFuel {A} : Extends (outOfFuel (A := A)).
Proof. intros this. cbn. reflexivity. Qed.

Lemma Extends_bind {A B} (m : Run A) (f : A → Run B) :
  Extends m → (∀ a, Extends (f a)) → Extends (m ≫= f).
Proof.
  intros Hm Hf this. specialize (Hm this). unfold mbind, Run_bind.
  destruct (m this) as [a after | error after |]; [|done|done].
  specialize (Hf a after). destruct (f a after); [by etrans | by etrans | done].
Qed.

Lemma Extends_catch {A} (m : Run A) (handler : JsError → Run A) :
  Extends m → (∀ error, Extends (handler error)) → Extends (catch m handler).
Proof.
  intros Hm Hh this. specialize (Hm this). unfold catch.
  destruct (m this) as [a after | error after |]; [done| |done].
  specialize (Hh error after). destruct (handler error after); [by etrans | by etrans | done].
Qed.

Lemma Extends_modify (f : Adapter → Adapter) :
  (∀ this, log (f this) = log this) → Extends (modify f).
Proof. intros Hf this. cbn. by rewrite Hf. Qed.

Lemma Extends_emit (events : list Event) : Extends (emit events).
Proof. intros this. cbn. by apply prefix_app_r. Qed.

Lemma Extends_createNoDashGuid : Extends createNoDashGuid.
Proof. intros this. cbn. reflexivity. Qed.

Lemma Extends_newPromise (state : PromiseState) : Extends (newPromise state).
Proof. intros this. cbn. reflexivity. Qed.

Lemma Extends_handedOut : Extends handedOut.
Proof. intros this. cbn. reflexivity. Qed.

Lemma Extends_newConnection : Extends newConnection.
Proof. intros this. cbn. reflexivity. Qed.

Lemma Extends_setPromise (promise : nat) (state : PromiseState) :
  Extends (setPromise promise state).
Proof. intros this. cbn. reflexivity. Qed.

Lemma Extends_process (message : ConversationConnectionMessage) :
  Extends (process readers connector sessionId message).
Proof.
  unfold process. destruct (dispatch _ _ _ _) as [events [error|[]]].
  - apply Extends_bind; [apply Extends_emit|]. intros _. apply Extends_throwError.
  - apply Extends_emit.
Qed.

Lemma Extends_cancelRecognition (errorCode : CancellationErrorCode) :
  Extends (cancelRecognition connector sessionId errorCode).
Proof.
  unfold cancelRecognition. apply Extends_bind; [by apply Extends_modify|].
  intros _. apply Extends_emit.
Qed.

Lemma Extends_foldl {H} (step : H → Run unit) (handlers : list H) (start : Run unit) :
  Extends start → (∀ handler, Extends (step handler)) →
  Extends (foldl (λ (sofar : Run unit) handler, sofar;; step handler) start handlers).
Proof.
  revert start. induction handlers as [|handler handlers IH]; intros start Hstart Hstep; [done|].
  cbn. apply IH; [|done]. apply Extends_bind; [done|]. intros _. apply Hstep.
Qed.

Ltac extends_step IH :=
  lazymatch goal with
  | |- Extends (mret _) => apply Extends_ret
  | |- Extends get => apply Extends_get
  | |- Extends (throwError _) => apply Extends_throwError
  | |- Extends outOfFuel => apply Extends_outOfFuel
  | |- Extends (mbind _ _) => apply Extends_bind; [|intros ?]
  | |- Extends (catch _ _) => apply Extends_catch; [|intros ?]
  | |- Extends (modify _) => apply Extends_modify; intros ?; reflexivity
  | |- Extends (emit _) => apply Extends_emit
  | |- Extends createNoDashGuid => apply Extends_createNoDashGuid
  | |- Extends (newPromise _) => apply Extends_newPromise
  | |- Extends (fromResult _) => apply Extends_newPromise
  | |- Extends (fromError _) => apply Extends_newPromise
  | |- Extends handedOut => apply Extends_handedOut
  | |- Extends newConnection => apply Extends_newConnection
  | |- Extends (setPromise _ _) => apply Extends_setPromise
  | |- Extends (process _ _ _ _) => apply Extends_process
  | |- Extends (cancelRecognition _ _ _) => apply Extends_cancelRecognition
  | |- Extends (foldl _ _ _) => apply Extends_foldl; [|intros ?]
  | |- Extends (match ?x with _ => _ end) => destruct x
  | |- Extends _ => apply IH
  end.

Lemma Extends_adapter (fuel : nat) :
  (∀ isUnAuthorized,
     Extends (conversationConnectImpl readers connector sessionId endpoint fuel isUnAuthorized))
  ∧ (∀ promise handler,
       Extends (on readers connector sessionId endpoint fuel promise handler))
  ∧ (∀ promise outcome,
       Extends (settle readers connector sessionId endpoint fuel promise outcome))
  ∧ (∀ handler outcome,
       Extends (call readers connector sessionId endpoint fuel handler outcome))
  ∧ Extends (configConnection readers connector sessionId endpoint fuel)
  ∧ Extends (receiveConversationMessageOverride readers connector sessionId endpoint fuel)
  ∧ Extends (startMessageLoop readers connector sessionId endpoint fuel).
Proof.
  induction fuel as [|fuel IH].
  { repeat split; intros; apply Extends_outOfFuel. }
  repeat split; intros; simpl; repeat extends_step IH.
Qed.


Lemma outcome_extends {A} (m : Run A) (this : Adapter) (P : list Event → Prop) :
  Extends m →
  (∀ rest, P (log this ++ rest)) →
  match m this with
  | Returned _ after | Threw _ after => P (log after)
  | OutOfFuel => True
  end.
Proof.
  intros Hm HP. specialize (Hm this).
  destruct (m this) as [a after | error after |]; [| |done];
    destruct Hm as [rest ->]; apply HP.
Qed.

(** An attempt that finds no connection promise opens with the
    credential fetch ([fetchOnExpiry] when entered as unauthorized):
    whatever comes after, that is what it logs first. *)
Lemma fresh_attempt_fetches (fuel : nat) (isUnAuthorized : bool) (this : Adapter) :
  privConversationConnectionPromise this = None →
  match conversationConnectImpl readers connector sessionId endpoint (S fuel)
          isUnAuthorized this with
  | Returned _ after | Threw _ after =>
      ∃ authFetchEventId connectionId rest,
        log after
        = log this
          ++ onPreConnectionStart authFetchEventId connectionId
             :: (if isUnAuthorized then fetchOnExpiry else fetch) authFetchEventId
             :: rest
  | OutOfFuel => True
  end.
Proof.
  intros Hnone. simpl. unfold mbind at 1, Run_bind at 1. cbn [get]. rewrite Hnone.
  unfold mbind at 1 2 3, Run_bind at 1 2 3. cbn [createNoDashGuid modify].
  destruct (bool_decide (privConnectionId this = undefined)).
  - unfold mbind at 1 2 3 4, Run_bind at 1 2 3 4. cbn [createNoDashGuid modify get emit].
    apply (outcome_extends _ _ (λ l, ∃ authFetchEventId connectionId rest, l = _ ++ _ :: _ :: rest)).
    + repeat extends_step (Extends_adapter fuel).
    + intros rest. cbn. eexists _, _, rest. by rewrite <- !app_assoc.
  - unfold mbind at 1 2 3, Run_bind at 1 2 3. cbn [mret Run_ret modify get emit].
    apply (outcome_extends _ _ (λ l, ∃ authFetchEventId connectionId rest, l = _ ++ _ :: _ :: rest)).
    + repeat extends_step (Extends_adapter fuel).
    + intros rest. cbn. eexists _, _, rest. by rewrite <- !app_assoc.
Qed.


(** ** Calls that return

    While the collaborators answer later, a call of the adapter ends
    after a bounded number of nested calls. *)

Lemma grows_refl (table : list PromiseState) : AdapterStates.grows table table.
Proof. split; [done|]. eauto. Qed.

Lemma grows_trans (first second third : list PromiseState) :
  AdapterStates.grows first second → AdapterStates.grows second third →
  AdapterStates.grows first third.
Proof.
  intros [Hlength Hpending] [Hlength' Hpending']. split; [lia|].
  intros promise handlers Hfirst.
  destruct (Hpending _ _ Hfirst) as [later Hsecond]. eauto.
Qed.

Lemma grows_app (table more : list PromiseState) : AdapterStates.grows table (table ++ more).
Proof.
  split; [rewrite length_app; lia|].
  intros promise handlers Hpending. exists handlers. by apply lookup_app_l_Some.
Qed.

Lemma grows_attach (table : list PromiseState) (promise : nat) (handlers : list Handler) :
  AdapterStates.grows table (<[promise := pending handlers]> table).
Proof.
  split; [by rewrite length_insert|].
  intros other earlier Hpending. destruct (decide (promise = other)) as [->|Hother].
  - exists handlers. apply list_lookup_insert_eq. by eapply lookup_lt_Some.
  - exists earlier. by rewrite list_lookup_insert_ne.
Qed.

Lemma on_pending (fuel : nat) (promise : nat) (handler : Handler) (handlers : list Handler)
    (this : Adapter) :
  1 ≤ fuel →
  promises this !! promise = Some (pending handlers) →
  on readers connector sessionId endpoint fuel promise handler this
  = Returned tt (setPromises (<[promise := pending (handlers ++ [handler])]> (promises this))
                   this).
Proof.
  intros Hfuel Hpending. destruct fuel as [|fuel]; [lia|].
  simpl. unfold mbind, Run_bind. cbn [get]. by rewrite Hpending.
Qed.

Lemma on_resolved (fuel : nat) (promise : nat) (handler : Handler) (result : Value)
    (this : Adapter) :
  promises this !! promise = Some (resolved result) →
  on readers connector sessionId endpoint (S fuel) promise handler this
  = call readers connector sessionId endpoint fuel handler (inr result) this.
Proof. intros Hresolved. simpl. unfold mbind, Run_bind. cbn [get]. by rewrite Hresolved. Qed.

(** The guard at the top of [conversationConnectImpl]. *)
Lemma connect_outstanding (fuel : nat) (isUnAuthorized : bool) (this : Adapter)
    (promise : nat) :
  1 ≤ fuel →
  privConversationConnectionPromise this = Some promise →
  outstanding this promise →
  conversationConnectImpl readers connector sessionId endpoint fuel isUnAuthorized this
  = Returned (Some promise) this.
Proof.
  intros Hfuel Hpromise Hout. destruct fuel as [|fuel]; [lia|].
  simpl. unfold mbind at 1, Run_bind at 1. cbn [get]. rewrite Hpromise.
  destruct Hout as [[handlers ->] | (connection & -> & Hstate)]; [done|].
  by rewrite bool_decide_eq_false_2.
Qed.

(** [configConnection] when no configuration promise is kept and the
    connection promise is pending: it derives a new promise from the
    connection promise. *)
Lemma configConnection_derives (fuel : nat) (this : Adapter) (promise : nat)
    (handlers : list Handler) :
  2 ≤ fuel →
  privConnectionConfigPromise this = None →
  terminateMessageLoop this = false →
  privConversationConnectionPromise this = Some promise →
  promises this !! promise = Some (pending handlers) →
  ∃ after,
    configConnection readers connector sessionId endpoint fuel this
    = Returned (length (promises this)) after
    ∧ promises after
      = <[promise := pending (handlers ++ [configContinuation (length (promises this))])]>
          (promises this ++ [pending []])
    ∧ privConversationConnectionPromise after = Some promise
    ∧ collaborators after = collaborators this
    ∧ connectionStates after = connectionStates this
    ∧ log after = log this.
Proof.
  intros Hfuel Hconfig Hterminate Hpromise Hpending.
  destruct fuel as [|fuel]; [lia|].
  simpl. unfold mbind at 1, Run_bind at 1. cbn [get]. rewrite Hconfig, Hterminate.
  unfold mbind at 1, Run_bind at 1.
  rewrite (connect_outstanding fuel false this promise); [|lia|done|left; eauto].
  unfold mbind at 1, Run_bind at 1. cbn [newPromise].
  unfold mbind at 1, Run_bind at 1.
  rewrite (on_pending fuel promise _ handlers); [|lia|by apply lookup_app_l_Some].
  eexists. split; [reflexivity|]. done.
Qed.

Lemma promisesConnection_later (this after : Adapter) (promise : nat) :
  (∀ state, promises this !! promise = Some state → promises after !! promise = Some state) →
  connectionStates after = connectionStates this →
  AdapterStates.promisesConnection this promise →
  AdapterStates.promisesConnection after promise.
Proof.
  intros Hsame Hstates. unfold AdapterStates.promisesConnection, outstanding,
    failedOrDisconnected. rewrite Hstates.
  intros [[[handlers H] | (connection & H & Hstate)] | [[error H] | (connection & H & Hstate)]];
    apply Hsame in H; eauto 8.
Qed.

Lemma promisesConnection_extended (this after : Adapter) (promise : nat)
    (opened : list ConnectionState) :
  (∀ index state, promises this !! index = Some state →
                  promises after !! index = Some state) →
  connectionStates after = connectionStates this ++ opened →
  Disconnected ∉ opened →
  AdapterStates.promisesConnection this promise →
  AdapterStates.promisesConnection after promise.
Proof.
  intros Hkept Hstates Hopened.
  unfold AdapterStates.promisesConnection, outstanding, failedOrDisconnected.
  rewrite Hstates.
  intros [[[handlers H] | (connection & H & Hstate)] | [[error H] | (connection & H & Hstate)]];
    apply Hkept in H.
  - left. left. by exists handlers.
  - left. right. exists connection. split; [done|].
    intros [Hold | [_ Hnew]]%lookup_app_Some; [done|].
    apply Hopened. by eapply list_elem_of_lookup_2.
  - right. left. by exists error.
  - right. right. exists connection. split; [done|]. by apply lookup_app_l_Some.
Qed.

(** [configConnection] while the connection promise is pending: it
    hands out a promise that is pending or resolved with a live
    connection, and logs nothing. *)
Lemma configConnection_while_pending (fuel : nat) (this : Adapter) (promise : nat)
    (handlers : list Handler) :
  3 ≤ fuel →
  terminateMessageLoop this = false →
  privConversationConnectionPromise this = Some promise →
  promises this !! promise = Some (pending handlers) →
  (∀ config, privConnectionConfigPromise this = Some config →
             AdapterStates.promisesConnection this config) →
  ∃ config after,
    configConnection readers connector sessionId endpoint fuel this = Returned config after
    ∧ outstanding after config
    ∧ AdapterStates.grows (promises this) (promises after)
    ∧ privConversationConnectionPromise after = Some promise
    ∧ collaborators after = collaborators this
    ∧ log after = log this.
Proof.
  intros Hfuel Hterminate Hpromise Hpending Htyped.
  assert (Hderived : ∀ fuel this',
            2 ≤ fuel →
            privConnectionConfigPromise this' = None →
            terminateMessageLoop this' = false →
            privConversationConnectionPromise this' = Some promise →
            promises this' = promises this →
            collaborators this' = collaborators this →
            log this' = log this →
            ∃ config after,
              configConnection readers connector sessionId endpoint fuel this'
              = Returned config after
              ∧ outstanding after config
              ∧ AdapterStates.grows (promises this) (promises after)
              ∧ privConversationConnectionPromise after = Some promise
              ∧ collaborators after = collaborators this
              ∧ log after = log this).
  { intros fuel' this' Hfuel' Hconfig' Hterminate' Hpromise' Htable' Hscript' Hlog'.
    destruct (configConnection_derives fuel' this' promise handlers)
      as (after & Hreturned & Htable & Hkept & Hscript & Hstates & Hlog);
      [done..|by rewrite Htable'|].
    exists (length (promises this')), after.
    split; [done|]. split; [|split; [|split; [done|split; congruence]]].
    - left. exists []. rewrite Htable.
      rewrite list_lookup_insert_ne; [by apply list_lookup_middle|].
      rewrite Htable'. apply lookup_lt_Some in Hpending. lia.
    - rewrite Htable, Htable'.
      eapply grows_trans; [apply grows_app|apply grows_attach]. }
  destruct fuel as [|fuel]; [lia|].
  destruct (privConnectionConfigPromise this) as [config|] eqn:Hconfig.
  - destruct (Htyped config eq_refl)
      as [Hout | [[error Hfailed] | (connection & Hgone & Hstate)]].
    + exists config, this. split; [|by repeat split; try apply grows_refl].
      simpl. unfold mbind at 1, Run_bind at 1. cbn [get]. rewrite Hconfig.
      destruct Hout as [[waiting ->] | (connection & -> & Hstate)]; [done|].
      by rewrite bool_decide_eq_false_2.
    + destruct (Hderived fuel (setPrivConnectionConfigPromise None this))
        as (derived & after & Hreturned & Hrest); [lia|done..|].
      exists derived, after. split; [|done].
      simpl. unfold mbind at 1, Run_bind at 1. cbn [get]. rewrite Hconfig, Hfailed.
      exact Hreturned.
    + destruct (Hderived fuel (setPrivConnectionConfigPromise None this))
        as (derived & after & Hreturned & Hrest); [lia|done..|].
      exists derived, after. split; [|done].
      simpl. unfold mbind at 1, Run_bind at 1. cbn [get]. rewrite Hconfig, Hgone.
      rewrite bool_decide_eq_true_2; [|done]. exact Hreturned.
  - apply Hderived; [lia|done..].
Qed.

Lemma handedOut_later (this : Adapter) :
  AdapterStates.answersLater this →
  handedOut this
  = Returned (length (promises this))
      (setPromises (promises this ++ [pending []])
         (setCollaborators (tail (collaborators this)) this)).
Proof.
  intros Hlater. unfold handedOut.
  destruct (collaborators this) as [|[answer|] script] eqn:Hscript; [done| |done].
  destruct (Hlater answer). rewrite Hscript. apply list_elem_of_here.
Qed.

Lemma answersLater_tail (this after : Adapter) :
  collaborators after = tail (collaborators this) →
  AdapterStates.answersLater this → AdapterStates.answersLater after.
Proof.
  intros Hscript Hlater answer Hin. apply (Hlater answer). rewrite Hscript in Hin.
  destruct (collaborators this); [done|]. by apply list_elem_of_further.
Qed.

Lemma answersLater_same (this after : Adapter) :
  collaborators after = collaborators this →
  AdapterStates.answersLater this → AdapterStates.answersLater after.
Proof. intros Hscript Hlater answer. rewrite Hscript. apply Hlater. Qed.

(** [readConnection] on a connection: it asks for the next frame and
    waits for it. *)
Lemma readConnection_waits (fuel : nat) (this : Adapter) (communicationCustodian : nat)
    (connection : nat) :
  2 ≤ fuel →
  AdapterStates.answersLater this →
  ∃ after,
    call readers connector sessionId endpoint fuel (readConnection communicationCustodian)
      (inr (connectionValue connection)) this
    = Returned tt after
    ∧ AdapterStates.grows (promises this) (promises after)
    ∧ privConversationConnectionPromise after = privConversationConnectionPromise this
    ∧ AdapterStates.answersLater after
    ∧ log after = log this ++ [read connection].
Proof.
  intros Hfuel Hlater. destruct fuel as [|fuel]; [lia|].
  simpl. unfold catch. unfold mbind at 1, Run_bind at 1. cbn [emit modify].
  unfold mbind at 1, Run_bind at 1. rewrite handedOut_later; [|exact Hlater].
  unfold mbind at 1, Run_bind at 1. cbn [newPromise].
  rewrite (on_pending fuel _ _ []); [|lia|].
  - eexists. split; [reflexivity|]. cbn. split; [|split; [done|split; [|done]]].
    + eapply grows_trans; [|apply grows_attach].
      rewrite <- app_assoc. apply grows_app.
    + by apply (answersLater_tail this).
  - cbn. apply lookup_app_l_Some. by apply list_lookup_middle.
Qed.

Lemma answersLater_waitsAfterFirst (this : Adapter) :
  AdapterStates.answersLater this → AdapterStates.waitsAfterFirst this.
Proof.
  unfold AdapterStates.answersLater, AdapterStates.waitsAfterFirst.
  destruct (collaborators this) as [|first later]; [done|]. intros Hlater. split.
  - intros error ->. apply (Hlater (inl error)), list_elem_of_here.
  - intros answer Hanswer. apply (Hlater answer). by apply list_elem_of_further.
Qed.

(** The first promise handed out is born pending or resolved; those
    handed out after it are born pending. *)
Lemma handedOut_first (this : Adapter) :
  AdapterStates.waitsAfterFirst this →
  ∃ born,
    handedOut this
    = Returned (length (promises this))
        (setPromises (promises this ++ [born])
           (setCollaborators (tail (collaborators this)) this))
    ∧ (born = pending [] ∨ ∃ result, born = resolved result)
    ∧ ∀ answer, Some answer ∉ tail (collaborators this).
Proof.
  unfold AdapterStates.waitsAfterFirst, handedOut.
  destruct (collaborators this) as [|[[error|result]|] later]; cbn.
  - intros _. exists (pending []). split; [done|]. split; [by left|].
    intros answer Hanswer. by apply elem_of_nil in Hanswer.
  - intros [Hfails _]. by destruct (Hfails error).
  - intros [_ Hlater]. exists (resolved result). split; [done|]. split; [|done].
    right. by eexists.
  - intros [_ Hlater]. exists (pending []). split; [done|]. split; [by left|done].
Qed.

Lemma attach_two (table : list PromiseState) (first second : PromiseState) :
  <[length (table ++ [pending []]) := second]>
    (<[length table := first]> ((table ++ [pending []]) ++ [pending []]))
  = table ++ [first; second].
Proof.
  rewrite <- app_assoc. cbn [app].
  rewrite (insert_app_r_alt table), Nat.sub_diag by lia. cbn.
  rewrite insert_app_r_alt by (rewrite length_app; cbn; lia).
  rewrite length_app. cbn. by replace (length table + 1 - length table) with 1 by lia.
Qed.

(** The continuation of a credential fetch that succeeded: it creates a
    connection, opens it, and waits for the answer. *)
Lemma authContinuation_opens (fuel : nat) (this : Adapter) (isUnAuthorized : bool)
    (continuationDeferral : nat) (authInfo : Value) :
  2 ≤ fuel →
  AdapterStates.answersLater this →
  ∃ after more,
    call readers connector sessionId endpoint fuel
      (authContinuation isUnAuthorized continuationDeferral) (inr authInfo) this
    = Returned tt after
    ∧ promises after = promises this ++ more
    ∧ connectionStates after = connectionStates this ++ [StateNone]
    ∧ privConversationConnectionPromise after = privConversationConnectionPromise this
    ∧ privConnectionConfigPromise after = privConnectionConfigPromise this
    ∧ AdapterStates.answersLater after.
Proof.
  intros Hfuel Hlater. destruct fuel as [|fuel]; [lia|].
  simpl. unfold catch. unfold mbind at 1, Run_bind at 1. cbn [emit modify].
  unfold mbind at 1, Run_bind at 1. cbn [get].
  unfold mbind at 1, Run_bind at 1. cbn [newConnection].
  unfold mbind at 1, Run_bind at 1. cbn [emit modify].
  unfold mbind at 1, Run_bind at 1. cbn [emit modify].
  unfold mbind at 1, Run_bind at 1. rewrite handedOut_later; [|exact Hlater].
  unfold mbind at 1, Run_bind at 1. cbn [newPromise].
  unfold mbind at 1, Run_bind at 1.
  rewrite (on_pending fuel _ _ []); [|lia|].
  2:{ cbn. apply lookup_app_l_Some. by apply list_lookup_middle. }
  rewrite (on_pending fuel _ _ []); [|lia|].
  2:{ cbn. rewrite list_lookup_insert_ne; [|rewrite length_app; cbn; lia].
      apply list_lookup_middle. by rewrite length_app. }
  eexists _, [_; _]. split; [reflexivity|]. cbn.
  split; [|split; [done|split; [done|split; [done|by apply (answersLater_tail this)]]]].
  apply attach_two.
Qed.

(** One round of the receive loop while the connection promise is
    pending: it returns its custodian promise, still pending. *)
Lemma receive_while_pending (fuel : nat) (this : Adapter) (promise : nat)
    (handlers : list Handler) :
  5 ≤ fuel →
  terminateMessageLoop this = false →
  privConversationConnectionPromise this = Some promise →
  promises this !! promise = Some (pending handlers) →
  (∀ config, privConnectionConfigPromise this = Some config →
             AdapterStates.promisesConnection this config) →
  AdapterStates.answersLater this →
  ∃ after,
    receiveConversationMessageOverride readers connector sessionId endpoint fuel this
    = Returned (length (promises this)) after
    ∧ AdapterStates.grows (promises this ++ [pending []]) (promises after)
    ∧ privConversationConnectionPromise after = Some promise
    ∧ AdapterStates.answersLater after.
Proof.
  intros Hfuel Hterminate Hpromise Hpending Htyped Hlater.
  destruct fuel as [|fuel]; [lia|].
  simpl. unfold mbind at 1, Run_bind at 1. cbn [newPromise].
  set (waiting := setPromises (promises this ++ [pending []]) this).
  destruct (configConnection_while_pending fuel waiting promise handlers)
    as (config & configured & Hreturned & Hout & Hgrows & Hkept & Hscript & Hlog).
  { lia. }
  { done. }
  { done. }
  { by apply lookup_app_l_Some. }
  { intros config Hconfig. apply (promisesConnection_later this); [|done|by apply Htyped].
    intros state Hstate. by apply lookup_app_l_Some. }
  unfold mbind at 1, Run_bind at 1. rewrite Hreturned.
  destruct Hout as [[attached Hattached] | (connection & Hconnection & Hstate)].
  - unfold mbind at 1, Run_bind at 1.
    rewrite (on_pending fuel config _ attached); [|lia|done].
    eexists. split; [reflexivity|]. cbn. split; [|split; [done|]].
    + eapply grows_trans; [exact Hgrows|apply grows_attach].
    + by apply (answersLater_same this).
  - destruct fuel as [|fuel]; [lia|].
    unfold mbind at 1, Run_bind at 1. rewrite (on_resolved fuel config _ _ _ Hconnection).
    destruct (readConnection_waits fuel configured (length (promises this)) connection)
      as (after & Hread & Hgrows' & Hkept' & Hlater' & Hlog'); [lia| |].
    { by apply (answersLater_same this). }
    rewrite Hread. exists after. split; [reflexivity|]. split; [|split; [congruence|done]].
    eapply grows_trans; [exact Hgrows|exact Hgrows'].
Qed.

(** [startMessageLoop] while the connection promise is pending. *)
Lemma startMessageLoop_while_pending (fuel : nat) (this : Adapter) (promise : nat)
    (handlers : list Handler) :
  6 ≤ fuel →
  privConversationConnectionPromise this = Some promise →
  promises this !! promise = Some (pending handlers) →
  (∀ config, privConnectionConfigPromise this = Some config →
             AdapterStates.promisesConnection this config) →
  AdapterStates.answersLater this →
  ∃ loop after,
    startMessageLoop readers connector sessionId endpoint fuel this = Returned loop after
    ∧ AdapterStates.grows (promises this) (promises after)
    ∧ privConversationConnectionPromise after = Some promise.
Proof.
  intros Hfuel Hpromise Hpending Htyped Hlater.
  destruct fuel as [|fuel]; [lia|].
  simpl. unfold mbind at 1, Run_bind at 1. cbn [modify].
  destruct (receive_while_pending fuel (setTerminateMessageLoop false this) promise handlers)
    as (received & Hreturned & Hgrows & Hkept & Hlater'); [lia|done..|].
  unfold mbind at 1, Run_bind at 1. rewrite Hreturned.
  destruct Hgrows as [Hlength Hwaiting].
  destruct (Hwaiting (length (promises this)) []) as [attached Hattached].
  { by apply list_lookup_middle. }
  unfold mbind at 1, Run_bind at 1.
  rewrite (on_pending fuel _ _ attached); [|lia|done].
  eexists _, _. split; [reflexivity|]. cbn. split; [|done].
  eapply grows_trans; [|apply grows_attach].
  eapply grows_trans; [apply (grows_app _ [pending []])|]. by split.
Qed.

(** A first attempt, on an adapter that keeps no connection promise:
    it returns a new promise, pending, which the adapter keeps. *)
Lemma fresh_attempt_returns (fuel : nat) (isUnAuthorized : bool) (this : Adapter) :
  9 ≤ fuel →
  privConversationConnectionPromise this = None →
  (∀ config, privConnectionConfigPromise this = Some config →
             AdapterStates.promisesConnection this config) →
  AdapterStates.waitsAfterFirst this →
  ∃ after,
    conversationConnectImpl readers connector sessionId endpoint fuel isUnAuthorized this
    = Returned (Some (S (length (promises this)))) after
    ∧ privConversationConnectionPromise after = Some (S (length (promises this)))
    ∧ ∃ waiting, promises after !! S (length (promises this)) = Some (pending waiting).
Proof.
  intros Hfuel Hnone Htyped Hfirst.
  destruct fuel as [|fuel]; [lia|].
  simpl. unfold mbind at 1, Run_bind at 1. cbn [get]. rewrite Hnone.
  unfold mbind at 1 2 3, Run_bind at 1 2 3. cbn [createNoDashGuid modify].
  assert (Hrest : ∀ entered : Adapter,
            promises entered = promises this →
            collaborators entered = collaborators this →
            connectionStates entered = connectionStates this →
            privConnectionConfigPromise entered = privConnectionConfigPromise this →
            privConversationConnectionPromise entered = None →
            ∃ after,
              (this0 ← get;
               emit [onPreConnectionStart (privConversationAuthFetchEventId this0)
                       (privConnectionId this0)];;
               emit [(if isUnAuthorized then fetchOnExpiry else fetch)
                       (privConversationAuthFetchEventId this0)];;
               authPromise ← handedOut;
               continuationDeferral ← newPromise (pending []);
               on readers connector sessionId endpoint fuel authPromise
                 (authContinuation isUnAuthorized continuationDeferral);;
               modify (setPrivConversationConnectionPromise (Some continuationDeferral));;
               loop ← startMessageLoop readers connector sessionId endpoint fuel;
               modify (setPrivConnectionLoop (Some loop));;
               this1 ← get;
               mret (privConversationConnectionPromise this1)) entered
              = Returned (Some (S (length (promises this)))) after
              ∧ privConversationConnectionPromise after = Some (S (length (promises this)))
              ∧ ∃ waiting,
                  promises after !! S (length (promises this)) = Some (pending waiting)).
  { intros entered Htable Hscript Hstates Hconfig Hentered.
    unfold mbind at 1, Run_bind at 1. cbn [get].
    unfold mbind at 1, Run_bind at 1. cbn [emit modify].
    unfold mbind at 1, Run_bind at 1. cbn [emit modify].
    unfold mbind at 1, Run_bind at 1.
    lazymatch goal with
    | |- context [handedOut ?fetching] =>
        destruct (handedOut_first fetching) as (born & Hhanded & Hborn & Hlater)
    end.
    { unfold AdapterStates.waitsAfterFirst in *. cbn. by rewrite Hscript. }
    rewrite Hhanded. cbn [promises setLog collaborators] in *. rewrite Htable, Hscript in *.
    unfold mbind at 1, Run_bind at 1. cbn [newPromise].
    assert (Hindex : length (promises this ++ [born]) = S (length (promises this))).
    { rewrite length_app. cbn. lia. }
    cbn [promises setPromises setCollaborators setLog]. rewrite Hindex.
    unfold mbind at 1, Run_bind at 1.
    lazymatch goal with
    | |- context [on _ _ _ _ _ _ _ ?fetched] => set (attempt := fetched)
    end.
    assert (Hattached :
              ∃ attached opened,
                on readers connector sessionId endpoint fuel (length (promises this))
                  (authContinuation isUnAuthorized (S (length (promises this)))) attempt
                = Returned tt attached
                ∧ promises attached !! S (length (promises this)) = Some (pending [])
                ∧ (∀ index state, promises this !! index = Some state →
                                  promises attached !! index = Some state)
                ∧ connectionStates attached = connectionStates this ++ opened
                ∧ (Disconnected ∉ opened)
                ∧ privConnectionConfigPromise attached = privConnectionConfigPromise this
                ∧ AdapterStates.answersLater attached).
    { assert (Hwaiting : promises attempt !! S (length (promises this)) = Some (pending [])).
      { subst attempt. cbn. apply list_lookup_middle. by rewrite Hindex. }
      assert (Hold : ∀ index state, promises this !! index = Some state →
                                    promises attempt !! index = Some state).
      { intros index state Hstate. subst attempt. cbn. by do 2 apply lookup_app_l_Some. }
      assert (Hlater' : AdapterStates.answersLater attempt).
      { intros answer. subst attempt. cbn. apply Hlater. }
      destruct Hborn as [-> | [result ->]].
      - exists (setPromises
                  (<[length (promises this)
                     := pending ([] ++ [authContinuation isUnAuthorized
                                          (S (length (promises this)))])]>
                     (promises attempt)) attempt), [].
        split.
        { apply on_pending; [lia|]. subst attempt. cbn.
          apply lookup_app_l_Some. by apply list_lookup_middle. }
        cbn [promises setPromises connectionStates privConnectionConfigPromise].
        split; [by rewrite list_lookup_insert_ne by lia|].
        split.
        { intros index state Hstate. rewrite list_lookup_insert_ne; [by apply Hold|].
          apply lookup_lt_Some in Hstate. lia. }
        split; [subst attempt; cbn; by rewrite Hstates, app_nil_r|].
        split; [by intros ?%elem_of_nil|]. split; [by subst attempt|]. exact Hlater'.
      - destruct fuel as [|calls]; [lia|].
        destruct (authContinuation_opens calls attempt isUnAuthorized
                    (S (length (promises this))) result)
          as (opened & more & Hopened & Htable' & Hstates' & _ & Hconfig' & Hlater'');
          [lia|done|].
        exists opened, [StateNone]. split.
        { rewrite on_resolved with (result := result); [done|].
          subst attempt. cbn. apply lookup_app_l_Some. by apply list_lookup_middle. }
        split; [rewrite Htable'; by apply lookup_app_l_Some|].
        split.
        { intros index state Hstate. rewrite Htable'. by apply lookup_app_l_Some, Hold. }
        split; [rewrite Hstates'; subst attempt; cbn; by rewrite Hstates|].
        split; [by intros [=]%list_elem_of_singleton|].
        split; [rewrite Hconfig'; by subst attempt|done]. }
    destruct Hattached
      as (attached & opened & Hon & Hwaiting & Hold & Hstates' & Hopened & Hconfig' & Hlater').
    rewrite Hon. unfold mbind at 1, Run_bind at 1. cbn [modify].
    destruct (startMessageLoop_while_pending fuel
                (setPrivConversationConnectionPromise (Some (S (length (promises this))))
                   attached)
                (S (length (promises this))) [])
      as (loop & looping & Hreturned & Hgrows & Hkept).
    { lia. }
    { done. }
    { exact Hwaiting. }
    { intros config Hkept. cbn in Hkept.
      apply (promisesConnection_extended this _ _ opened); [exact Hold|exact Hstates'|done|].
      apply Htyped. congruence. }
    { exact Hlater'. }
    unfold mbind at 1, Run_bind at 1. rewrite Hreturned.
    unfold mbind at 1, Run_bind at 1. cbn [modify].
    unfold mbind at 1, Run_bind at 1. cbn [get mret Run_ret].
    eexists. split; [cbn; by rewrite Hkept|]. cbn. split; [done|].
    destruct Hgrows as [_ Hpending]. by apply (Hpending _ []). }
  destruct (bool_decide (privConnectionId this = undefined)).
  - unfold mbind at 1, Run_bind at 1. cbn [createNoDashGuid modify].
    unfold mbind at 1, Run_bind at 1. apply Hrest; done.
  - unfold mbind at 1, Run_bind at 1. cbn [mret Run_ret]. apply Hrest; done.
Qed.


(** C2. The open continuation of a first attempt runs with status 403
    while the connection promise of that attempt is still pending (as it
    is whenever the socket answers after [conversationConnectImpl] has
    returned). The call [conversationConnectImpl(true)] it makes finds
    that promise and hands it back: nothing is logged, so no credential
    is fetched by [fetchOnExpiry] and no connection is created or
    opened; the continuation only queues itself behind the promise it
    was to complete. *)
Theorem refused_first_attempt_is_not_retried (fuel : nat) (this : Adapter)
    (connection continuationDeferral promise : nat) (handlers : list Handler)
    (why : string) :
  privConversationConnectionPromise this = Some promise →
  promises this !! promise = Some (pending handlers) →
  ∃ after,
    call readers connector sessionId endpoint (S (S fuel))
      (openContinuation false connection continuationDeferral)
      (inr (openValue {| statusCode := 403; reason := why |})) this
    = Returned tt after
    ∧ log after = log this
    ∧ connectionStates after = connectionStates this
    ∧ privConversationConnectionPromise after = Some promise
    ∧ promises after
      = <[promise := pending (handlers ++ [forward continuationDeferral])]> (promises this).
Proof.
  intros Hpromise Hpending. eexists. split.
  - simpl. unfold catch, mbind, Run_bind. cbn [get]. rewrite Hpromise, Hpending.
    cbn [mret Run_ret]. rewrite Hpending. reflexivity.
  - done.
Qed.

(** One round of the receive loop on an adapter whose configuration
    promise holds a live connection: it asks that connection for the
    next frame and returns its custodian promise, still pending. *)
Lemma receive_reads_on (fuel : nat) (this : Adapter) (config connection : nat) :
  4 ≤ fuel →
  privConnectionConfigPromise this = Some config →
  promises this !! config = Some (resolved (connectionValue connection)) →
  connectionStates this !! connection ≠ Some Disconnected →
  AdapterStates.answersLater this →
  ∃ after,
    receiveConversationMessageOverride readers connector sessionId endpoint fuel this
    = Returned (length (promises this)) after
    ∧ AdapterStates.grows (promises this ++ [pending []]) (promises after)
    ∧ log after = log this ++ [read connection].
Proof.
  intros Hfuel Hconfig Hresolved Hstate Hlater.
  destruct fuel as [|[|fuel]]; [lia..|].
  remember (S fuel) as calls eqn:Hcalls.
  simpl. unfold mbind at 1, Run_bind at 1. cbn [newPromise].
  set (waiting := setPromises (promises this ++ [pending []]) this).
  assert (Hconfigured :
            configConnection readers connector sessionId endpoint calls waiting
            = Returned config waiting).
  { subst calls. simpl. unfold mbind at 1, Run_bind at 1. cbn [get].
    change (privConnectionConfigPromise waiting) with (privConnectionConfigPromise this).
    rewrite Hconfig. change (promises waiting) with (promises this ++ [pending []]).
    rewrite (lookup_app_l_Some _ _ _ _ Hresolved).
    change (connectionStates waiting) with (connectionStates this).
    by rewrite bool_decide_eq_false_2. }
  unfold mbind at 1, Run_bind at 1. rewrite Hconfigured.
  unfold mbind at 1, Run_bind at 1. subst calls.
  rewrite (on_resolved fuel config _ (connectionValue connection)).
  2:{ by apply lookup_app_l_Some. }
  destruct (readConnection_waits fuel waiting (length (promises this)) connection)
    as (after & Hread & Hgrows & _ & _ & Hlog); [lia|done|].
  rewrite Hread. exists after. split; [reflexivity|]. done.
Qed.

(** The receive loop, given a frame while the adapter is neither
    disposed nor told to stop and holds a live connection, returns
    after raising the events of the frame switch: when the switch went
    through, it then asks the connection for the next frame, and that
    is all it logs; when the switch threw, it logs nothing more and
    rejects the promise of this round with the error. *)
Lemma receive_loop_raises_dispatched_events (fuel : nat) (this : Adapter)
    (communicationCustodian continuationDeferral config connection : nat)
    (message : ConversationConnectionMessage) :
  privConversationIsDisposed this = false →
  terminateMessageLoop this = false →
  privConnectionConfigPromise this = Some config →
  promises this !! config = Some (resolved (connectionValue connection)) →
  connectionStates this !! connection ≠ Some Disconnected →
  promises this !! continuationDeferral = Some (pending []) →
  AdapterStates.answersLater this →
  5 ≤ fuel →
  ∃ after,
    call readers connector sessionId endpoint fuel
      (messageContinuation communicationCustodian continuationDeferral)
      (inr (messageValue message)) this
    = Returned tt after
    ∧ match dispatch readers connector sessionId message with
      | (events, inr _) =>
          log after = log this ++ (raised <$> events) ++ [read connection]
      | (events, inl error) =>
          log after = log this ++ (raised <$> events)
          ∧ promises after !! continuationDeferral = Some (rejected (failedWith error))
      end.
Proof.
  intros Hdisposed Hterminate Hconfig Hresolved Hstate Hdeferral Hlater Hfuel.
  destruct fuel as [|fuel]; [lia|].
  simpl. unfold catch at 1. unfold mbind at 1 2, Run_bind at 1 2. cbn [get].
  rewrite Hdisposed, Hterminate. cbn [orb andb negb].
  unfold process. destruct (dispatch readers connector sessionId message) as [events [error|[]]].
  - unfold mbind at 1 2, Run_bind at 1 2. cbn [emit modify throwError].
    destruct fuel as [|fuel]; [lia|].
    simpl. unfold mbind at 1, Run_bind at 1. cbn [get setLog promises].
    rewrite Hdeferral. unfold mbind at 1, Run_bind at 1. cbn [setPromise modify foldl].
    eexists. split; [reflexivity|]. cbn. split; [done|].
    apply list_lookup_insert_eq. by eapply lookup_lt_Some.
  - unfold mbind at 1, Run_bind at 1. cbn [emit modify].
    destruct (receive_reads_on fuel (setLog (log this ++ (raised <$> events)) this)
                config connection)
      as (after & Hreceived & Hgrows & Hlog); [lia|done..|].
    rewrite Hreceived. destruct Hgrows as [_ Hwaiting].
    destruct (Hwaiting (length (promises this)) []) as [attached Hattached].
    { by apply list_lookup_middle. }
    change (promises (setLog (log this ++ (raised <$> events)) this)) with (promises this).
    rewrite (on_pending fuel _ _ attached); [|lia|done].
    eexists. split; [reflexivity|]. cbn. rewrite Hlog. cbn. by rewrite <- app_assoc.
Qed.

End AdapterProperties.

(** * The properties at the sample sessions *)

Section AdapterSamples.

Import ConversationServiceAdapter.

Lemma translation_frames_witness :
  dispatch (Sample.readers true) Sample.connector "session" (Sample.emptyFrame "final")
  = ([], inr tt)
  ∧ ∃ result,
      text result = defined ""
      ∧ dispatch (Sample.readers false) Sample.connector "session" (Sample.emptyFrame "partial")
        = ([translationReceived partial result "session"], inr tt).
Proof.
  split.
  - refine (proj1 (translation_frames (Sample.readers true) Sample.connector "session"
                     (Sample.emptyFrame "final") "final" eq_refl (or_intror eq_refl))
              eq_refl (or_intror eq_refl)).
  - refine (proj2 (translation_frames (Sample.readers false) Sample.connector "session"
                     (Sample.emptyFrame "partial") "partial" eq_refl (or_introl eq_refl))
              eq_refl eq_refl).
Defined.


Lemma refused_first_attempt_is_not_retried_witness :
  ∃ after,
    call (Sample.readers false) Sample.connector "session" Sample.connectEndpoint 16
      (openContinuation false 0 5) (inr (openValue Sample.forbidden)) Sample.opening
    = Returned tt after
    ∧ log after = log Sample.opening
    ∧ connectionStates after = connectionStates Sample.opening
    ∧ privConversationConnectionPromise after = Some 1
    ∧ promises after
      = <[1 := pending ([configContinuation 3] ++ [forward 5])]> (promises Sample.opening).
Proof.
  apply (refused_first_attempt_is_not_retried (Sample.readers false) Sample.connector
           "session" Sample.connectEndpoint 14 Sample.opening 0 5 1 [configContinuation 3]
           "Forbidden");
    reflexivity.
Defined.

(** The whole exchange: after the 403 the log shows one credential
    fetch, by [fetch], and one connection opened; the connection
    promise (1) and the promise of the open continuation (5) wait for
    each other. *)
Example refused_attempt_log :
  log Sample.refused
  = [onPreConnectionStart (defined (guid 0)) (defined (guid 1));
     fetch (defined (guid 0));
     onAuthCompleted false;
     create 0 (authValue "credential") (defined (guid 1));
     open 0].
Proof. reflexivity. Qed.

Example refused_attempt_waits :
  privConversationConnectionPromise Sample.refused = Some 1
  ∧ promises Sample.refused !! 1 = Some (pending [configContinuation 3; forward 5])
  ∧ promises Sample.refused !! 5 = Some (pending [forward 1]).
Proof. repeat split. Qed.

Lemma receive_loop_raises_dispatched_events_witness :
  ∃ after,
    call (Sample.readers false) Sample.connector "session" Sample.connectEndpoint 16
      (messageContinuation 2 8) (inr (messageValue (Sample.emptyFrame "partial")))
      Established.established
    = Returned tt after
    ∧ match dispatch (Sample.readers false) Sample.connector "session"
              (Sample.emptyFrame "partial") with
      | (events, inr _) =>
          log after = log Established.established ++ (raised <$> events) ++ [read 0]
      | (events, inl error) =>
          log after = log Established.established ++ (raised <$> events)
          ∧ promises after !! 8 = Some (rejected (failedWith error))
      end.
Proof.
  apply (receive_loop_raises_dispatched_events (Sample.readers false) Sample.connector
           "session" Sample.connectEndpoint 16 Established.established 2 8 3 0
           (Sample.emptyFrame "partial")); try reflexivity.
  - vm_compute. discriminate.
  - intros answer Hanswer. vm_compute in Hanswer. by apply elem_of_nil in Hanswer.
  - lia.
Defined.

End AdapterSamples.

(** * More properties of the facade's commands *)

Section CommandProperties.

Import Conversation ConversationCommands.

Variable textMessageMaxLength : nat.

(** With the disposed flag set, every command stops at its first check:
    the failure continuation, if there is one, gets the disposed-object
    error, and nothing else happens. *)
Theorem flagged_commands_fail_fast (this : ConversationImpl) (userId message : JsString)
    (reference : UserReference) (cb err : option Callback) :
  privIsDisposed this = true →
  lockConversationAsync this cb err = handleError ObjectDisposed err
  ∧ unlockConversationAsync this cb err = handleError ObjectDisposed err
  ∧ muteAllParticipantsAsync this cb err = handleError ObjectDisposed err
  ∧ unmuteAllParticipantsAsync this cb err = handleError ObjectDisposed err
  ∧ muteParticipantAsync this userId cb err = handleError ObjectDisposed err
  ∧ unmuteParticipantAsync this userId cb err = handleError ObjectDisposed err
  ∧ removeParticipantAsync this reference cb err = handleError ObjectDisposed err
  ∧ sendTextMessageAsync textMessageMaxLength this message cb err
    = handleError ObjectDisposed err.
Proof.
  intros Hflag.
  unfold lockConversationAsync, unlockConversationAsync, muteAllParticipantsAsync,
    unmuteAllParticipantsAsync, muteParticipantAsync, unmuteParticipantAsync,
    setParticipantMuted, removeParticipantAsync, sendTextMessageAsync,
    throwIfEitherDisposed.
  rewrite Hflag. repeat split.
Qed.

(** ** Counting the requests of a command *)

Lemma requests_handleError (error : JsError) (err : option Callback) :
  requests (handleError error err) = [].
Proof. by destruct err. Qed.

Lemma requests_bind {A B} (m : Try Effect A) (f : A → Try Effect B) :
  requests (fst (m ≫= f))
  = requests (fst m)
    ++ match snd m with
       | inr a => requests (fst (f a))
       | inl _ => []
       end.
Proof.
  destruct m as [sofar [error|a]]; cbn; [by rewrite app_nil_r|].
  destruct (f a) as [more result]. cbn. apply omap_app.
Qed.

Lemma requests_tryCatch (body : Try Effect unit) (err : option Callback) :
  requests (tryCatch body (λ error, handleError error err)) = requests (fst body).
Proof.
  destruct body as [sofar [error|[]]]; cbn; [|done].
  unfold requests. rewrite omap_app. fold (requests (handleError error err)).
  by rewrite requests_handleError, app_nil_r.
Qed.

Lemma quiet_bind {A B} (m : Try Effect A) (f : A → Try Effect B) :
  quiet m → (∀ a, quiet (f a)) → quiet (m ≫= f).
Proof.
  unfold quiet. intros Hm Hf. rewrite requests_bind, Hm. destruct (snd m); [done|apply Hf].
Qed.

Lemma sends_bind {A B} (P : Request → Prop) (m : Try Effect A) (f : A → Try Effect B) :
  quiet m → (∀ a, sends P (f a)) → sends P (m ≫= f).
Proof.
  unfold quiet, sends. intros Hm Hf. rewrite requests_bind, Hm.
  destruct (snd m); [by left|apply Hf].
Qed.

Lemma sends_weaken {A} (P Q : Request → Prop) (m : Try Effect A) :
  (∀ request, P request → Q request) → sends P m → sends Q m.
Proof. intros HPQ [Hnone | (request & Hone & HP)]; [by left|right; eauto]. Qed.

(** A check for a blank string lets the rest run only on a string that
    is not blank. *)
Lemma sends_after_check {B} (P : Request → Prop) (param : JsString) (name : Message)
    (rest : Try Effect B) :
  (Contracts.isNullOrWhitespace param = false → sends P rest) →
  sends P (Contracts.throwIfNullOrWhitespace param name;; rest).
Proof.
  intros Hrest. unfold Contracts.throwIfNullOrWhitespace.
  destruct (Contracts.isNullOrWhitespace param); [by left|].
  unfold skip. rewrite Try_ret_bind. by apply Hrest.
Qed.

Lemma quiet_mret {A} (a : A) : quiet (mret a : Try Effect A).
Proof. done. Qed.

Lemma quiet_throw {A} (error : JsError) : quiet (throw error : Try Effect A).
Proof. done. Qed.

Lemma quiet_member {A} (name : string) (object : option A) :
  quiet (member (E := Effect) name object).
Proof. by destruct object. Qed.

Lemma quiet_throwIfDisposed (isDisposed : bool) :
  quiet (Contracts.throwIfDisposed (E := Effect) isDisposed).
Proof. by destruct isDisposed. Qed.

Lemma quiet_throwIfNullOrUndefined {A} `{Contracts.Nullish A} (param : A) (name : Message) :
  quiet (Contracts.throwIfNullOrUndefined (E := Effect) param name).
Proof. unfold Contracts.throwIfNullOrUndefined. by destruct (Contracts.isNullOrUndefined _). Qed.

Lemma quiet_throwIfNullOrWhitespace (param : JsString) (name : Message) :
  quiet (Contracts.throwIfNullOrWhitespace (E := Effect) param name).
Proof. unfold Contracts.throwIfNullOrWhitespace. by destruct (Contracts.isNullOrWhitespace _). Qed.

Lemma quiet_reportIf (condition : bool) (message : Message) (err : option Callback) :
  quiet (reportIf condition message err).
Proof. destruct condition; [apply requests_handleError|done]. Qed.

Lemma quiet_canSend (this : ConversationImpl) : quiet (canSend (E := Effect) this).
Proof.
  unfold canSend. destruct (privIsConnected this); [|done].
  apply quiet_bind; [apply quiet_member|]. intros registry. apply quiet_mret.
Qed.

Lemma quiet_canSendAsHost (this : ConversationImpl) : quiet (canSendAsHost (E := Effect) this).
Proof.
  unfold canSendAsHost. destruct (privIsConnected this); [|done].
  apply quiet_bind; [apply quiet_member|]. intros registry. apply quiet_mret.
Qed.

Lemma quiet_me (this : ConversationImpl) : quiet (me (E := Effect) this).
Proof.
  unfold me. apply quiet_bind; [apply quiet_member|]. intros registry.
  apply quiet_bind; [apply quiet_member|]. intros p. apply quiet_mret.
Qed.

Lemma quiet_participants (this : ConversationImpl) :
  quiet (participants (E := Effect) this).
Proof.
  unfold participants. apply quiet_bind; [apply quiet_member|]. intros registry.
  apply quiet_mret.
Qed.

Lemma sends_send (P : Request → Prop) (this : ConversationImpl) (request : Request)
    (cb err : option Callback) :
  P request → sends P (send this request cb err).
Proof.
  intros HP. unfold send.
  destruct (privConversationRecognizer this); [right; by exists request|by left].
Qed.

Lemma sends_throw {A} (P : Request → Prop) (error : JsError) :
  sends P (throw error : Try Effect A).
Proof. by left. Qed.

Ltac quiet_step :=
  lazymatch goal with
  | |- quiet (mbind _ _) => apply quiet_bind; [|intros ?]
  | |- sends _ (mbind _ (Contracts.throwIfNullOrWhitespace _ _)) =>
      apply sends_after_check; intros ?
  | |- sends _ (mbind _ (mret _)) => rewrite Try_ret_bind
  | |- sends _ (mbind _ _) => apply sends_bind; [|intros ?]
  | |- sends _ (send _ _ _ _) => apply sends_send
  | |- sends _ (throw _) => apply sends_throw
  | |- quiet (mret _) => apply quiet_mret
  | |- quiet (throw _) => apply quiet_throw
  | |- quiet (member _ _) => apply quiet_member
  | |- quiet (Contracts.throwIfDisposed _) => apply quiet_throwIfDisposed
  | |- quiet (Contracts.throwIfNullOrUndefined _ _) => apply quiet_throwIfNullOrUndefined
  | |- quiet (Contracts.throwIfNullOrWhitespace _ _) => apply quiet_throwIfNullOrWhitespace
  | |- quiet (reportIf _ _ _) => apply quiet_reportIf
  | |- quiet (canSend _) => apply quiet_canSend
  | |- quiet (canSendAsHost _) => apply quiet_canSendAsHost
  | |- quiet (me _) => apply quiet_me
  | |- quiet (participants _) => apply quiet_participants
  end.

(** The two disposal checks pass only on a facade that is not disposed
    and has a recognizer that is not disposed. *)
Lemma throwIfEitherDisposed_cases (this : ConversationImpl) :
  (∃ error, throwIfEitherDisposed this = ([], inl error))
  ∨ (throwIfEitherDisposed this = mret tt
     ∧ privIsDisposed this = false
     ∧ ∃ recognizer,
         privConversationRecognizer this = Some recognizer
         ∧ recognizerIsDisposed recognizer = false).
Proof.
  unfold throwIfEitherDisposed.
  destruct (privIsDisposed this); [left; by eexists|].
  destruct (privConversationRecognizer this) as [[flag]|]; [|left; by eexists].
  destruct flag; [left; by eexists|]. right. eauto.
Qed.

(** The check for the conversation data and the rest of a command. *)
Lemma guarded_rest (P : Request → Prop) (this : ConversationImpl) (rest : Try Effect unit) :
  sends P rest →
  sends (λ request, P request ∧ is_Some (privRoom this))
    (Contracts.throwIfNullOrUndefined (privRoom this) permissionDeniedSend;; rest).
Proof.
  intros Hrest. unfold Contracts.throwIfNullOrUndefined.
  destruct (privRoom this) as [room|]; [|by left].
  cbn [Contracts.isNullOrUndefined Contracts.option_nullish]. unfold skip.
  rewrite Try_ret_bind. apply (sends_weaken P); [|done]. eauto.
Qed.

(** The shape of a command: the disposal checks, the check for the
    conversation data, and a rest that hands out at most one request. *)
Lemma guarded_command (P : Request → Prop) (this : ConversationImpl) (rest : Try Effect unit)
    (err : option Callback) :
  sends P rest →
  let effects :=
    tryCatch
      (throwIfEitherDisposed this;;
       Contracts.throwIfNullOrUndefined (privRoom this) permissionDeniedSend;;
       rest)
      (λ error, handleError error err) in
  requests effects = []
  ∨ ∃ request, requests effects = [request] ∧ P request ∧ live this.
Proof.
  intros Hrest. cbn zeta. rewrite requests_tryCatch.
  destruct (throwIfEitherDisposed_cases this) as [[error ->] | (-> & Hflag & Hrecognizer)];
    [by left|].
  rewrite Try_ret_bind.
  destruct (guarded_rest P this rest Hrest) as [-> | (request & -> & HP & Hroom)]; [by left|].
  right. exists request. by repeat split.
Qed.

(** The same with a check that hands out nothing before the check for
    the conversation data; the rest may rely on what the check
    established. *)
Lemma guarded_command_after (P : Request → Prop) (Q : Prop) (this : ConversationImpl)
    (before rest : Try Effect unit) (err : option Callback) :
  quiet before → (∀ u, snd before = inr u → Q) → (Q → sends P rest) →
  let effects :=
    tryCatch
      (throwIfEitherDisposed this;;
       before;;
       Contracts.throwIfNullOrUndefined (privRoom this) permissionDeniedSend;;
       rest)
      (λ error, handleError error err) in
  requests effects = []
  ∨ ∃ request, requests effects = [request] ∧ P request ∧ live this.
Proof.
  intros Hbefore Hpassed Hrest. cbn zeta. rewrite requests_tryCatch.
  destruct (throwIfEitherDisposed_cases this) as [[error ->] | (-> & Hflag & Hrecognizer)];
    [by left|].
  unfold quiet in Hbefore. rewrite Try_ret_bind, requests_bind, Hbefore. cbn [app].
  destruct (snd before) as [error|u] eqn:Hresult; [by left|].
  destruct (guarded_rest P this rest (Hrest (Hpassed u eq_refl)))
    as [-> | (request & -> & HP & Hroom)]; [by left|].
  right. exists request. by repeat split.
Qed.

Lemma throwIfNullOrWhitespace_passed (param : JsString) (name : Message) (u : unit) :
  snd (Contracts.throwIfNullOrWhitespace (E := Effect) param name) = inr u →
  Contracts.isNullOrWhitespace param = false.
Proof. unfold Contracts.throwIfNullOrWhitespace. by destruct (Contracts.isNullOrWhitespace _). Qed.

(** A command hands the recognizer at most one request, the one of its
    kind, and none unless the facade is live: not disposed, with a
    recognizer that is not disposed, and with the conversation data. *)
Theorem commands_send_only_when_live (this : ConversationImpl) (userId message : JsString)
    (reference : UserReference) (cb err : option Callback) :
  let only (effects : list Effect) (request : Request) :=
    requests effects = [] ∨ (requests effects = [request] ∧ live this) in
  only (lockConversationAsync this cb err) (sendLockRequest true)
  ∧ only (unlockConversationAsync this cb err) (sendLockRequest false)
  ∧ only (muteAllParticipantsAsync this cb err) (sendMuteAllRequest true)
  ∧ only (unmuteAllParticipantsAsync this cb err) (sendMuteAllRequest false)
  ∧ only (muteParticipantAsync this userId cb err) (sendMuteRequest userId true)
  ∧ only (unmuteParticipantAsync this userId cb err) (sendMuteRequest userId false).
Proof.
  assert (Hshape : ∀ effects (wanted : Request),
            (requests effects = []
             ∨ ∃ request, requests effects = [request] ∧ wanted = request ∧ live this) →
            requests effects = [] ∨ (requests effects = [wanted] ∧ live this)).
  { intros effects wanted [Hnone | (request & Hone & -> & Hlive)]; [by left|by right]. }
  cbn zeta. repeat split; apply Hshape.
  - apply guarded_command; repeat quiet_step; done.
  - apply guarded_command; repeat quiet_step; done.
  - apply (guarded_command_after _ True); [repeat quiet_step..|intros _; repeat quiet_step];
      done.
  - apply guarded_command; repeat quiet_step; done.
  - apply (guarded_command_after _ True); [repeat quiet_step..|intros _; repeat quiet_step];
      done.
  - apply (guarded_command_after _ True); [repeat quiet_step..|intros _; repeat quiet_step];
      done.
Qed.

(** A command about one participant, and a text message, hand the
    recognizer at most one request, none unless the facade is live, and
    none for a blank participant id or a blank message. *)
Theorem commands_never_send_blank (this : ConversationImpl) (userId message : JsString)
    (reference : UserReference) (cb err : option Callback) :
  let only (effects : list Effect) (P : Request → Prop) :=
    requests effects = [] ∨ ∃ request, requests effects = [request] ∧ P request ∧ live this in
  only (muteParticipantAsync this userId cb err)
    (λ request,
       request = sendMuteRequest userId true ∧ Contracts.isNullOrWhitespace userId = false)
  ∧ only (unmuteParticipantAsync this userId cb err)
      (λ request,
         request = sendMuteRequest userId false ∧ Contracts.isNullOrWhitespace userId = false)
  ∧ only (removeParticipantAsync this reference cb err)
      (λ request,
         ∃ wanted,
           request = sendEjectRequest wanted ∧ Contracts.isNullOrWhitespace wanted = false)
  ∧ only (sendTextMessageAsync textMessageMaxLength this message cb err)
      (λ request,
         ∃ text,
           message = defined text ∧ request = sendMessageRequest text
           ∧ Contracts.isNullOrWhitespace message = false).
Proof.
  cbn zeta. repeat split.
  - apply (guarded_command_after _ (Contracts.isNullOrWhitespace userId = false));
      [repeat quiet_step|apply throwIfNullOrWhitespace_passed|].
    intros Hgiven. repeat quiet_step. done.
  - apply (guarded_command_after _ (Contracts.isNullOrWhitespace userId = false));
      [repeat quiet_step|apply throwIfNullOrWhitespace_passed|].
    intros Hgiven. repeat quiet_step. done.
  - apply guarded_command. repeat quiet_step.
    + destruct reference; repeat quiet_step.
    + repeat quiet_step. eauto.
  - apply (guarded_command_after _ (Contracts.isNullOrWhitespace message = false));
      [repeat quiet_step|apply throwIfNullOrWhitespace_passed|].
    intros Hgiven. destruct message as [| |text]; [done..|].
    repeat quiet_step. eauto.
Qed.

(** ** After [close] *)

Lemma close_state (this : ConversationImpl) (andDispose : bool) :
  let closed := fst (close this andDispose) in
  privConversationRecognizer closed = None
  ∧ privIsConnected closed = false
  ∧ privIsDisposed closed = privIsDisposed this
  ∧ privConversationTranslator closed = privConversationTranslator this
  ∧ privRoom closed = privRoom this
  ∧ privParticipants closed = privParticipants this
  ∧ privIsReady closed = privIsReady this.
Proof.
  unfold close. destruct (privConversationRecognizer this), andDispose; cbn; done.
Qed.

(** Once the facade is closed, by [endConversationAsync] or by the
    handlers of a lost connection, the recognizer is forgotten but the
    disposed flag is as it was: a command then fails on reading the
    recognizer's [isDisposed], with a [TypeError] instead of the
    disposed-object error, and sends nothing. *)
Theorem commands_after_close (this : ConversationImpl) (andDispose : bool)
    (userId message : JsString) (reference : UserReference) (cb err : option Callback) :
  privIsDisposed this = false →
  let closed := fst (close this andDispose) in
  let failure := handleError (TypeError "isDisposed") err in
  fst (endConversationAsync this cb err) = fst (close this true)
  ∧ lockConversationAsync closed cb err = failure
  ∧ unlockConversationAsync closed cb err = failure
  ∧ muteAllParticipantsAsync closed cb err = failure
  ∧ unmuteAllParticipantsAsync closed cb err = failure
  ∧ muteParticipantAsync closed userId cb err = failure
  ∧ unmuteParticipantAsync closed userId cb err = failure
  ∧ removeParticipantAsync closed reference cb err = failure
  ∧ sendTextMessageAsync textMessageMaxLength closed message cb err = failure.
Proof.
  intros Hflag. cbn zeta.
  destruct (close_state this andDispose) as (Hrecognizer & _ & Hsame & _).
  split; [unfold endConversationAsync; by destruct (close this true)|].
  unfold lockConversationAsync, unlockConversationAsync, muteAllParticipantsAsync,
    unmuteAllParticipantsAsync, muteParticipantAsync, unmuteParticipantAsync,
    setParticipantMuted, removeParticipantAsync, sendTextMessageAsync,
    throwIfEitherDisposed.
  rewrite Hrecognizer, Hsame, Hflag. repeat split.
Qed.

(** Closing a facade that holds a connection only together with a
    recognizer, as [startConversationAsync] leaves it, a second time
    does nothing: no call is made and the state stays. *)
Theorem close_twice_does_nothing (this : ConversationImpl) (first second : bool) :
  (is_Some (privConversationRecognizerConnection this)
   → is_Some (privConversationRecognizer this)) →
  close (fst (close this first)) second = (fst (close this first), []).
Proof.
  intros Hpaired.
  destruct this as [config properties language token flag room manager recognizer connection
                      connected registry ready translator].
  cbn in Hpaired.
  destruct recognizer as [recognizer|], connection as [c|];
    try (destruct first, second; reflexivity).
  destruct Hpaired as [recognizer Habsurd]; [by eexists|done].
Qed.

End CommandProperties.

(** * Properties of the facade's event handlers *)

Section HandlerProperties.

Import Conversation ConversationHandlers.

Variable translator : ConversationTranslatorCallbacks.

(** ** Looking participants up *)

Lemma find_fmap_same_id (f : IInternalParticipant → IInternalParticipant) (wanted : JsString)
    (l : list IInternalParticipant) :
  (∀ p, id (f p) = id p) →
  find (λ p, bool_decide (id p = wanted)) (f <$> l)
  = f <$> find (λ p, bool_decide (id p = wanted)) l.
Proof.
  intros Hid. induction l as [|p l IH]; [done|].
  cbn. rewrite Hid. destruct (bool_decide (id p = wanted)); [done|apply IH].
Qed.

Lemma find_changeFirst (change : IInternalParticipant → IInternalParticipant)
    (wanted : JsString) (l : list IInternalParticipant) :
  (∀ p, id (change p) = id p) →
  find (λ p, bool_decide (id p = wanted)) (changeFirst wanted change l)
  = change <$> find (λ p, bool_decide (id p = wanted)) l.
Proof.
  intros Hid. induction l as [|p l IH]; [done|].
  cbn. destruct (bool_decide (id p = wanted)) eqn:Hp.
  - cbn. apply bool_decide_eq_true in Hp. by rewrite Hid, bool_decide_eq_true_2.
  - cbn. by rewrite Hp.
Qed.

Lemma id_applyChange (change : AttributeChange) (p : IInternalParticipant) :
  id (applyChange change p) = id p.
Proof. by destruct change. Qed.

(** ** Becoming connected *)

(** A session that is not ready yet counts as connected, after the
    connection opened and a participant list arrived, exactly when the
    list names the local participant; the order of the two events does
    not matter. *)
Theorem session_connected_iff_listed (this : ConversationImpl) (room : IInternalConversation)
    (registry : InternalParticipants.t)
    (e : ConversationServiceAdapter.ParticipantsListEventArgs) (sessionId : string) :
  privRoom this = Some room →
  privParticipants this = Some registry →
  privIsReady this = false →
  let listed :=
    fst (onParticipantsListReceived translator (fst (onConnected translator this)) e
           sessionId) in
  (isConnected listed = true
   ↔ ∃ local,
       local ∈ ConversationServiceAdapter.argsParticipants e
       ∧ id local = InternalParticipants.meId registry)
  ∧ fst (onConnected translator
           (fst (onParticipantsListReceived translator this e sessionId))) = listed.
Proof.
  destruct this as [config properties language token flag stored manager recognizer connection
                      connected participants ready attached].
  cbn. intros -> -> ->.
  unfold onParticipantsListReceived, onConnected, isConnected.
  cbn [fst withPrivIsConnected privRoom privParticipants].
  destruct (Contracts.isNullOrUndefined (ConversationServiceAdapter.sessionToken e)).
  all: cbn [withPrivRoom privParticipants].
  all: unfold InternalParticipants.me, InternalParticipants.getParticipant.
  all: cbn [InternalParticipants.participants InternalParticipants.meId].
  all: destruct (find _ (ConversationServiceAdapter.argsParticipants e)) as [local|] eqn:Hfind.
  all: cbn.
  all: split; [|unfold InternalParticipants.me, InternalParticipants.getParticipant; cbn;
                 rewrite ?Hfind; reflexivity].
  all: split; [intros Hconnected|intros (local' & Hin & Hid)].
  all: try (cbn; rewrite ?Hfind; cbn; reflexivity).
  all: try (cbn in Hconnected; rewrite ?Hfind in Hconnected; cbn in Hconnected;
            discriminate).
  all: try (apply list_elem_of_In in Hin; apply (find_none _ _ Hfind) in Hin;
            by rewrite bool_decide_eq_true_2 in Hin).
  all: exists local; apply find_some in Hfind as [Hin Hid].
  all: split; [by apply list_elem_of_In|by apply bool_decide_eq_true in Hid].
Qed.

(** ** Muting *)

(** After a mute-all command the facade's [isMutedByHost] is false for a
    local host and the commanded value for any other local
    participant. *)
Theorem muteAll_reaches_isMutedByHost (this : ConversationImpl)
    (registry : InternalParticipants.t) (muted : option bool) (sessionId : string) :
  privParticipants this = Some registry →
  isMutedByHost (fst (onMuteAllCommandReceived translator this muted sessionId))
  = inr match InternalParticipants.me registry with
        | Some local => if truthyFlag (isHost local) then Some false else muted
        | None => None
        end.
Proof.
  intros Hregistry. unfold onMuteAllCommandReceived, isMutedByHost. rewrite Hregistry. cbn.
  unfold InternalParticipants.me, InternalParticipants.getParticipant. cbn.
  rewrite (find_fmap_same_id
             (λ p, withIsMuted (if truthyFlag (isHost p) then Some false else muted) p));
    [|done].
  destruct (find _ (InternalParticipants.participants registry)) as [local|]; [|done].
  cbn. unfold truthyFlag. by destruct (isHost local) as [[]|].
Qed.

(** The update a mute-all command announces lists only participants
    whose host flag is false, each with the commanded value. *)
Theorem muteAll_notifies_guests (this : ConversationImpl) (muted : option bool)
    (sessionId : string) (reason : ParticipantChangedReason) (changed : list Participant)
    (session : string) (p : Participant) :
  notified (ParticipantsChanged reason changed session)
  ∈ snd (onMuteAllCommandReceived translator this muted sessionId) →
  p ∈ changed →
  reason = Updated ∧ participantIsHost p = Some false ∧ participantIsMuted p = muted.
Proof.
  unfold onMuteAllCommandReceived, notify.
  destruct (privParticipants this) as [registry|]; cbn; [|by intros Hin%elem_of_nil].
  destruct (privConversationTranslator this); [|by intros Hin%elem_of_nil].
  destruct (participantsChanged translator); [|by intros Hin%elem_of_nil].
  intros Hin%list_elem_of_singleton. injection Hin as -> -> ->.
  unfold toParticipants. cbn.
  intros [Hguest Hp]%list_elem_of_filter.
  apply list_elem_of_fmap in Hp as (q & -> & Hq).
  apply list_elem_of_fmap in Hq as (stored & -> & Hstored).
  cbn in *. split; [done|]. split; [done|]. by rewrite Hguest.
Qed.

(** The registry method of the samples stores a participant it holds
    already, as it is, without a change. *)
Lemma changeFirst_stored (p : IInternalParticipant) (l : list IInternalParticipant) :
  find (λ q, bool_decide (id q = id p)) l = Some p →
  changeFirst (id p) (λ _, p) l = l.
Proof.
  induction l as [|q l IH]; [done|]. cbn.
  destruct (bool_decide (id q = id p)); [by intros [= ->]|].
  intros Hfound. by rewrite IH.
Qed.

Lemma findIndex_found {A} (test : A → bool) (l : list A) (x : A) :
  find test l = Some x → is_Some (InternalParticipants.findIndex test l).
Proof.
  induction l as [|y l IH]; [done|]. cbn. destruct (test y); [by eexists|].
  intros Hfound. destruct (IH Hfound) as [index ->]. by eexists.
Qed.

Lemma replaceOrPush_stored (registry : InternalParticipants.t) (p : IInternalParticipant) :
  InternalParticipants.getParticipant registry (id p) = Some p →
  Scenario.replaceOrPush registry p = registry.
Proof.
  intros Hstored. unfold Scenario.replaceOrPush, InternalParticipants.getParticipantIndex.
  destruct (findIndex_found _ _ _ Hstored) as [index ->].
  rewrite changeFirst_stored; [by destruct registry|done].
Qed.

Section Updates.

Variable addOrUpdateParticipant :
  InternalParticipants.t → IInternalParticipant → InternalParticipants.t.

(** Storing a participant the registry holds already, as it is, leaves
    the registry as it is. *)
Hypothesis stored_again :
  ∀ registry p,
    InternalParticipants.getParticipant registry (id p) = Some p →
    addOrUpdateParticipant registry p = registry.

(** A mute command for the local participant reaches the facade's
    gates: [canSend] is then true exactly when the facade is connected
    and the command unmutes, and [isMutedByHost] is the commanded value
    unless the local participant is the host. *)
Theorem mute_command_reaches_gates (this : ConversationImpl)
    (registry : InternalParticipants.t) (local : IInternalParticipant) (muted : bool)
    (sessionId : string) :
  privParticipants this = Some registry →
  InternalParticipants.me registry = Some local →
  let updated :=
    fst (onParticipantUpdateCommandReceived translator addOrUpdateParticipant this
           (InternalParticipants.meId registry) (setMute (Some muted)) sessionId) in
  canSend (E := Effect) updated = mret (privIsConnected this && negb muted)
  ∧ isMutedByHost updated
    = inr (Some (if truthyFlag (isHost local) then false else muted)).
Proof.
  intros Hregistry Hlocal. cbn zeta.
  unfold onParticipantUpdateCommandReceived. rewrite Hregistry.
  unfold InternalParticipants.me in Hlocal. rewrite Hlocal.
  set (changed :=
         {| InternalParticipants.participants :=
              changeFirst (InternalParticipants.meId registry)
                (applyChange (setMute (Some muted)))
                (InternalParticipants.participants registry);
            InternalParticipants.meId := InternalParticipants.meId registry |}).
  assert (Hid : id local = InternalParticipants.meId registry).
  { unfold InternalParticipants.getParticipant in Hlocal.
    apply find_some in Hlocal as [_ Hid]. by apply bool_decide_eq_true in Hid. }
  assert (Hchanged : InternalParticipants.getParticipant changed
                       (InternalParticipants.meId registry)
                     = Some (withIsMuted (Some muted) local)).
  { unfold InternalParticipants.getParticipant in *. cbn.
    rewrite find_changeFirst; [|apply id_applyChange]. by rewrite Hlocal. }
  assert (Hme : InternalParticipants.me changed = Some (withIsMuted (Some muted) local))
    by exact Hchanged.
  rewrite stored_again; [|by cbn; rewrite Hid].
  cbn [fst]. split.
  - rewrite (canSend_value _ changed); [|reflexivity]. rewrite Hme. reflexivity.
  - unfold isMutedByHost. cbn [privParticipants withPrivParticipants]. rewrite Hme. cbn.
    unfold truthyFlag. by destruct (isHost local) as [[]|].
Qed.

End Updates.

End HandlerProperties.

(** * Properties of the session directory client and the life cycle *)

Section DirectoryProperties.

Import ConversationManager.

Variable config : ConversationConnectionConfig.

(** [leave] with a property collection and a token that is not
    blank. *)
Lemma leave_sends (this : t) (properties : PropertyCollection.t) (sessionToken : JsString)
    (cb err : option Callback) :
  Contracts.isNullOrWhitespace sessionToken = false →
  ∃ endpoint queryParams headers,
    ConversationDirectory.leave this (Some properties) sessionToken cb err
    = [HttpRequest "delete" endpoint queryParams headers cb err]
    ∧ queryParams !! ConversationManager.sessionToken (privRequestParams this)
      = Some sessionToken.
Proof.
  intros Hgiven.
  unfold ConversationDirectory.leave, Contracts.throwIfNullOrUndefined,
    Contracts.throwIfNullOrWhitespace.
  rewrite Hgiven. cbn. eexists _, _, _. split; [reflexivity|]. apply lookup_insert_eq.
Qed.

(** [leave] asks the service to delete the session exactly when it is
    given a property collection and a session token that is not blank:
    it then does nothing else, and the request is a DELETE that carries
    the token in its query. Otherwise no request is made. *)
Theorem leave_requests_iff_valid (this : t) (args : option PropertyCollection.t)
    (sessionToken : JsString) (cb err : option Callback) :
  (is_Some args → Contracts.isNullOrWhitespace sessionToken = false →
   ∃ endpoint queryParams headers,
     ConversationDirectory.leave this args sessionToken cb err
     = [HttpRequest "delete" endpoint queryParams headers cb err]
     ∧ queryParams !! ConversationManager.sessionToken (privRequestParams this)
       = Some sessionToken)
  ∧ (args = None ∨ Contracts.isNullOrWhitespace sessionToken = true →
     ∀ e, e ∈ ConversationDirectory.leave this args sessionToken cb err →
          isHttpRequest e = false).
Proof.
  split.
  - intros [properties ->] Hgiven. by apply leave_sends.
  - unfold ConversationDirectory.leave, Contracts.throwIfNullOrUndefined,
      Contracts.throwIfNullOrWhitespace.
    intros Hinvalid e.
    assert (∀ error, e ∈ handleError error err → isHttpRequest e = false) as Hreported.
    { intros error. destruct err; cbn; [|by intros ?%elem_of_nil].
      by intros ->%list_elem_of_singleton. }
    destruct args as [properties|]; cbn; [|apply Hreported].
    destruct Hinvalid as [?| ->]; [done|]. cbn. apply Hreported.
Qed.

End DirectoryProperties.

Section LifecycleProperties.

Import Conversation ConversationLifecycle ConversationCommands.

Variable config : ConversationManager.ConversationConnectionConfig.
Variable fromRecognizer : Connection.


(** [startConversationAsync] asks the recognizer to connect exactly
    when the facade has its conversation data and its registry, with
    the token of the conversation; whether a recognizer exists already
    makes no difference to that (the error it reports then does not
    stop the method), and the facade is live afterwards unless it is
    disposed. *)
Theorem start_connects_iff_room (this : ConversationImpl) (sessionToken : JsString)
    (cb err : option Callback) :
  let started := startConversationAsync fromRecognizer this cb err in
  (RecognizerConnect sessionToken cb err ∈ snd started
   ↔ ∃ room,
       privRoom this = Some room ∧ sessionToken = token room
       ∧ is_Some (privParticipants this))
  ∧ (RecognizerConnect sessionToken cb err ∈ snd started →
     privIsDisposed this = false → live (fst started)).
Proof.
  cbn zeta. unfold startConversationAsync.
  assert (Hreported : ∀ error,
            RecognizerConnect sessionToken cb err
            ∉ reportIfStarted this err ++ (facade <$> handleError error err)).
  { intros error Hin. unfold reportIfStarted in Hin.
    destruct (privConversationRecognizer this), err; cbn in Hin;
      repeat (apply elem_of_cons in Hin as [Hin|Hin]; [discriminate|]);
      by apply elem_of_nil in Hin. }
  assert (Hstarted : RecognizerConnect sessionToken cb err ∉ reportIfStarted this err).
  { intros Hin. unfold reportIfStarted in Hin.
    destruct (privConversationRecognizer this), err; cbn in Hin;
      repeat (apply elem_of_cons in Hin as [Hin|Hin]; [discriminate|]);
      by apply elem_of_nil in Hin. }
  destruct (privRoom this) as [room|] eqn:Hroom.
  - destruct (privParticipants this) as [registry|] eqn:Hregistry; cbn.
    + split.
      * split.
        -- intros [Hin | Hin%list_elem_of_singleton]%elem_of_app; [done|].
           injection Hin as ->. exists room. by eauto.
        -- intros (room' & [= <-] & -> & _). apply elem_of_app. right.
           apply list_elem_of_here.
      * intros _ Hflag. repeat split; cbn; eauto.
    + split; [|by intros Hin%Hreported].
      split; [by intros Hin%Hreported|]. by intros (room' & _ & _ & [registry Hnone]).
  - cbn. split; [|by intros Hin%Hreported].
    split; [by intros Hin%Hreported|]. by intros (room' & Hnone & _).
Qed.

(** [deleteConversationAsync] leaves the facade as it is: the [dispose]
    it ends with returns at once. When the facade has its properties, a
    conversation with a token that is not blank, and its directory
    client, the one thing the method does is the DELETE request of
    [leave], with that token in its query. *)
Theorem delete_requests_and_keeps_facade (this : ConversationImpl) (cb err : option Callback) :
  fst (deleteConversationAsync config this cb err) = this
  ∧ ∀ properties room manager,
      privProperties this = Some properties →
      privRoom this = Some room →
      Contracts.isNullOrWhitespace (token room) = false →
      privManager this = Some manager →
      ∃ endpoint queryParams headers,
        snd (deleteConversationAsync config this cb err)
        = [directory (ConversationManager.HttpRequest "delete" endpoint queryParams headers
                        cb err)]
        ∧ queryParams !! ConversationManager.sessionToken (ConversationManager.configParams config)
          = Some (token room).
Proof.
  unfold deleteConversationAsync. split.
  - destruct (_ : Try Effect IInternalConversation) as [effects [error|room]]; [done|].
    by rewrite dispose_returns_at_once.
  - intros properties room manager Hproperties Hroom Htoken Hmanager.
    rewrite Hproperties, Hroom, Hmanager. cbn -[ConversationDirectory.leave].
    unfold Contracts.throwIfNullOrWhitespace. rewrite Htoken.
    cbn -[ConversationDirectory.leave].
    destruct (leave_sends (ConversationManager.constructor config) properties (token room)
                cb err Htoken)
      as (endpoint & queryParams & headers & Hleave & Hquery).
    exists endpoint, queryParams, headers. split; [|exact Hquery].
    cbn. by rewrite Hleave.
Qed.

End LifecycleProperties.

(** * The credentials of a create-or-join request *)

Section CredentialProperties.

Import ConversationManager.

Variable config : ConversationConnectionConfig.

Lemma getProperty_insert_ne (args : PropertyCollection.t) (name key : string)
    (value def : JsString) :
  name ≠ key →
  PropertyCollection.getProperty (<[name := value]> args) key def
  = PropertyCollection.getProperty args key def.
Proof. intros Hne. unfold PropertyCollection.getProperty. by rewrite lookup_insert_ne. Qed.

(** Joining needs no credentials: with a conversation code, the
    subscription key, the region and the authorization token of the
    properties are not looked at, so setting any of them changes
    nothing of what [createOrJoin] does. *)
Theorem join_needs_no_credentials (this : t) (args : PropertyCollection.t)
    (conversationCode : JsString) (name : string) (value : JsString)
    (cb err : option Callback) :
  conversationCode ≠ undefined →
  name ∈ [PropertyId.SpeechServiceConnection_Key; PropertyId.SpeechServiceConnection_Region;
          PropertyId.SpeechServiceAuthorization_Token] →
  createOrJoin config this (Some (<[name := value]> args)) conversationCode cb err
  = createOrJoin config this (Some args) conversationCode cb err.
Proof.
  intros Hcode Hname. unfold createOrJoin.
  cbn [Contracts.throwIfNullOrUndefined Contracts.isNullOrUndefined Contracts.option_nullish
       member skip].
  rewrite !Try_ret_bind. rewrite (bool_decide_eq_true_2 _ Hcode).
  repeat (apply elem_of_cons in Hname as [->|Hname]);
    [| | |by apply elem_of_nil in Hname].
  all: by rewrite !getProperty_insert_ne.
Qed.

(** Creating prefers the subscription key: when the properties hold a
    key that is not empty, the authorization token is not looked at. *)
Theorem create_key_wins_over_token (this : t) (args : PropertyCollection.t)
    (value : JsString) (cb err : option Callback) :
  truthy (PropertyCollection.getProperty args PropertyId.SpeechServiceConnection_Key undefined)
  = true →
  createOrJoin config this
    (Some (<[PropertyId.SpeechServiceAuthorization_Token := value]> args)) undefined cb err
  = createOrJoin config this (Some args) undefined cb err.
Proof.
  intros Hkey. unfold createOrJoin.
  cbn [Contracts.throwIfNullOrUndefined Contracts.isNullOrUndefined Contracts.option_nullish
       member skip].
  rewrite !Try_ret_bind. rewrite !getProperty_insert_ne by done. by rewrite Hkey.
Qed.

(** Creating with a subscription key that is the empty string and no
    authorization token: the last check only refuses a key that is
    [null] or [undefined], so the request is made, and it carries the
    region but neither a key nor a token. *)
Theorem create_with_empty_key_sends_without_credentials (this : t)
    (args : PropertyCollection.t) (cb err : option Callback) :
  let read name def := PropertyCollection.getProperty args name def in
  let languageCode :=
    read PropertyId.SpeechServiceConnection_RecoLanguage (defined (defaultLanguageCode config)) in
  let nickname := read PropertyId.ConversationTranslator_Name undefined in
  let endpointHost := read PropertyId.ConversationTranslator_Host (defined (privHost this)) in
  let correlation := read PropertyId.ConversationTranslator_CorrelationId undefined in
  let region := read PropertyId.SpeechServiceConnection_Region undefined in
  let params := privRequestParams this in
  Contracts.isNullOrWhitespace languageCode = false →
  Contracts.isNullOrWhitespace nickname = false →
  Contracts.isNullOrWhitespace endpointHost = false →
  Contracts.isNullOrUndefined region = false →
  read PropertyId.SpeechServiceConnection_Key undefined = defined "" →
  truthy (read PropertyId.SpeechServiceAuthorization_Token undefined) = false →
  ∃ endpoint queryParams,
    createOrJoin config this (Some args) undefined cb err
    = [HttpRequest "post" endpoint queryParams
         (<[subscriptionRegion params := region]>
            (<[clientAppId params := defined (configClientAppId config)]>
               (if truthy correlation
                then <[correlationId params := correlation]> ∅
                else ∅)))
         cb err].
Proof.
  intros read languageCode nickname endpointHost correlation region params
    Hlanguage Hnickname Hhost Hregion Hkey Htoken.
  unfold createOrJoin.
  cbn [Contracts.throwIfNullOrUndefined Contracts.isNullOrUndefined Contracts.option_nullish
       member skip].
  rewrite !Try_ret_bind. unfold Contracts.throwIfNullOrWhitespace.
  fold (read PropertyId.SpeechServiceConnection_RecoLanguage
          (defined (defaultLanguageCode config))).
  fold (read PropertyId.ConversationTranslator_Name undefined).
  fold (read PropertyId.ConversationTranslator_Host (defined (privHost this))).
  fold languageCode nickname endpointHost.
  rewrite Hlanguage, Hnickname, Hhost. unfold skip. rewrite !Try_ret_bind.
  rewrite bool_decide_eq_false_2 by (intros Hsame; by apply Hsame).
  unfold Contracts.throwIfNullOrUndefined.
  fold (read PropertyId.SpeechServiceConnection_Region undefined). fold region.
  rewrite Hregion. unfold skip. rewrite !Try_ret_bind.
  fold (read PropertyId.SpeechServiceConnection_Key undefined).
  fold (read PropertyId.SpeechServiceAuthorization_Token undefined).
  rewrite Hkey, Htoken. cbn. eexists _, _. reflexivity.
Qed.

End CredentialProperties.

(** * More properties of the frame switch *)

Section DispatchProperties.

Import ConversationServiceAdapter.

Variable readers : PayloadReaders.
Variable connector : Connector.
Variable sessionId : string.

(** One frame raises at most one event on the recognizer, whatever its
    type, its command and its payload are. *)
Theorem dispatch_raises_at_most_one_event (message : ConversationConnectionMessage) :
  length (fst (dispatch readers connector sessionId message)) ≤ 1.
Proof.
  unfold dispatch, dispatchCommand, dispatchSpeech, dispatchText, raise, perform, skip, throw.
  repeat case_match; cbn; lia.
Qed.

Lemma getTranslations_snoc (entries : list ITranslationResponsePayload)
    (entry : ITranslationResponsePayload) :
  getTranslations (Some (entries ++ [entry]))
  = <[lang entry := translation entry]> <$> getTranslations (Some entries).
Proof. unfold getTranslations. cbn. by rewrite foldl_app. Qed.

(** [getTranslations] keeps, for every language, the translation of the
    last entry in that language; a list that is [undefined] gives no
    translations at all. *)
Theorem getTranslations_last_wins (entries : list ITranslationResponsePayload) :
  getTranslations None = None
  ∧ ∃ translations,
      getTranslations (Some entries) = Some translations
      ∧ ∀ language,
          translations !! language
          = translation <$> last (filter (λ entry, lang entry = language) entries).
Proof.
  split; [done|].
  induction entries as [|entry entries IH] using rev_ind.
  - exists ∅. split; [done|]. intros language. by rewrite lookup_empty.
  - destruct IH as (translations & Hsofar & Hlast).
    exists (<[lang entry := translation entry]> translations).
    split; [by rewrite getTranslations_snoc, Hsofar|].
    intros language. rewrite filter_app.
    destruct (decide (lang entry = language)) as [<-|Hother].
    + rewrite lookup_insert_eq, filter_cons_True, filter_nil by done.
      by rewrite last_snoc.
    + rewrite lookup_insert_ne, filter_cons_False, filter_nil, app_nil_r by done.
      apply Hlast.
Qed.

End DispatchProperties.

(** * Properties of the speaker profile adapter *)

Section SpeakerProperties.

Import SpeakerIdMessageAdapter.

Lemma append_cons (x : ascii) (a b : string) : String x a +:+ b = String x (a +:+ b).
Proof. reflexivity. Qed.

Lemma append_associative (a b c : string) : (a +:+ b) +:+ c = a +:+ (b +:+ c).
Proof. induction a as [|x a IH]; [done|]. by rewrite !append_cons, IH. Qed.

Lemma prefix_of_append (pattern rest : string) : String.prefix pattern (pattern +:+ rest) = true.
Proof.
  induction pattern as [|x pattern IH]; [by destruct rest|].
  rewrite append_cons. cbn. by destruct (Ascii.ascii_dec x x).
Qed.

Lemma dropChars_of_append (pattern rest : string) :
  dropChars (String.length pattern) (pattern +:+ rest) = rest.
Proof.
  induction pattern as [|x pattern IH]; [by destruct rest|]. rewrite append_cons. exact IH.
Qed.

Lemma braceFree_append (a b : string) :
  braceFree (a +:+ b) = braceFree a && braceFree b.
Proof.
  induction a as [|x a IH]; [done|].
  rewrite append_cons. cbn. rewrite IH. by destruct (Ascii.eqb x "{").
Qed.

Lemma replace_unfold (pattern replacement s : string) :
  replace pattern replacement s
  = if String.prefix pattern s
    then replacement +:+ dropChars (String.length pattern) s
    else match s with
         | EmptyString => EmptyString
         | String c rest => String c (replace pattern replacement rest)
         end.
Proof. by destruct s. Qed.

Lemma prefix_other (name s : string) (x : ascii) :
  negb (Ascii.eqb x "{") = true → String.prefix (String "{" name) (String x s) = false.
Proof.
  intros Hx. cbn [String.prefix]. destruct (Ascii.ascii_dec "{" x) as [<-|Hother]; done.
Qed.

(** A placeholder that follows text without a brace is the first
    occurrence of itself: [replace] fills it in and leaves the rest. *)
Lemma replace_placeholder (name replacement before after : string) :
  braceFree before = true →
  replace (String "{" name) replacement (before +:+ String "{" name +:+ after)
  = before +:+ replacement +:+ after.
Proof.
  intros Hfree. induction before as [|x before IH].
  - change ("" +:+ String "{" name +:+ after) with (String "{" name +:+ after).
    by rewrite replace_unfold, prefix_of_append, dropChars_of_append.
  - cbn in Hfree. apply andb_true_iff in Hfree as [Hx Hfree].
    rewrite !(append_cons x), replace_unfold, prefix_other by done. by rewrite IH.
Qed.

(** Text without a brace holds no placeholder. *)
Lemma replace_absent (name replacement s : string) :
  braceFree s = true → replace (String "{" name) replacement s = s.
Proof.
  intros Hfree. induction s as [|x s IH]; [done|].
  cbn in Hfree. apply andb_true_iff in Hfree as [Hx Hfree].
  rewrite replace_unfold, prefix_other by done. by rewrite IH.
Qed.

(** Without an endpoint and a host among the parameters, every
    operation on a profile goes to the speaker service of the region,
    with the mode and the dependency of the profile type filled into
    the path. *)
Theorem default_uri_names_mode_and_dependency (parameters : PropertyCollection.t)
    (region : string) (profileType : VoiceProfileType) :
  truthy (PropertyCollection.getProperty parameters SpeechServiceConnection_Endpoint undefined)
  = false →
  parameters !! SpeechServiceConnection_Host = None →
  PropertyCollection.getProperty parameters PropertyId.SpeechServiceConnection_Region
    (defined "westus") = defined region →
  braceFree region = true →
  getOperationUri (constructor parameters) profileType
  = "https://" +:+ region +:+ ".api.cognitive.microsoft.com/speaker/"
    +:+ (if bool_decide (profileType = TextIndependentIdentification)
         then "identification" else "verification")
    +:+ "/v2.0/"
    +:+ (if bool_decide (profileType = TextDependentVerification)
         then "text-dependent" else "text-independent")
    +:+ "/profiles".
Proof.
  intros Hendpoint Hhost Hregion Hfree.
  unfold getOperationUri, constructor. cbn [privUri]. rewrite Hendpoint. cbn [negb].
  unfold PropertyCollection.getProperty at 1. rewrite Hhost. cbn [default text].
  rewrite Hregion. cbn [text].
  set (mode := if bool_decide (profileType = TextIndependentIdentification)
               then "identification" else "verification").
  set (dependency := if bool_decide (profileType = TextDependentVerification)
                     then "text-dependent" else "text-independent").
  assert (("https://" +:+ region
           +:+ ".api.cognitive.microsoft.com/speaker/{mode}/v2.0/{dependency}")
          +:+ "/profiles"
          = ("https://" +:+ region +:+ ".api.cognitive.microsoft.com/speaker/")
            +:+ "{mode}" +:+ "/v2.0/{dependency}/profiles") as ->.
  { rewrite !append_associative. reflexivity. }
  rewrite replace_placeholder.
  2:{ rewrite !braceFree_append, Hfree. reflexivity. }
  assert ((("https://" +:+ region +:+ ".api.cognitive.microsoft.com/speaker/")
           +:+ mode +:+ "/v2.0/{dependency}/profiles")
          = ("https://" +:+ region +:+ ".api.cognitive.microsoft.com/speaker/" +:+ mode
             +:+ "/v2.0/")
            +:+ "{dependency}" +:+ "/profiles") as ->.
  { rewrite !append_associative. reflexivity. }
  rewrite replace_placeholder.
  2:{ rewrite !braceFree_append, Hfree. subst mode.
      destruct (bool_decide (profileType = TextIndependentIdentification)); reflexivity. }
  rewrite !append_associative. reflexivity.
Qed.

(** An endpoint given without a placeholder is used as it is, for every
    profile type. *)
Theorem explicit_endpoint_is_kept (parameters : PropertyCollection.t) (endpoint : string)
    (profileType : VoiceProfileType) :
  PropertyCollection.getProperty parameters SpeechServiceConnection_Endpoint undefined
  = defined endpoint →
  endpoint ≠ "" →
  braceFree endpoint = true →
  getOperationUri (constructor parameters) profileType = endpoint.
Proof.
  intros Hendpoint Hgiven Hfree.
  unfold getOperationUri, constructor. cbn [privUri]. rewrite Hendpoint.
  assert (truthy (defined endpoint) = true) as ->.
  { unfold truthy. by destruct endpoint. }
  cbn [negb text].
  rewrite (replace_absent _ _ endpoint Hfree). apply (replace_absent _ _ endpoint Hfree).
Qed.

End SpeakerProperties.

(** * Further properties at the sample sessions *)

Section MoreSamples.

Import Conversation ConversationCommands.

Lemma flagged_commands_fail_fast_witness :
  lockConversationAsync Scenario.flaggedSession Sample.cb Sample.err
  = [InvokeError (callback 1) ObjectDisposed].
Proof.
  apply (flagged_commands_fail_fast 10 Scenario.flaggedSession (defined "bob")
           (defined "hello") (byString "bob") Sample.cb Sample.err).
  reflexivity.
Defined.

Lemma commands_after_close_witness :
  lockConversationAsync (fst (close Sample.hostSession false)) Sample.cb Sample.err
  = [InvokeError (callback 1) (TypeError "isDisposed")].
Proof.
  apply (commands_after_close 10 Sample.hostSession false (defined "bob") (defined "hello")
           (byString "bob") Sample.cb Sample.err).
  reflexivity.
Defined.

Lemma close_twice_does_nothing_witness :
  close (fst (close Sample.hostSession true)) false
  = (fst (close Sample.hostSession true), []).
Proof.
  apply (close_twice_does_nothing Sample.hostSession true false).
  intros _. vm_compute. by eexists.
Defined.

Lemma session_connected_iff_listed_witness :
  isConnected
    (fst (ConversationHandlers.onParticipantsListReceived Scenario.translator
            (fst (ConversationHandlers.onConnected Scenario.translator
                    Scenario.startedSession))
            Scenario.participantList "session"))
  = true.
Proof.
  apply (proj1 (session_connected_iff_listed Scenario.translator Scenario.startedSession
                  Sample.room _ Scenario.participantList "session" eq_refl eq_refl eq_refl)).
  exists Sample.ada. split; [apply list_elem_of_here|reflexivity].
Defined.

Lemma muteAll_reaches_isMutedByHost_witness :
  isMutedByHost
    (fst (ConversationHandlers.onMuteAllCommandReceived Scenario.translator
            Sample.guestSession (Some true) "session"))
  = inr (Some true).
Proof.
  exact (muteAll_reaches_isMutedByHost Scenario.translator Sample.guestSession _ (Some true)
           "session" eq_refl).
Defined.

Lemma muteAll_notifies_guests_witness :
  ConversationHandlers.Updated = ConversationHandlers.Updated
  ∧ participantIsHost (toParticipant (ConversationHandlers.withIsMuted (Some true) Sample.bob))
    = Some false
  ∧ participantIsMuted (toParticipant (ConversationHandlers.withIsMuted (Some true) Sample.bob))
    = Some true.
Proof.
  apply (muteAll_notifies_guests Scenario.translator Sample.hostSession (Some true) "session"
           ConversationHandlers.Updated
           [toParticipant (ConversationHandlers.withIsMuted (Some true) Sample.bob)]
           "session").
  - apply list_elem_of_here.
  - apply list_elem_of_here.
Defined.

Lemma mute_command_reaches_gates_witness :
  let muted :=
    fst (ConversationHandlers.onParticipantUpdateCommandReceived Scenario.translator
           Scenario.replaceOrPush Sample.guestSession (defined "bob")
           (ConversationHandlers.setMute (Some true)) "session") in
  canSend (E := Effect) muted = mret false
  ∧ isMutedByHost muted = inr (Some true).
Proof.
  exact (mute_command_reaches_gates Scenario.translator Scenario.replaceOrPush
           replaceOrPush_stored Sample.guestSession _ Sample.bob true "session"
           eq_refl eq_refl).
Defined.

Lemma leave_requests_iff_valid_witness :
  (∃ endpoint queryParams headers,
     ConversationDirectory.leave (ConversationManager.constructor Sample.connectionConfig)
       (Some Scenario.hostProperties) (defined "session-token") Sample.cb Sample.err
     = [ConversationManager.HttpRequest "delete" endpoint queryParams headers Sample.cb
          Sample.err]
     ∧ queryParams !! "token" = Some (defined "session-token"))
  ∧ ConversationManager.isHttpRequest (ConversationManager.InvokeError (callback 1)
                                         (NullOrWhitespace (invalidArgs "token")))
    = false.
Proof.
  split.
  - apply (proj1 (leave_requests_iff_valid
                    (ConversationManager.constructor Sample.connectionConfig)
                    (Some Scenario.hostProperties) (defined "session-token") Sample.cb
                    Sample.err)); [by eexists|reflexivity].
  - apply (proj2 (leave_requests_iff_valid
                    (ConversationManager.constructor Sample.connectionConfig)
                    (Some Scenario.hostProperties) (defined " ") Sample.cb Sample.err));
      [by right|apply list_elem_of_here].
Defined.


Lemma start_connects_iff_room_witness :
  ConversationLifecycle.RecognizerConnect (defined "session-token") Sample.cb Sample.err
  ∈ snd (ConversationLifecycle.startConversationAsync (connection 2) Sample.hostSession
           Sample.cb Sample.err)
  ∧ live (fst (ConversationLifecycle.startConversationAsync (connection 2)
                 Sample.hostSession Sample.cb Sample.err)).
Proof.
  assert (ConversationLifecycle.RecognizerConnect (defined "session-token") Sample.cb
            Sample.err
          ∈ snd (ConversationLifecycle.startConversationAsync (connection 2)
                   Sample.hostSession Sample.cb Sample.err)) as Hconnects.
  { apply (proj1 (start_connects_iff_room (connection 2) Sample.hostSession
                    (defined "session-token") Sample.cb Sample.err)).
    exists Sample.room. repeat split. by eexists. }
  split; [exact Hconnects|].
  apply (proj2 (start_connects_iff_room (connection 2) Sample.hostSession
                  (defined "session-token") Sample.cb Sample.err) Hconnects).
  reflexivity.
Defined.

Lemma delete_requests_and_keeps_facade_witness :
  ∃ endpoint queryParams headers,
    snd (ConversationLifecycle.deleteConversationAsync Sample.connectionConfig
           Sample.hostSession Sample.cb Sample.err)
    = [ConversationLifecycle.directory
         (ConversationManager.HttpRequest "delete" endpoint queryParams headers Sample.cb
            Sample.err)]
    ∧ queryParams !! "token" = Some (defined "session-token").
Proof.
  apply (proj2 (delete_requests_and_keeps_facade Sample.connectionConfig Sample.hostSession
                  Sample.cb Sample.err)
           (SpeechTranslationConfig.properties Sample.speechConfig) Sample.room
           conversationManager);
    reflexivity.
Defined.

Lemma join_needs_no_credentials_witness :
  ConversationManager.createOrJoin Sample.connectionConfig
    (ConversationManager.constructor Sample.connectionConfig)
    (Some (<[PropertyId.SpeechServiceConnection_Key := defined "key"]>
             Scenario.guestProperties))
    (defined "ABCDE") Sample.cb Sample.err
  = ConversationManager.createOrJoin Sample.connectionConfig
      (ConversationManager.constructor Sample.connectionConfig)
      (Some Scenario.guestProperties) (defined "ABCDE") Sample.cb Sample.err.
Proof.
  apply (join_needs_no_credentials Sample.connectionConfig
           (ConversationManager.constructor Sample.connectionConfig)
           Scenario.guestProperties (defined "ABCDE")
           PropertyId.SpeechServiceConnection_Key (defined "key") Sample.cb Sample.err).
  - discriminate.
  - apply list_elem_of_here.
Defined.

Lemma create_key_wins_over_token_witness :
  ConversationManager.createOrJoin Sample.connectionConfig
    (ConversationManager.constructor Sample.connectionConfig)
    (Some (<[PropertyId.SpeechServiceAuthorization_Token := defined "other-token"]>
             Scenario.hostProperties))
    undefined Sample.cb Sample.err
  = ConversationManager.createOrJoin Sample.connectionConfig
      (ConversationManager.constructor Sample.connectionConfig)
      (Some Scenario.hostProperties) undefined Sample.cb Sample.err.
Proof.
  apply (create_key_wins_over_token Sample.connectionConfig
           (ConversationManager.constructor Sample.connectionConfig)
           Scenario.hostProperties (defined "other-token") Sample.cb Sample.err).
  reflexivity.
Defined.

Lemma create_with_empty_key_sends_without_credentials_witness :
  ∃ endpoint queryParams,
    ConversationManager.createOrJoin Sample.connectionConfig
      (ConversationManager.constructor Sample.connectionConfig)
      (Some Scenario.keylessProperties) undefined Sample.cb Sample.err
    = [ConversationManager.HttpRequest "post" endpoint queryParams
         (<["Ocp-Apim-Subscription-Region" := defined "westus"]>
            (<["X-ClientAppId" := defined "client-app"]> ∅))
         Sample.cb Sample.err].
Proof.
  apply (create_with_empty_key_sends_without_credentials Sample.connectionConfig
           (ConversationManager.constructor Sample.connectionConfig)
           Scenario.keylessProperties Sample.cb Sample.err);
    reflexivity.
Defined.

Lemma default_uri_names_mode_and_dependency_witness :
  SpeakerIdMessageAdapter.getOperationUri
    (SpeakerIdMessageAdapter.constructor
       (<[PropertyId.SpeechServiceConnection_Region := defined "westeurope"]> ∅))
    SpeakerIdMessageAdapter.TextDependentVerification
  = "https://westeurope.api.cognitive.microsoft.com/speaker/verification/v2.0/text-dependent/profiles".
Proof.
  apply (default_uri_names_mode_and_dependency
           (<[PropertyId.SpeechServiceConnection_Region := defined "westeurope"]> ∅)
           "westeurope" SpeakerIdMessageAdapter.TextDependentVerification);
    reflexivity.
Defined.

Lemma explicit_endpoint_is_kept_witness :
  SpeakerIdMessageAdapter.getOperationUri
    (SpeakerIdMessageAdapter.constructor
       (<[SpeakerIdMessageAdapter.SpeechServiceConnection_Endpoint
          := defined "https://speaker.example/profiles"]> ∅))
    SpeakerIdMessageAdapter.TextIndependentIdentification
  = "https://speaker.example/profiles".
Proof.
  apply (explicit_endpoint_is_kept
           (<[SpeakerIdMessageAdapter.SpeechServiceConnection_Endpoint
              := defined "https://speaker.example/profiles"]> ∅)
           "https://speaker.example/profiles"
           SpeakerIdMessageAdapter.TextIndependentIdentification);
    [reflexivity|discriminate|reflexivity].
Defined.

End MoreSamples.
